(** * Apple Business / School Manager API scripts: credential lifecycle
      and resilient call layer

    A shallow embedding of [AxM_OAuth.py], [AxM_GetDeviceInfo_FromList.py],
    [AxM_OrgDevices_To_CSV.py] and [AxM_AssignUnassign_MdmServers.py].

    Python functions become functions in a state-and-exception monad over a
    [World] that holds the clock, the environment file, the token cache
    file, the scripted answers of the three remote hosts and the trace of
    observable effects (prints, sleeps, HTTP requests, file operations). *)

From Stdlib Require Import ZArith List String Ascii Bool Lia DecimalString Sorted.
Import ListNotations.

Set Warnings "-register-all".

Open Scope string_scope.
Open Scope Z_scope.

(* ===================================================================== *)
(** * Python values *)
(* ===================================================================== *)

Module Py.

(** What [json.loads] produces. JSON numbers are restricted to integers:
    every number the scripts compute with ([expires_in], [expires_at]) is
    an integer count of seconds. A [JDict] lists its bindings in insertion
    order; lookup takes the first binding of a key. *)
Inductive json : Type :=
| JNull
| JBool (b : bool)
| JNum (z : Z)
| JStr (s : string)
| JList (l : list json)
| JDict (d : list (string * json)).

(** Python exceptions the scripts can meet. *)
Inductive exn : Type :=
| RuntimeError (msg : string)
| ValueError
| ValueErrorOf (msg : string)
| JSONDecodeError
| OverflowError
| TypeError
| KeyError (key : string)
| AttributeError
| OSError
| FileNotFoundError (msg : string)
| ConnectionError
| RequestException
| HTTPError
| InvalidToken.

(** [except ValueError]: [json.JSONDecodeError] is a subclass. *)
Definition is_ValueError (e : exn) : bool :=
  match e with
  | ValueError | ValueErrorOf _ | JSONDecodeError => true
  | _ => false
  end.

Definition is_OSError (e : exn) : bool :=
  match e with
  | OSError | FileNotFoundError _ => true
  | _ => false
  end.

(** [str(e)]: the message of an exception raised by the scripts; for an
    exception raised inside a library, the name of its class stands for
    the library's text. *)
Definition exn_str (e : exn) : string :=
  match e with
  | RuntimeError msg | ValueErrorOf msg | FileNotFoundError msg => msg
  | ValueError => "ValueError"
  | JSONDecodeError => "JSONDecodeError"
  | OverflowError => "OverflowError"
  | TypeError => "TypeError"
  | KeyError k => "'" ++ k ++ "'"
  | AttributeError => "AttributeError"
  | OSError => "OSError"
  | ConnectionError => "ConnectionError"
  | RequestException => "RequestException"
  | HTTPError => "HTTPError"
  | InvalidToken => "InvalidToken"
  end.

Definition is_JSONDecodeError (e : exn) : bool :=
  match e with
  | JSONDecodeError => true
  | _ => false
  end.

(** ** Strings *)

Definition is_upper (c : ascii) : bool :=
  (65 <=? Z.of_nat (nat_of_ascii c)) && (Z.of_nat (nat_of_ascii c) <=? 90).

Definition lower_ascii (c : ascii) : ascii :=
  if is_upper c then ascii_of_nat (nat_of_ascii c + 32) else c.

(** [str.lower()] on the bytes of the string. Outside ASCII the only
    characters Python lowers to an ASCII letter are U+212A (to k) and
    U+0130 (to i followed by a combining dot); neither can create an
    occurrence of "school" or "business", the only substrings looked for
    in a lowered string. *)
Fixpoint lower (s : string) : string :=
  match s with
  | EmptyString => EmptyString
  | String c s' => String (lower_ascii c) (lower s')
  end.

(** [sub in s] for strings. *)
Fixpoint contains (sub s : string) : bool :=
  if prefix sub s then true
  else match s with
       | EmptyString => false
       | String _ s' => contains sub s'
       end.

Definition str_eqb (a b : string) : bool := String.eqb a b.

Definition is_space (c : ascii) : bool :=
  let n := nat_of_ascii c in
  (Nat.eqb n 32) || ((Nat.leb 9 n) && (Nat.leb n 13)).

Fixpoint lstrip (s : string) : string :=
  match s with
  | String c s' => if is_space c then lstrip s' else s
  | EmptyString => EmptyString
  end.

Fixpoint rev_string (s acc : string) : string :=
  match s with
  | EmptyString => acc
  | String c s' => rev_string s' (String c acc)
  end.

Definition rstrip (s : string) : string :=
  rev_string (lstrip (rev_string s EmptyString)) EmptyString.

Definition strip (s : string) : string := rstrip (lstrip s).

Definition is_lower (c : ascii) : bool :=
  (97 <=? Z.of_nat (nat_of_ascii c)) && (Z.of_nat (nat_of_ascii c) <=? 122).

Definition upper_ascii (c : ascii) : ascii :=
  if is_lower c then ascii_of_nat (nat_of_ascii c - 32) else c.

(** [str.upper()] on ASCII letters. *)
Fixpoint upper (s : string) : string :=
  match s with
  | EmptyString => EmptyString
  | String c s' => String (upper_ascii c) (upper s')
  end.

(** [s.strip(chars)] for a one-character [chars]. *)
Fixpoint lstrip_char (ch : ascii) (s : string) : string :=
  match s with
  | String c s' => if Ascii.eqb c ch then lstrip_char ch s' else s
  | EmptyString => EmptyString
  end.

Definition strip_char (ch : ascii) (s : string) : string :=
  rev_string (lstrip_char ch (rev_string (lstrip_char ch s) EmptyString))
             EmptyString.

(** The text after the first occurrence of [sub] in [s]. *)
Fixpoint after_first (sub s : string) : option string :=
  if prefix sub s then Some (substring (String.length sub)
                                       (String.length s - String.length sub) s)
  else match s with
       | EmptyString => None
       | String _ s' => after_first sub s'
       end.

(** The text before the first occurrence of [sub] in [s], all of [s]
    when there is none. *)
Fixpoint before_first (sub s : string) : string :=
  if prefix sub s then EmptyString
  else match s with
       | EmptyString => EmptyString
       | String c s' => String c (before_first sub s')
       end.

(** [s.split(sub)[1]] for a non-empty [sub], when it exists. *)
Definition split_second (sub s : string) : option string :=
  option_map (before_first sub) (after_first sub s).

Definition starts_with (p s : string) : bool := prefix p s.

(** The one-character strings of a double quote and of a line feed. *)
Definition dquote : string := String (ascii_of_nat 34) EmptyString.
Definition nl : string := String (ascii_of_nat 10) EmptyString.

Definition ends_with (p s : string) : bool :=
  prefix (rev_string p EmptyString) (rev_string s EmptyString).

(** [s[1:-1]] *)
Definition drop_ends (s : string) : string :=
  substring 1 (String.length s - 2) s.

Definition is_newline (c : ascii) : bool :=
  (Nat.eqb (nat_of_ascii c) 10) || (Nat.eqb (nat_of_ascii c) 13).

(** The lines of a text file, cut at every line feed and carriage
    return. *)
Fixpoint lines_from (s cur : string) : list string :=
  match s with
  | EmptyString => [rev_string cur EmptyString]
  | String c s' =>
      if is_newline c then rev_string cur EmptyString :: lines_from s' EmptyString
      else lines_from s' (String c cur)
  end.

Definition lines (s : string) : list string := lines_from s EmptyString.

Definition digit_of (c : ascii) : option Z :=
  let n := Z.of_nat (nat_of_ascii c) in
  if (48 <=? n) && (n <=? 57) then Some (n - 48) else None.

(** Digits of a decimal literal, most significant first; a single
    underscore is allowed between two digits, as in Python's [int]. *)
Fixpoint parse_digits (s : string) (acc : Z) (after_digit : bool) : option Z :=
  match s with
  | EmptyString => if after_digit then Some acc else None
  | String c s' =>
      match digit_of c with
      | Some d => parse_digits s' (10 * acc + d) true
      | None =>
          if (Ascii.eqb c "_") && after_digit then
            match s' with
            | EmptyString => None
            | String c' _ =>
                match digit_of c' with
                | Some _ => parse_digits s' acc false
                | None => None
                end
            end
          else None
      end
  end.

(** [int(s)] for a string: surrounding white space, an optional sign and
    decimal digits. [None] stands for [ValueError]. *)
Definition int_of_string (s : string) : option Z :=
  match strip s with
  | String "-" r => option_map Z.opp (parse_digits r 0 false)
  | String "+" r => parse_digits r 0 false
  | r => parse_digits r 0 false
  end.

Definition string_of_Z (z : Z) : string :=
  NilZero.string_of_int (Z.to_int z).

Fixpoint join (sep : string) (l : list string) : string :=
  match l with
  | [] => ""
  | [x] => x
  | x :: r => x ++ sep ++ join sep r
  end.

(** ** Operations on JSON values *)

(** [bool(v)] *)
Definition truthy (v : json) : bool :=
  match v with
  | JNull => false
  | JBool b => b
  | JNum z => negb (z =? 0)
  | JStr s => negb (str_eqb s "")
  | JList l => match l with [] => false | _ => true end
  | JDict d => match d with [] => false | _ => true end
  end.

Fixpoint assoc {A : Type} (k : string) (d : list (string * A)) : option A :=
  match d with
  | [] => None
  | (k', v) :: r => if str_eqb k k' then Some v else assoc k r
  end.

(** [str(v)] as used by f-strings. Exact on atoms; inside containers the
    [repr] of a string is written without escapes. *)
Fixpoint repr (v : json) : string :=
  match v with
  | JNull => "None"
  | JBool true => "True"
  | JBool false => "False"
  | JNum z => string_of_Z z
  | JStr s => "'" ++ s ++ "'"
  | JList l => "[" ++ join ", " (map repr l) ++ "]"
  | JDict d =>
      "{" ++ join ", "
               (map (fun kv => match kv with
                               | (k, x) => "'" ++ k ++ "': " ++ repr x
                               end) d) ++ "}"
  end.

Definition str (v : json) : string :=
  match v with
  | JStr s => s
  | _ => repr v
  end.

(** [v == s] for a string literal or configuration string [s]. *)
Definition eq_str (v : json) (s : string) : bool :=
  match v with
  | JStr s' => str_eqb s' s
  | _ => false
  end.

Definition is_dict (v : json) : bool :=
  match v with JDict _ => true | _ => false end.

(** [a or b] *)
Definition por (a b : json) : json := if truthy a then a else b.

(** ** Sorting *)

(** [sorted(set(keys))]: Python orders strings by code point, which on
    UTF-8 text is the order of the bytes. *)
Fixpoint insert_key (k : string) (l : list string) : list string :=
  match l with
  | [] => [k]
  | x :: r =>
      match String.compare k x with
      | Lt => k :: l
      | Eq => l
      | Gt => x :: insert_key k r
      end
  end.

Definition sorted_set (keys : list string) : list string :=
  fold_right insert_key [] keys.

End Py.
Export Py.

(* ===================================================================== *)
(** * Libraries, world and effects *)
(* ===================================================================== *)

(** A dict built by Python has no repeated key. *)
Fixpoint nodup_keys {A : Type} (d : list (string * A)) : bool :=
  match d with
  | [] => true
  | (k, _) :: r =>
      match assoc k r with
      | Some _ => false
      | None => nodup_keys r
      end
  end.

Fixpoint well_keyed (v : json) : bool :=
  match v with
  | JList l => forallb well_keyed l
  | JDict d =>
      nodup_keys d &&
      forallb (fun kv => match kv with (_, x) => well_keyed x end) d
  | _ => true
  end.

(** The third-party libraries [AxM_OAuth.py] imports: [cryptography.fernet],
    [json], [Crypto.PublicKey.ECC], [authlib.jose.jwt] and [uuid]. Only
    the two round-trip laws are assumed of them. Fernet's IV and time stamp
    are not modelled: encryption is a function of key and payload. *)
Class Libs : Type := {
  plaintext : Type;
  ciphertext : Type;
  fernet_key_ok : string -> bool;
  fernet_encrypt : string -> plaintext -> ciphertext;
  fernet_decrypt : string -> ciphertext -> option plaintext;
  json_dumps : json -> plaintext;
  json_loads : plaintext -> option json;
  ecc_import_key : string -> option string;
  jwt_encode : json -> json -> string -> option string;
  uuid4 : nat -> string;
  fernet_decrypt_encrypt :
    forall k p, fernet_key_ok k = true ->
                fernet_decrypt k (fernet_encrypt k p) = Some p;
  json_loads_dumps :
    forall v, well_keyed v = true -> json_loads (json_dumps v) = Some v
}.

Module Sys.

(** A [requests.Response]: [body] is what [.json()] returns, [None] when
    the body does not parse. *)
Record response : Type := mkResponse {
  status_code : Z;
  headers : list (string * string);
  text : string;
  body : option json
}.

(** [response.ok]: [raise_for_status] raises for 400..599. *)
Definition ok (r : response) : bool :=
  negb ((400 <=? status_code r) && (status_code r <? 600)).

(** [response.headers.get(name)]: header names compare without case. *)
Fixpoint headers_get (name : string) (h : list (string * string)) : option string :=
  match h with
  | [] => None
  | (k, v) :: r =>
      if str_eqb (lower k) (lower name) then Some v else headers_get name r
  end.

(** The three remote parties. *)
Inductive host : Type :=
| AuthServer   (* account.apple.com, the token endpoint *)
| ApiServer    (* api-school / api-business.apple.com *)
| DownloadHost (* the signed download URL of an activity *).

Inductive event : Type :=
| EPrint (msg : string)
| ESleep (seconds : Z)
| ERequest (to : host) (method url : string)
           (hdrs : list (string * string))
           (params : list (string * json))
           (data : option json)
| ERemove (path : string)
| EWrite (path : string)
| EChmod (path : string) (mode : Z).

(** The variables of [AxM_Variables.env]. *)
Record Env : Type := mkEnv {
  APPLE_CLIENT_ID : option string;
  APPLE_KEY_ID : option string;
  APPLE_PRIVATE_KEY_PATH : option string;
  APPLE_SCOPE : option string;
  AXM_FERNET_KEY : option string
}.

(** [Diverge] marks a loop cut off by its fuel; it is not a Python
    outcome and no [except] clause catches it. *)
Inductive outcome (A : Type) : Type :=
| Ok (a : A)
| Raise (e : exn)
| Diverge.
Arguments Ok {A} a.
Arguments Raise {A} e.
Arguments Diverge {A}.

Section WithLibs.
Context {L : Libs}.

(** Everything outside the interpreter. Each host answers the requests it
    receives with the next response of its script; a request to a host
    whose script is used up fails with [ConnectionError]. *)
Record World : Type := mkWorld {
  clock : Z;
  environ : Env;
  cache_file : option ciphertext;
  remove_fails : bool;
  chmod_fails : bool;
  text_files : list (string * string);
  uuid_seed : nat;
  auth_net : list response;
  api_net : list response;
  download_net : list response;
  trace : list event
}.

Definition net (h : host) (w : World) : list response :=
  match h with
  | AuthServer => auth_net w
  | ApiServer => api_net w
  | DownloadHost => download_net w
  end.

Definition set_clock (t : Z) (w : World) : World :=
  mkWorld t (environ w) (cache_file w) (remove_fails w) (chmod_fails w)
          (text_files w) (uuid_seed w) (auth_net w) (api_net w)
          (download_net w) (trace w).

Definition set_cache_file (c : option ciphertext) (w : World) : World :=
  mkWorld (clock w) (environ w) c (remove_fails w) (chmod_fails w)
          (text_files w) (uuid_seed w) (auth_net w) (api_net w)
          (download_net w) (trace w).

Definition set_uuid_seed (n : nat) (w : World) : World :=
  mkWorld (clock w) (environ w) (cache_file w) (remove_fails w)
          (chmod_fails w) (text_files w) n (auth_net w) (api_net w)
          (download_net w) (trace w).

Definition set_net (h : host) (l : list response) (w : World) : World :=
  match h with
  | AuthServer =>
      mkWorld (clock w) (environ w) (cache_file w) (remove_fails w)
              (chmod_fails w) (text_files w) (uuid_seed w) l (api_net w)
              (download_net w) (trace w)
  | ApiServer =>
      mkWorld (clock w) (environ w) (cache_file w) (remove_fails w)
              (chmod_fails w) (text_files w) (uuid_seed w) (auth_net w) l
              (download_net w) (trace w)
  | DownloadHost =>
      mkWorld (clock w) (environ w) (cache_file w) (remove_fails w)
              (chmod_fails w) (text_files w) (uuid_seed w) (auth_net w)
              (api_net w) l (trace w)
  end.

Definition emit (e : event) (w : World) : World :=
  mkWorld (clock w) (environ w) (cache_file w) (remove_fails w)
          (chmod_fails w) (text_files w) (uuid_seed w) (auth_net w)
          (api_net w) (download_net w) (trace w ++ [e])%list.

(** ** The monad *)

Definition M (A : Type) : Type := World -> outcome A * World.

Definition ret {A : Type} (a : A) : M A := fun w => (Ok a, w).

Definition bind {A B : Type} (m : M A) (k : A -> M B) : M B :=
  fun w =>
    match m w with
    | (Ok a, w') => k a w'
    | (Raise e, w') => (Raise e, w')
    | (Diverge, w') => (Diverge, w')
    end.

Definition raise {A : Type} (e : exn) : M A := fun w => (Raise e, w).

Definition diverge {A : Type} : M A := fun w => (Diverge, w).

(** [try: m  except <class>: handler]; an exception outside the class
    passes through. *)
Definition try_except {A : Type} (m : M A) (catches : exn -> bool)
           (handler : exn -> M A) : M A :=
  fun w =>
    match m w with
    | (Raise e, w') => if catches e then handler e w' else (Raise e, w')
    | r => r
    end.

(** [except Exception] *)
Definition any_exception (e : exn) : bool := true.

(** Lift a pure computation that may raise. *)
Definition of_option {A : Type} (o : option A) (e : exn) : M A :=
  match o with
  | Some a => ret a
  | None => raise e
  end.

(** ** Effects *)

Definition print (msg : string) : M unit :=
  fun w => (Ok tt, emit (EPrint msg) w).

(** [int(time.time())] *)
Definition time_time : M Z := fun w => (Ok (clock w), w).

(** The longest sleep, in seconds, that fits the interpreter's signed
    64-bit count of nanoseconds. *)
Definition SLEEP_MAX : Z := 9223372036.

(** [time.sleep(n)] for an [int]: a negative length is a [ValueError], a
    length beyond [SLEEP_MAX] an [OverflowError]. *)
Definition time_sleep (n : Z) : M unit :=
  fun w =>
    if n <? 0 then (Raise ValueError, w)
    else if SLEEP_MAX <? n then (Raise OverflowError, w)
    else (Ok tt, emit (ESleep n) (set_clock (clock w + n) w)).

(** One HTTP exchange through [requests]. *)
Definition request (to : host) (method url : string)
           (hdrs : list (string * string)) (params : list (string * json))
           (data : option json) : M response :=
  fun w =>
    let w1 := emit (ERequest to method url hdrs params data) w in
    match net to w with
    | [] => (Raise ConnectionError, w1)
    | r :: rest => (Ok r, set_net to rest w1)
    end.

(** [response.json()] *)
Definition response_json (r : response) : M json :=
  of_option (body r) JSONDecodeError.

Definition getenv (f : Env -> option string) : M (option string) :=
  fun w => (Ok (f (environ w)), w).

End WithLibs.

Declare Scope monad_scope.
Delimit Scope monad_scope with monad.
Notation "x <- m ;; k" := (bind m (fun x => k))
  (at level 61, m at next level, right associativity) : monad_scope.
Notation "' pat <- m ;; k" := (bind m (fun x => match x with pat => k end))
  (at level 61, pat pattern, m at next level, right associativity) : monad_scope.
Notation "m ;; k" := (bind m (fun _ => k))
  (at level 61, right associativity) : monad_scope.

End Sys.
Export Sys.
Open Scope monad_scope.

(* ===================================================================== *)
(** * Dynamic operations on JSON values, with their exceptions *)
(* ===================================================================== *)

Module Dyn.
Section WithLibs.
Context {L : Libs}.

(** [d.get(k)] and [d.get(k, default)]: only a dict has [get]. *)
Definition get_default (v : json) (k : string) (default : json) : M json :=
  match v with
  | JDict d => ret (match assoc k d with Some x => x | None => default end)
  | _ => raise AttributeError
  end.

Definition get (v : json) (k : string) : M json := get_default v k JNull.

(** [v[k]] for a string key. *)
Definition getitem (v : json) (k : string) : M json :=
  match v with
  | JDict d => of_option (assoc k d) (KeyError k)
  | _ => raise TypeError
  end.

(** [k in v] for a string [k]. *)
Definition has (k : string) (v : json) : M bool :=
  match v with
  | JDict d => ret (match assoc k d with Some _ => true | None => false end)
  | JList l => ret (existsb (fun x => eq_str x k) l)
  | JStr s => ret (contains k s)
  | _ => raise TypeError
  end.

(** [all(k in v for k in keys)], stopping at the first miss. *)
Fixpoint has_all (keys : list string) (v : json) : M bool :=
  match keys with
  | [] => ret true
  | k :: r => b <- has k v ;; if b then has_all r v else ret false
  end.

(** The integer a value stands for in arithmetic and ordering with an
    [int]; [bool] is a subclass of [int]. *)
Definition as_int (v : json) : M Z :=
  match v with
  | JNum z => ret z
  | JBool b => ret (if b then 1 else 0)
  | _ => raise TypeError
  end.

(** [int(v)] *)
Definition int (v : json) : M Z :=
  match v with
  | JNum z => ret z
  | JBool b => ret (if b then 1 else 0)
  | JStr s => of_option (int_of_string s) ValueError
  | _ => raise TypeError
  end.

(** [len(v)] *)
Definition len (v : json) : M Z :=
  match v with
  | JList l => ret (Z.of_nat (List.length l))
  | JDict d => ret (Z.of_nat (List.length d))
  | JStr s => ret (Z.of_nat (String.length s))
  | _ => raise TypeError
  end.

(** The items [list.extend(v)] appends: the elements of a list, the keys
    of a dict, the characters of a string. *)
Definition iter (v : json) : M (list json) :=
  match v with
  | JList l => ret l
  | JDict d => ret (map (fun kv => JStr (fst kv)) d)
  | JStr s => ret (map (fun c => JStr (String c EmptyString)) (list_ascii_of_string s))
  | _ => raise TypeError
  end.

(** [v.lower()]: only a [str] has it. *)
Definition str_lower (v : json) : M string :=
  match v with
  | JStr s => ret (lower s)
  | _ => raise AttributeError
  end.

Definition is_none (v : json) : bool :=
  match v with JNull => true | _ => false end.

(** [v.keys()]: only a dict has it. *)
Definition keys (v : json) : M (list string) :=
  match v with
  | JDict d => ret (map fst d)
  | _ => raise AttributeError
  end.

End WithLibs.
End Dyn.

(* ===================================================================== *)
(** * AxM_OAuth.py *)
(* ===================================================================== *)

Module AxM_OAuth.
Section WithLibs.
Context {L : Libs}.

Definition CACHE_FILE : string := "AxM_Token.cache".
Definition TOKEN_URL : string := "https://account.apple.com/auth/oauth2/token".
Definition AUDIENCE : string := "https://account.apple.com/auth/oauth2/v2/token".

Record Config : Type := mkConfig {
  CLIENT_ID : string;
  KEY_ID : string;
  PRIVATE_KEY_PATH : string;
  SCOPE : string;
  FERNET_KEY : string
}.

(** [not v] for what [os.getenv] returns. *)
Definition unset (v : option string) : bool :=
  match v with
  | None => true
  | Some s => str_eqb s ""
  end.

Definition value (v : option string) : string :=
  match v with Some s => s | None => "" end.

Definition _load_config : M Config :=
  client_id <- getenv APPLE_CLIENT_ID ;;
  key_id <- getenv APPLE_KEY_ID ;;
  key_path <- getenv APPLE_PRIVATE_KEY_PATH ;;
  scope <- getenv APPLE_SCOPE ;;
  fernet_key <- getenv AXM_FERNET_KEY ;;
  let cfg := [("CLIENT_ID", client_id); ("KEY_ID", key_id);
              ("PRIVATE_KEY_PATH", key_path); ("SCOPE", scope);
              ("FERNET_KEY", fernet_key)] in
  let missing := map fst (filter (fun kv => unset (snd kv)) cfg) in
  match missing with
  | [] => ret (mkConfig (value client_id) (value key_id) (value key_path)
                        (value scope) (value fernet_key))
  | _ => raise (RuntimeError
                  ("Missing environment variables in AxM_Variables.env: "
                     ++ join ", " missing))
  end.

(** The [Fernet] object is represented by its key. *)
Definition _fernet (cfg : Config) : M string :=
  if fernet_key_ok (FERNET_KEY cfg) then ret (FERNET_KEY cfg)
  else raise (RuntimeError "Invalid Fernet key in AXM_FERNET_KEY").

(** ** Cache *)

Definition cache_exists : M bool :=
  fun w => (Ok (match cache_file w with Some _ => true | None => false end), w).

(** [open(CACHE_FILE, "rb").read()] *)
Definition read_cache : M ciphertext :=
  fun w => match cache_file w with
           | Some c => (Ok c, w)
           | None => (Raise OSError, w)
           end.

(** [with open(CACHE_FILE, "wb") as fh: fh.write(encrypted)] *)
Definition write_cache (c : ciphertext) : M unit :=
  fun w => (Ok tt, emit (EWrite CACHE_FILE) (set_cache_file (Some c) w)).

Definition chmod (path : string) (mode : Z) : M unit :=
  fun w => if chmod_fails w then (Raise OSError, w)
           else (Ok tt, emit (EChmod path mode) w).

(** [os.remove(TOKEN_CACHE_FILE)], as the scripts call it. *)
Definition remove_cache : M unit :=
  fun w => if remove_fails w then (Raise OSError, w)
           else match cache_file w with
                | Some _ => (Ok tt, emit (ERemove CACHE_FILE) (set_cache_file None w))
                | None => (Raise OSError, w)
                end.

Definition required : list string :=
  ["access_token"; "expires_at"; "client_id"; "scope"].

Definition _load_cached_token (cfg : Config) : M (option json) :=
  present <- cache_exists ;;
  if negb present then ret None else
  f <- _fernet cfg ;;
  parsed <- try_except
              (enc <- read_cache ;;
               raw <- of_option (fernet_decrypt f enc) InvalidToken ;;
               cache <- of_option (json_loads raw) JSONDecodeError ;;
               ret (Some cache))
              any_exception (fun _ => ret None) ;;
  match parsed with
  | None => ret None
  | Some cache =>
      complete <- Dyn.has_all required cache ;;
      if negb complete then ret None else
      now <- time_time ;;
      client_id <- Dyn.getitem cache "client_id" ;;
      if negb (eq_str client_id (CLIENT_ID cfg)) then ret None else
      scope <- Dyn.getitem cache "scope" ;;
      if negb (eq_str scope (SCOPE cfg)) then ret None else
      expires_at <- Dyn.getitem cache "expires_at" ;;
      expires_at <- Dyn.as_int expires_at ;;
      if now >=? expires_at then ret None else
      ret (Some cache)
  end.

Definition _save_cached_token (cfg : Config) (token_response : json) : M unit :=
  access_token <- Dyn.get token_response "access_token" ;;
  expires_in <- Dyn.get token_response "expires_in" ;;
  if negb (truthy access_token) || Dyn.is_none expires_in then ret tt else
  now <- time_time ;;
  lifetime <- Dyn.int expires_in ;;
  let expires_at := now + Z.max (lifetime - 30) 0 in
  token_type <- Dyn.get_default token_response "token_type" (JStr "Bearer") ;;
  let cache := JDict [("access_token", access_token);
                      ("expires_at", JNum expires_at);
                      ("client_id", JStr (CLIENT_ID cfg));
                      ("scope", JStr (SCOPE cfg));
                      ("token_type", token_type)] in
  f <- _fernet cfg ;;
  let encrypted := fernet_encrypt f (json_dumps cache) in
  write_cache encrypted ;;
  try_except (chmod CACHE_FILE 384) any_exception (fun _ => ret tt).

(** ** JWT *)

(** [open(path).read()] of a text file. *)
Definition read_text (path : string) : M string :=
  fun w => match assoc path (text_files w) with
           | Some s => (Ok s, w)
           | None => (Raise OSError, w)
           end.

(** [str(uuid.uuid4())] *)
Definition fresh_uuid : M string :=
  fun w => (Ok (uuid4 (uuid_seed w)), set_uuid_seed (S (uuid_seed w)) w).

Definition _build_client_assertion (cfg : Config) : M string :=
  issued <- time_time ;;
  let expires := issued + 86400 * 180 in
  let header := JDict [("alg", JStr "ES256"); ("kid", JStr (KEY_ID cfg))] in
  jti <- fresh_uuid ;;
  let payload := JDict [("sub", JStr (CLIENT_ID cfg));
                        ("iss", JStr (CLIENT_ID cfg));
                        ("aud", JStr AUDIENCE);
                        ("iat", JNum issued);
                        ("exp", JNum expires);
                        ("jti", JStr jti)] in
  key <- try_except
           (pem <- read_text (PRIVATE_KEY_PATH cfg) ;;
            of_option (ecc_import_key pem) ValueError)
           any_exception
           (fun _ => raise (RuntimeError "Failed to load private key")) ;;
  try_except
    (of_option (jwt_encode header payload key) ValueError)
    any_exception
    (fun _ => raise (RuntimeError "Failed to generate JWT client assertion")).

(** ** Token request *)

Definition raise_for_status (resp : response) : M unit :=
  if ok resp then ret tt else raise HTTPError.

(** The body of [for attempt in (1, 2)], by recursion on the attempts
    that remain. *)
Fixpoint _request_new_token_loop (attempts : list Z) (data : json) : M json :=
  match attempts with
  | [] => raise (RuntimeError "Unexpected token flow")
  | attempt :: rest =>
      resp <- request AuthServer "POST" TOKEN_URL [] [] (Some data) ;;
      if status_code resp =? 429 then
        if attempt =? 1 then
          print "INFO: Apple returned 429, waiting 60 seconds before retry." ;;
          time_sleep 60 ;;
          _request_new_token_loop rest data
        else raise (RuntimeError "Apple returned HTTP 429 twice.")
      else if status_code resp =? 400 then
        raise (RuntimeError
                 "HTTP 400 from Apple. Check APPLE_CLIENT_ID / APPLE_KEY_ID / APPLE_SCOPE.")
      else
        try_except
          (raise_for_status resp ;; response_json resp)
          any_exception
          (fun _ => raise (RuntimeError ("Apple token error: " ++ text resp)))
  end.

Definition token_request_data (cfg : Config) (assertion : string) : json :=
  JDict [("grant_type", JStr "client_credentials");
         ("client_id", JStr (CLIENT_ID cfg));
         ("client_assertion_type",
          JStr "urn:ietf:params:oauth:client-assertion-type:jwt-bearer");
         ("client_assertion", JStr assertion);
         ("scope", JStr (SCOPE cfg))].

Definition _request_new_token (cfg : Config) (assertion : string) : M json :=
  _request_new_token_loop [1; 2] (token_request_data cfg assertion).

(** ** Public API *)

(** [if cache:] for a value that may be [None]. *)
Definition if_value (v : option json) : option json :=
  match v with
  | Some x => if truthy x then Some x else None
  | None => None
  end.

Definition get_access_token_and_scope : M (json * json) :=
  cfg <- _load_config ;;
  cache <- _load_cached_token cfg ;;
  match if_value cache with
  | Some cache =>
      expires_at <- Dyn.getitem cache "expires_at" ;;
      expires_at <- Dyn.as_int expires_at ;;
      now <- time_time ;;
      let seconds_left := expires_at - now in
      print ("INFO: Using existing cached token (" ++ string_of_Z seconds_left
               ++ " seconds until expiry).") ;;
      access_token <- Dyn.getitem cache "access_token" ;;
      scope <- Dyn.getitem cache "scope" ;;
      ret (access_token, scope)
  | None =>
      print "INFO: Cached token not found or expired. Generating new Apple token..." ;;
      assertion <- _build_client_assertion cfg ;;
      token <- _request_new_token cfg assertion ;;
      _save_cached_token cfg token ;;
      print "INFO: New token generated and cached securely." ;;
      access_token <- Dyn.getitem token "access_token" ;;
      scope <- Dyn.get_default token "scope" (JStr (SCOPE cfg)) ;;
      ret (access_token, scope)
  end.

End WithLibs.
End AxM_OAuth.

(* ===================================================================== *)
(** * AxM_GetDeviceInfo_FromList.py *)
(* ===================================================================== *)

Module AxM_GetDeviceInfo_FromList.
Section WithLibs.
Context {L : Libs}.

Definition SERIALS_FILE : string := "serialnumbers.txt".

(** ** Token helpers *)

Definition get_token_and_base_url (force_new : bool) : M (json * string) :=
  present <- AxM_OAuth.cache_exists ;;
  (if force_new && present then
     try_except
       (AxM_OAuth.remove_cache ;;
        print "INFO: Deleted cached token file to force regeneration.")
       is_OSError
       (fun _ => print "WARN: Could not delete token cache; AxM_OAuth will handle it.")
   else ret tt) ;;
  '(access_token, scope) <- AxM_OAuth.get_access_token_and_scope ;;
  s <- Dyn.str_lower scope ;;
  if contains "school" s then
    ret (access_token, "https://api-school.apple.com/v1/orgDevices")
  else if contains "business" s then
    ret (access_token, "https://api-business.apple.com/v1/orgDevices")
  else
    raise (RuntimeError ("Invalid scope '" ++ str scope
                           ++ "'. Expected school.api or business.api")).

(** ** 429 handler *)

(** [returned] tells whether the [try] block reached its [return]; a
    [ValueError] from [int] or from [time.sleep] falls through to the
    60-second default. *)
Definition handle_429 (response : response) : M unit :=
  let retry_after := headers_get "Retry-After" (headers response) in
  returned <-
    match retry_after with
    | Some ra =>
        if negb (str_eqb ra "") then
          try_except
            (wait_seconds <- of_option (int_of_string ra) ValueError ;;
             print ("INFO: 429 received — waiting Retry-After: "
                      ++ string_of_Z wait_seconds ++ " seconds...") ;;
             time_sleep wait_seconds ;;
             ret true)
            is_ValueError
            (fun _ => ret false)
        else ret false
    | None => ret false
    end ;;
  if returned then ret tt
  else
    print "INFO: 429 received — Retry-After not provided, waiting 60 seconds..." ;;
    time_sleep 60.

(** ** Device fetch *)

(** The dict [token_state] that [main] creates once and hands to every
    call: each call receives the current contents and returns the
    contents it leaves behind. *)
Record token_state : Type := mkTokenState {
  access_token : json;
  base_url : string;
  refreshed_once : bool
}.

Definition fetch_result : Type := (option json * option string)%type.

(** [fuel] bounds the depth of the recursion on 429 and 401. *)
Fixpoint fetch_device_info (fuel : nat) (device_id : string) (ts : token_state)
  : M (token_state * fetch_result) :=
  match fuel with
  | O => diverge
  | S fuel =>
      let url := base_url ts ++ "/" ++ device_id in
      let hdrs := [("Authorization", "Bearer " ++ str (access_token ts));
                   ("Accept", "application/json")] in
      response <- request ApiServer "GET" url hdrs [] None ;;
      if status_code response =? 429 then
        handle_429 response ;;
        fetch_device_info fuel device_id ts
      else if status_code response =? 401 then
        if negb (refreshed_once ts) then
          print "INFO: 401 Unauthorized — regenerating token once for this run..." ;;
          '(new_token, new_base) <- get_token_and_base_url true ;;
          fetch_device_info fuel device_id (mkTokenState new_token new_base true)
        else
          ret (ts, (None, Some "401 Unauthorized even after regenerating token once"))
      else if status_code response =? 403 then
        ret (ts, (None, Some ("403 Forbidden — " ++ text response)))
      else if status_code response =? 400 then
        ret (ts, (None, Some ("400 Bad Request — " ++ text response)))
      else if status_code response =? 404 then
        print ("INFO: Device '" ++ device_id ++ "' not found (404).") ;;
        ret (ts, (None, Some "NOT_FOUND"))
      else if negb (ok response) then
        ret (ts, (None, Some ("HTTP " ++ string_of_Z (status_code response)
                                ++ " — " ++ text response)))
      else
        try_except
          (data <- response_json response ;; ret (ts, (Some data, None)))
          is_JSONDecodeError
          (fun _ => ret (ts, (None, Some ("Failed to parse JSON — " ++ text response))))
  end.

(** ** Main *)

(** [d[k] = v] on a dict kept as an association list. *)
Fixpoint dict_set {A : Type} (k : string) (v : A) (d : list (string * A))
  : list (string * A) :=
  match d with
  | [] => [(k, v)]
  | (k', v') :: r =>
      if str_eqb k k' then (k, v) :: r else (k', v') :: dict_set k v r
  end.

Record tally : Type := mkTally {
  results : list (string * option json);
  not_found_serials : list string;
  error_serials : list (string * string)
}.

(** The [for serial in serials] loop of [main]. *)
Fixpoint fetch_each (fuel : nat) (serials : list string) (ts : token_state)
         (t : tally) : M (token_state * tally) :=
  match serials with
  | [] => ret (ts, t)
  | serial :: rest =>
      print ("INFO: Fetching data for " ++ serial ++ " ...") ;;
      '(ts', (data, error_msg)) <- fetch_device_info fuel serial ts ;;
      let res := dict_set serial data (results t) in
      match error_msg with
      | Some msg =>
          if str_eqb msg "NOT_FOUND" then
            fetch_each fuel rest ts'
                       (mkTally res (not_found_serials t ++ [serial]) (error_serials t))
          else if negb (str_eqb msg "") then
            print ("ERROR for " ++ serial ++ ": " ++ msg) ;;
            fetch_each fuel rest ts'
                       (mkTally res (not_found_serials t)
                                (dict_set serial msg (error_serials t)))
          else fetch_each fuel rest ts' (mkTally res (not_found_serials t) (error_serials t))
      | None =>
          fetch_each fuel rest ts' (mkTally res (not_found_serials t) (error_serials t))
      end
  end.

(** [main] from the point where the serial numbers have been read from
    [serialnumbers.txt] up to the end of the fetch loop; the summary and
    the CSV export that follow consume the tally and are not modelled. *)
Definition main (fuel : nat) (serials : list string) : M (option tally) :=
  match serials with
  | [] => print "ERROR: serialnumbers.txt is empty." ;; ret None
  | _ =>
      print ("INFO: Loaded " ++ string_of_Z (Z.of_nat (List.length serials))
               ++ " serial numbers.") ;;
      '(token, url) <- get_token_and_base_url false ;;
      let ts := mkTokenState token url false in
      '(_, t) <- fetch_each fuel serials ts (mkTally [] [] []) ;;
      ret (Some t)
  end.

(** ** CSV build *)

(** The first loop of [build_csv_from_results]: the results that carry
    a non-empty [data] member, in the order of the dict. A result is
    [None] in Python when the fetch gave no payload. *)
Fixpoint select_devices (results : list (string * option json))
  : M (list (string * json)) :=
  match results with
  | [] => ret []
  | (serial, payload) :: rest =>
      kept <- match payload with
              | Some p =>
                  if truthy p then
                    d <- Dyn.get p "data" ;;
                    if truthy d then
                      dev <- Dyn.getitem p "data" ;; ret (Some dev)
                    else ret None
                  else ret None
              | None => ret None
              end ;;
      others <- select_devices rest ;;
      ret (match kept with
           | Some dev => (serial, dev) :: others
           | None => others
           end)
  end.

(** The loop that gathers the attribute names of all devices; the set
    is kept as the list of what was added to it. *)
Fixpoint collect_attribute_keys (devices : list json) : M (list string) :=
  match devices with
  | [] => ret []
  | dev :: rest =>
      attrs <- Dyn.get_default dev "attributes" (JDict []) ;;
      names <- Dyn.keys (por attrs (JDict [])) ;;
      others <- collect_attribute_keys rest ;;
      ret (names ++ others)%list
  end.

(** A list value becomes the comma-joined text of its items. *)
Definition csv_value (v : json) : json :=
  match v with
  | JList l => JStr (join "," (map str l))
  | _ => v
  end.

(** [for key in attribute_keys: row[key] = ...] *)
Fixpoint fill_row (attrs : json) (attribute_keys : list string)
         (row : list (string * json)) : M (list (string * json)) :=
  match attribute_keys with
  | [] => ret row
  | key :: rest =>
      val <- Dyn.get_default attrs key (JStr "") ;;
      fill_row attrs rest (dict_set key (csv_value val) row)
  end.

Fixpoint build_rows (devices : list (string * json)) (attribute_keys : list string)
  : M (list (list (string * json))) :=
  match devices with
  | [] => ret []
  | (serial, dev) :: rest =>
      id <- Dyn.get_default dev "id" (JStr "") ;;
      type <- Dyn.get_default dev "type" (JStr "") ;;
      attrs <- Dyn.get_default dev "attributes" (JDict []) ;;
      row <- fill_row (por attrs (JDict [])) attribute_keys
                      [("inputSerial", JStr serial); ("id", id); ("type", type)] ;;
      others <- build_rows rest attribute_keys ;;
      ret (row :: others)
  end.

Definition build_csv_from_results (results : list (string * option json))
  : M (list string * list (list (string * json))) :=
  devices <- select_devices results ;;
  match devices with
  | [] => ret ([], [])
  | _ =>
      names <- collect_attribute_keys (map snd devices) ;;
      let attribute_keys := sorted_set names in
      let fieldnames := ("inputSerial" :: "id" :: "type" :: attribute_keys)%list in
      rows <- build_rows devices attribute_keys ;;
      ret (fieldnames, rows)
  end.

End WithLibs.
End AxM_GetDeviceInfo_FromList.

(* ===================================================================== *)
(** * AxM_OrgDevices_To_CSV.py *)
(* ===================================================================== *)

Module AxM_OrgDevices_To_CSV.
Section WithLibs.
Context {L : Libs}.

Definition PAGE_LIMIT : Z := 1000.

Definition get_token_and_url (force_new : bool) : M (json * string) :=
  present <- AxM_OAuth.cache_exists ;;
  (if force_new && present then
     try_except
       (AxM_OAuth.remove_cache ;;
        print "INFO: Deleted cached token file to force regeneration.")
       is_OSError
       (fun _ => print "WARN: Could not delete token cache file; AxM_OAuth will handle it.")
   else ret tt) ;;
  '(access_token, scope) <- AxM_OAuth.get_access_token_and_scope ;;
  s <- Dyn.str_lower (por scope (JStr "")) ;;
  if contains "school" s then
    ret (access_token, "https://api-school.apple.com/v1/orgDevices")
  else if contains "business" s then
    ret (access_token, "https://api-business.apple.com/v1/orgDevices")
  else
    raise (RuntimeError ("Unrecognized scope '" ++ str scope
                           ++ "'. Expected 'school.api' or 'business.api'.")).

(** The [while True] loop of [fetch_all_devices]; its arguments are the
    local variables the loop reads and writes. *)
Fixpoint fetch_loop (fuel : nat) (access_token : json) (org_devices_url : string)
         (devices : list json) (cursor : json) (token_refreshed_once : bool)
  : M (list json) :=
  match fuel with
  | O => diverge
  | S fuel =>
      let params := (("limit", JNum PAGE_LIMIT)
                       :: (if truthy cursor then [("cursor", cursor)] else []))%list in
      let hdrs := [("Authorization", "Bearer " ++ str access_token);
                   ("Accept", "application/json")] in
      print ("INFO: Fetching orgDevices page (cursor=" ++ str cursor ++ ")") ;;
      response <- request ApiServer "GET" org_devices_url hdrs params None ;;
      if status_code response =? 429 then
        print "INFO: HTTP 429 Too Many Requests. Waiting 60 seconds before retry..." ;;
        time_sleep 60 ;;
        fetch_loop fuel access_token org_devices_url devices cursor token_refreshed_once
      else if status_code response =? 401 then
        if negb token_refreshed_once then
          print "INFO: HTTP 401 Unauthorized. Regenerating access token and retrying once..." ;;
          '(new_token, new_url) <- get_token_and_url true ;;
          fetch_loop fuel new_token new_url devices cursor true
        else
          raise (RuntimeError
                   ("ERROR: HTTP 401 Unauthorized even after regenerating token. "
                      ++ "Please check variables in AxM_Variables.env."))
      else if status_code response =? 403 then
        raise (RuntimeError "ERROR: HTTP 403 Forbidden. Check API permissions / scope.")
      else if status_code response =? 400 then
        raise (RuntimeError ("ERROR: HTTP 400 Bad Request. Response: " ++ text response))
      else if negb (ok response) then
        raise (RuntimeError ("ERROR: HTTP " ++ string_of_Z (status_code response)
                               ++ ". Response: " ++ text response))
      else
        data <- response_json response ;;
        page_devices <- Dyn.get_default data "data" (JList []) ;;
        let page_devices := por page_devices (JList []) in
        n <- Dyn.len page_devices ;;
        print ("INFO: Retrieved " ++ string_of_Z n ++ " devices in this page.") ;;
        items <- Dyn.iter page_devices ;;
        let devices := (devices ++ items)%list in
        meta <- Dyn.get_default data "meta" (JDict []) ;;
        let meta := por meta (JDict []) in
        paging <- Dyn.get_default meta "paging" (JDict []) ;;
        let paging := por paging (JDict []) in
        cursor <- Dyn.get paging "nextCursor" ;;
        if negb (truthy cursor) then
          print "INFO: No further pages. Finished fetching devices." ;;
          ret devices
        else
          fetch_loop fuel access_token org_devices_url devices cursor token_refreshed_once
  end.

Definition fetch_all_devices (fuel : nat) : M (list json) :=
  '(access_token, org_devices_url) <- get_token_and_url false ;;
  devices <- fetch_loop fuel access_token org_devices_url [] JNull false ;;
  print ("INFO: Total devices fetched: "
           ++ string_of_Z (Z.of_nat (List.length devices))) ;;
  ret devices.

Definition CSV_FILENAME : string := "orgDevices.csv".

(** The row loop of [flatten_devices]; the key loop and the cell loop
    are, word for word, those of [build_csv_from_results]. *)
Fixpoint flatten_rows (devices : list json) (attribute_keys : list string)
  : M (list (list (string * json))) :=
  match devices with
  | [] => ret []
  | d :: rest =>
      id <- Dyn.get_default d "id" (JStr "") ;;
      type <- Dyn.get_default d "type" (JStr "") ;;
      attrs <- Dyn.get_default d "attributes" (JDict []) ;;
      row <- AxM_GetDeviceInfo_FromList.fill_row
               (por attrs (JDict [])) attribute_keys [("id", id); ("type", type)] ;;
      others <- flatten_rows rest attribute_keys ;;
      ret (row :: others)
  end.

Definition flatten_devices (devices : list json)
  : M (list string * list (list (string * json))) :=
  names <- AxM_GetDeviceInfo_FromList.collect_attribute_keys devices ;;
  let attribute_keys := sorted_set names in
  let fieldnames := ("id" :: "type" :: attribute_keys)%list in
  rows <- flatten_rows devices attribute_keys ;;
  ret (fieldnames, rows).

(** The file is opened for writing and filled by [csv.DictWriter]; what
    it writes is not modelled beyond the fact that the file is written. *)
Definition write_csv (fieldnames : list string) (rows : list (list (string * json)))
           (filename : string) : M unit :=
  print ("INFO: Writing " ++ string_of_Z (Z.of_nat (List.length rows))
           ++ " records to " ++ filename ++ " ...") ;;
  (fun w => (Ok tt, emit (EWrite filename) w)) ;;
  print "INFO: CSV writing completed.".

(** [main] returns nothing in Python; the model returns the header and
    the rows it handed to [write_csv], if it got that far. *)
Definition main (fuel : nat)
  : M (option (list string * list (list (string * json)))) :=
  print "INFO: Starting orgDevices export..." ;;
  devices <- fetch_all_devices fuel ;;
  match devices with
  | [] => print "INFO: No devices returned from API. Exiting." ;; ret None
  | _ =>
      '(fieldnames, rows) <- flatten_devices devices ;;
      write_csv fieldnames rows CSV_FILENAME ;;
      print ("INFO: orgDevices export completed. File: " ++ CSV_FILENAME) ;;
      ret (Some (fieldnames, rows))
  end.

End WithLibs.
End AxM_OrgDevices_To_CSV.

(* ===================================================================== *)
(** * AxM_AssignUnassign_MdmServers.py *)
(* ===================================================================== *)

Module AxM_AssignUnassign_MdmServers.
Section WithLibs.
Context {L : Libs}.

(** The directory of the script. *)
Variable BASE_DIR : string.

Definition SERIALS_FILE : string := "serialnumbers.txt".
Definition WAIT_SECONDS_BEFORE_STATUS : Z := 30.

(** [os.path.join(BASE_DIR, name)] *)
Definition path_join (dir name : string) : string :=
  if starts_with "/" name then name else dir ++ "/" ++ name.

(** ** Token / URL helpers *)

Definition get_token_and_activities_url (force_new : bool) : M (json * string) :=
  present <- AxM_OAuth.cache_exists ;;
  (if force_new && present then
     try_except
       (AxM_OAuth.remove_cache ;;
        print "INFO: Deleted cached token file to force regeneration.")
       is_OSError
       (fun _ => print "WARN: Could not delete token cache; AxM_OAuth will handle it.")
   else ret tt) ;;
  '(access_token, scope) <- AxM_OAuth.get_access_token_and_scope ;;
  s <- Dyn.str_lower scope ;;
  if contains "school" s then
    ret (access_token, "https://api-school.apple.com/v1/orgDeviceActivities")
  else if contains "business" s then
    ret (access_token, "https://api-business.apple.com/v1/orgDeviceActivities")
  else
    raise (RuntimeError ("Invalid scope '" ++ str scope
                           ++ "'. Expected school.api or business.api")).

Definition handle_429 (response : response) : M unit :=
  let retry_after := headers_get "Retry-After" (headers response) in
  returned <-
    match retry_after with
    | Some ra =>
        if negb (str_eqb ra "") then
          try_except
            (wait_seconds <- of_option (int_of_string ra) ValueError ;;
             print ("INFO: 429 Too Many Requests — waiting Retry-After: "
                      ++ string_of_Z wait_seconds ++ " seconds...") ;;
             time_sleep wait_seconds ;;
             ret true)
            is_ValueError
            (fun _ => ret false)
        else ret false
    | None => ret false
    end ;;
  if returned then ret tt
  else
    print "INFO: 429 Too Many Requests — waiting 60 seconds..." ;;
    time_sleep 60.

(** ** Support functions *)

Definition path_exists (path : string) : M bool :=
  fun w => (Ok (match assoc path (text_files w) with
                | Some _ => true
                | None => false
                end), w).

Definition load_device_ids (path : string) : M (list string) :=
  present <- path_exists path ;;
  if negb present then raise (FileNotFoundError (path ++ " not found")) else
  content <- AxM_OAuth.read_text path ;;
  let ids := filter (fun l => negb (str_eqb l "")) (map strip (lines content)) in
  match ids with
  | [] => raise (ValueErrorOf (path ++ " is empty"))
  | _ => ret ids
  end.

(** ** API calls *)

(** The dict [token_state] of this script has no run-wide flag. *)
Record token_state : Type := mkTokenState {
  access_token : json;
  base_url : string
}.

Definition activity_payload (activity_type mdm_server_id : string)
           (device_ids : list string) : json :=
  JDict [("data",
          JDict [("type", JStr "orgDeviceActivities");
                 ("attributes", JDict [("activityType", JStr activity_type)]);
                 ("relationships",
                  JDict [("mdmServer",
                          JDict [("data", JDict [("type", JStr "mdmServers");
                                                 ("id", JStr mdm_server_id)])]);
                         ("devices",
                          JDict [("data",
                                  JList (map (fun d_id =>
                                                JDict [("type", JStr "orgDevices");
                                                       ("id", JStr d_id)])
                                             device_ids))])])])].

(** The [while True] loop of [post_org_device_activity]. [url] is
    computed once before the loop; [bearer] is the token in
    [headers["Authorization"]]. *)
Fixpoint post_loop (fuel : nat) (ts : token_state) (url : string) (bearer : json)
         (payload : json) (n_devices : nat) (tried_429 tried_refresh : bool)
  : M (token_state * json) :=
  match fuel with
  | O => diverge
  | S fuel =>
      let hdrs := [("Authorization", "Bearer " ++ str bearer);
                   ("Accept", "application/json");
                   ("Content-Type", "application/json")] in
      print ("INFO: Sending orgDeviceActivities request for "
               ++ string_of_Z (Z.of_nat n_devices) ++ " device(s)...") ;;
      response <- request ApiServer "POST" url hdrs [] (Some payload) ;;
      if (status_code response =? 429) && negb tried_429 then
        handle_429 response ;;
        post_loop fuel ts url bearer payload n_devices true tried_refresh
      else if (status_code response =? 401) && negb tried_refresh then
        print "INFO: 401 Unauthorized — regenerating token once..." ;;
        '(new_token, new_base) <- get_token_and_activities_url true ;;
        post_loop fuel (mkTokenState new_token new_base) url new_token payload
                  n_devices tried_429 true
      else if status_code response =? 400 then
        raise (RuntimeError ("ERROR: 400 Bad Request. Response: " ++ text response))
      else if status_code response =? 403 then
        raise (RuntimeError ("ERROR: 403 Forbidden. Response: " ++ text response))
      else if status_code response =? 409 then
        raise (RuntimeError ("ERROR: 409 Conflict. Response: " ++ text response))
      else if status_code response =? 422 then
        raise (RuntimeError ("ERROR: 422 Unprocessable Entity. Response: "
                               ++ text response))
      else if negb (status_code response =? 201) then
        raise (RuntimeError ("ERROR: HTTP " ++ string_of_Z (status_code response)
                               ++ ". Response: " ++ text response))
      else
        try_except
          (j <- response_json response ;; ret (ts, j))
          is_JSONDecodeError
          (fun _ => raise (RuntimeError
                             ("ERROR: Failed to parse JSON from response: "
                                ++ text response)))
  end.

Definition post_org_device_activity (fuel : nat) (ts : token_state)
           (activity_type mdm_server_id : string) (device_ids : list string)
  : M (token_state * json) :=
  post_loop fuel ts (base_url ts) (access_token ts)
            (activity_payload activity_type mdm_server_id device_ids)
            (List.length device_ids) false false.

(** The [while True] loop of [get_activity_status]. *)
Fixpoint status_loop (fuel : nat) (ts : token_state) (url : string) (bearer : json)
         (activity_id : string) (tried_429 tried_refresh : bool)
  : M (token_state * json) :=
  match fuel with
  | O => diverge
  | S fuel =>
      let hdrs := [("Authorization", "Bearer " ++ str bearer);
                   ("Accept", "application/json")] in
      print ("INFO: Fetching activity status for ID " ++ activity_id ++ " ...") ;;
      response <- request ApiServer "GET" url hdrs [] None ;;
      if (status_code response =? 429) && negb tried_429 then
        handle_429 response ;;
        status_loop fuel ts url bearer activity_id true tried_refresh
      else if (status_code response =? 401) && negb tried_refresh then
        print "INFO: 401 Unauthorized while checking activity — regenerating token once..." ;;
        '(new_token, new_base) <- get_token_and_activities_url true ;;
        status_loop fuel (mkTokenState new_token new_base) url new_token
                    activity_id tried_429 true
      else if status_code response =? 404 then
        raise (RuntimeError ("ERROR: 404 Not Found. Activity ID '" ++ activity_id
                               ++ "' invalid or not visible."))
      else if status_code response =? 403 then
        raise (RuntimeError ("ERROR: 403 Forbidden while checking activity. Response: "
                               ++ text response))
      else if status_code response =? 400 then
        raise (RuntimeError ("ERROR: 400 Bad Request while checking activity. Response: "
                               ++ text response))
      else if negb (ok response) then
        raise (RuntimeError ("ERROR: HTTP " ++ string_of_Z (status_code response)
                               ++ " while checking activity. Response: "
                               ++ text response))
      else
        try_except
          (j <- response_json response ;; ret (ts, j))
          is_JSONDecodeError
          (fun _ => raise (RuntimeError
                             ("ERROR: Failed to parse JSON from activity status response: "
                                ++ text response)))
  end.

Definition get_activity_status (fuel : nat) (ts : token_state) (activity_id : string)
  : M (token_state * json) :=
  status_loop fuel ts (base_url ts ++ "/" ++ activity_id) (access_token ts)
              activity_id false false.

(** The file name announced by a [Content-Disposition] header. *)
Definition disposition_filename (hdrs : list (string * string)) : option string :=
  match headers_get "Content-Disposition" hdrs with
  | Some content_disp =>
      if negb (str_eqb content_disp "") && contains "filename=" content_disp then
        match split_second "filename=" content_disp with
        | Some part =>
            let raw_name := strip (strip_char ";" (strip part)) in
            Some (if starts_with dquote raw_name && ends_with dquote raw_name
                  then drop_ends raw_name else raw_name)
        | None => None
        end
      else None
  | None => None
  end.

(** [open(local_path, "wb")] and the chunk loop. *)
Definition write_file (path : string) : M unit :=
  fun w => (Ok tt, emit (EWrite path) w).

Definition download_activity_csv (download_url : json) (activity_id : string)
  : M string :=
  print "INFO: Downloading CSV from activity downloadUrl..." ;;
  url <- match download_url with
         | JStr u => ret u
         | _ => raise RequestException
         end ;;
  resp <- request DownloadHost "GET" url [] [] None ;;
  if negb (status_code resp =? 200) then
    raise (RuntimeError ("ERROR: Failed to download CSV. HTTP "
                           ++ string_of_Z (status_code resp) ++ ": " ++ text resp))
  else
    let filename :=
      match disposition_filename (headers resp) with
      | Some f => if str_eqb f "" then "OrgDeviceActivity_" ++ activity_id ++ ".csv"
                  else f
      | None => "OrgDeviceActivity_" ++ activity_id ++ ".csv"
      end in
    let local_path := path_join BASE_DIR filename in
    write_file local_path ;;
    print ("INFO: CSV downloaded to " ++ local_path) ;;
    ret local_path.

(** ** Main *)

(** [main] returns nothing in Python. The model returns the path that
    [download_activity_csv] returned when it ran to its end, [None]
    otherwise, so that statements can speak of the saved file. [main] is
    cut in three at the two places where a server answer arrives; each
    part ends by calling the next. *)

(** Lines 389-397: the download step, from the two values [main] has
    just read out of the status response. *)
Definition main_download (cur_status download_url : json) (activity_id : json)
  : M (option string) :=
  if eq_str cur_status "COMPLETED" && truthy download_url then
    try_except
      (path <- download_activity_csv download_url (str activity_id) ;;
       ret (Some path))
      any_exception
      (fun e => print "ERROR while downloading CSV:" ;;
                print (exn_str e) ;; ret None)
  else
    print "INFO: CSV not downloaded. Activity not COMPLETED or downloadUrl missing." ;;
    ret None.

(** Lines 374-397: from the status response to the end. *)
Definition main_after_poll (activity_id : json) (status_resp : json)
  : M (option string) :=
  s_data <- Dyn.get_default status_resp "data" (JDict []) ;;
  let s_data := por s_data (JDict []) in
  s_attr <- Dyn.get_default s_data "attributes" (JDict []) ;;
  let s_attr := por s_attr (JDict []) in
  cur_status <- Dyn.get_default s_attr "status" (JStr "") ;;
  cur_sub_status <- Dyn.get_default s_attr "subStatus" (JStr "") ;;
  completed_dt <- Dyn.get_default s_attr "completedDateTime" (JStr "") ;;
  download_url <- Dyn.get s_attr "downloadUrl" ;;
  print (nl ++ "INFO: Activity Status Check:") ;;
  print ("  Activity ID:  " ++ str activity_id) ;;
  print ("  Status:       " ++ str cur_status) ;;
  print ("  Sub-Status:   " ++ str cur_sub_status) ;;
  print ("  Completed At: " ++ str completed_dt) ;;
  print ("  Has CSV URL:  " ++ (if truthy download_url then "YES" else "NO")) ;;
  main_download cur_status download_url activity_id.

(** Lines 341-372: from the submission response to the status poll. *)
Definition main_after_submit (fuel : nat) (activity_type MDM_SERVER_ID : string)
           (device_ids : list string) (ts : token_state) (resp : json)
  : M (option string) :=
  data <- (if is_dict resp then Dyn.get_default resp "data" (JDict [])
           else ret (JDict [])) ;;
  attrs <- (if is_dict data then Dyn.get_default data "attributes" (JDict [])
            else ret (JDict [])) ;;
  activity_id <- Dyn.get_default data "id" (JStr "") ;;
  status <- Dyn.get_default attrs "status" (JStr "") ;;
  sub_status <- Dyn.get_default attrs "subStatus" (JStr "") ;;
  created_dt <- Dyn.get_default attrs "createdDateTime" (JStr "") ;;
  print (nl ++ "INFO: Org Device Activity created.") ;;
  print ("  Activity ID:   " ++ str activity_id) ;;
  print ("  Activity Type: " ++ activity_type) ;;
  print ("  MDM Server ID: " ++ MDM_SERVER_ID) ;;
  print ("  Devices Count: " ++ string_of_Z (Z.of_nat (List.length device_ids))) ;;
  print ("  Status:        " ++ str status) ;;
  print ("  Sub-Status:    " ++ str sub_status) ;;
  print ("  Created At:    " ++ str created_dt) ;;
  if negb (truthy activity_id) then
    print "WARN: No activity ID returned; cannot check status or download CSV." ;;
    ret None
  else
  print (nl ++ "INFO: Waiting " ++ string_of_Z WAIT_SECONDS_BEFORE_STATUS
           ++ " seconds before checking activity status...") ;;
  time_sleep WAIT_SECONDS_BEFORE_STATUS ;;
  polled <- try_except
              (r <- get_activity_status fuel ts (str activity_id) ;; ret (Some r))
              any_exception
              (fun e => print "ERROR while fetching activity status:" ;;
                        print (exn_str e) ;; ret None) ;;
  match polled with
  | None => ret None
  | Some (_, status_resp) => main_after_poll activity_id status_resp
  end.

(** Lines 289-339. [MODE] and [MDM_SERVER_ID] are the two constants the
    user edits at the top of the script. *)
Definition main (fuel : nat) (MODE MDM_SERVER_ID : string) : M (option string) :=
  let mode := strip (upper MODE) in
  if negb (str_eqb mode "ASSIGN" || str_eqb mode "UNASSIGN") then
    print "ERROR: MODE must be 'ASSIGN' or 'UNASSIGN'." ;; ret None
  else
  let activity_type :=
    if str_eqb mode "ASSIGN" then "ASSIGN_DEVICES" else "UNASSIGN_DEVICES" in
  if str_eqb MDM_SERVER_ID "" then
    print "ERROR: MDM_SERVER_ID is not configured." ;; ret None
  else
  print ("INFO: Mode: " ++ mode ++ " (" ++ activity_type ++ ")") ;;
  print ("INFO: MDM Server ID: " ++ MDM_SERVER_ID) ;;
  loaded <- try_except
              (ids <- load_device_ids SERIALS_FILE ;; ret (Some ids))
              any_exception
              (fun e => print ("ERROR: " ++ exn_str e) ;; ret None) ;;
  match loaded with
  | None => ret None
  | Some device_ids =>
  print ("INFO: Loaded " ++ string_of_Z (Z.of_nat (List.length device_ids))
           ++ " device ID(s) from " ++ SERIALS_FILE) ;;
  acquired <- try_except
                (tu <- get_token_and_activities_url false ;; ret (Some tu))
                any_exception
                (fun e => print ("ERROR obtaining token/base URL: " ++ exn_str e) ;;
                          ret None) ;;
  match acquired with
  | None => ret None
  | Some (token, url) =>
  let ts := mkTokenState token url in
  posted <- try_except
              (r <- post_org_device_activity fuel ts activity_type MDM_SERVER_ID
                                             device_ids ;;
               ret (Some r))
              any_exception
              (fun e => print "ERROR while creating orgDeviceActivity:" ;;
                        print (exn_str e) ;; ret None) ;;
  match posted with
  | None => ret None
  | Some (ts, resp) =>
      main_after_submit fuel activity_type MDM_SERVER_ID device_ids ts resp
  end end end.

End WithLibs.
End AxM_AssignUnassign_MdmServers.

(* ===================================================================== *)
(** * Vocabulary of the statements *)
(* ===================================================================== *)

Module Spec.
Section WithLibs.
Context {L : Libs}.

(** The events a computation added to the trace, given the worlds before
    and after it. *)
Definition added (w w' : World) : list event :=
  skipn (List.length (trace w)) (trace w').

Definition is_request (e : event) : bool :=
  match e with
  | ERequest _ _ _ _ _ _ => true
  | _ => false
  end.

Definition requests_to (h : host) (t : list event) : list event :=
  filter (fun e => match e, h with
                   | ERequest AuthServer _ _ _ _ _, AuthServer => true
                   | ERequest ApiServer _ _ _ _ _, ApiServer => true
                   | ERequest DownloadHost _ _ _ _ _, DownloadHost => true
                   | _, _ => false
                   end) t.

Definition sleeps (t : list event) : list Z :=
  flat_map (fun e => match e with ESleep n => [n] | _ => [] end) t.

(** The token-exchange request that [_request_new_token] sends. *)
Definition token_post (cfg : AxM_OAuth.Config) (assertion : string) : event :=
  ERequest AuthServer "POST" AxM_OAuth.TOKEN_URL [] []
           (Some (AxM_OAuth.token_request_data cfg assertion)).

(** The record [_save_cached_token] builds. *)
Definition cache_record (cfg : AxM_OAuth.Config) (d : list (string * json))
           (tok : json) (expires_at : Z) : list (string * json) :=
  [("access_token", tok);
   ("expires_at", JNum expires_at);
   ("client_id", JStr (AxM_OAuth.CLIENT_ID cfg));
   ("scope", JStr (AxM_OAuth.SCOPE cfg));
   ("token_type", match assoc "token_type" d with
                  | Some x => x
                  | None => JStr "Bearer"
                  end)].

(** The line [fetch_device_info] prints just before it asks for a forced
    token refresh; one such line per refresh. *)
Definition REFRESH_MSG : string :=
  "INFO: 401 Unauthorized — regenerating token once for this run...".

Definition is_refresh (e : event) : bool :=
  match e with
  | EPrint msg => str_eqb msg REFRESH_MSG
  | _ => false
  end.

(** The number of forced refreshes recorded in a trace. *)
Definition refreshes (t : list event) : nat :=
  List.length (filter is_refresh t).

(** A computation is steady when it always ends, takes no answer from the
    resource API and records no forced refresh. Everything in
    [AxM_OAuth.py] is steady. *)
Definition steady {A : Type} (m : M A) : Prop :=
  forall w o w',
    m w = (o, w') ->
    o <> Diverge
    /\ api_net w' = api_net w
    /\ refreshes (trace w') = refreshes (trace w).

(** The body of a listing page: its entries and, unless it is the last
    page, the cursor of the next one. *)
Definition page_body (entries : list json) (cursor : option string) : json :=
  JDict [("data", JList entries);
         ("meta",
          JDict [("paging",
                  JDict (match cursor with
                         | Some c => [("nextCursor", JStr c)]
                         | None => []
                         end))])].

(** The response [r] delivers that page. *)
Definition serves (r : response) (entries : list json) (cursor : option string) : Prop :=
  status_code r = 200 /\ body r = Some (page_body entries cursor).

(** The query parameters of a listing request that continues at [cursor]. *)
Definition page_params (cursor : option string) : list (string * json) :=
  (("limit", JNum 1000)
     :: match cursor with
        | Some c => [("cursor", JStr c)]
        | None => []
        end)%list.

(** The query parameters of the requests to the resource API in a trace. *)
Definition api_params (t : list event) : list (list (string * json)) :=
  flat_map (fun e => match e with
                     | ERequest ApiServer _ _ _ p _ => [p]
                     | _ => []
                     end) t.

Definition cursor_value (cursor : option string) : json :=
  match cursor with
  | Some c => JStr c
  | None => JNull
  end.

(** All five variables of the environment file are set and non-empty. *)
Definition complete (e : Env) : bool :=
  negb (AxM_OAuth.unset (APPLE_CLIENT_ID e))
  && negb (AxM_OAuth.unset (APPLE_KEY_ID e))
  && negb (AxM_OAuth.unset (APPLE_PRIVATE_KEY_PATH e))
  && negb (AxM_OAuth.unset (APPLE_SCOPE e))
  && negb (AxM_OAuth.unset (AXM_FERNET_KEY e)).

(** The configuration an environment file stands for. *)
Definition config_of (e : Env) : AxM_OAuth.Config :=
  AxM_OAuth.mkConfig (AxM_OAuth.value (APPLE_CLIENT_ID e))
                     (AxM_OAuth.value (APPLE_KEY_ID e))
                     (AxM_OAuth.value (APPLE_PRIVATE_KEY_PATH e))
                     (AxM_OAuth.value (APPLE_SCOPE e))
                     (AxM_OAuth.value (AXM_FERNET_KEY e)).

(** Strictly before, in the order [sorted] uses. *)
Definition str_lt (a b : string) : Prop := String.compare a b = Lt.

(** The answers of the resource API that a computation used up. *)
Definition api_used (w w' : World) : nat :=
  (List.length (api_net w) - List.length (api_net w'))%nat.

(** The world in which a token exchange starts: the cache miss has been
    announced and an identifier drawn for the assertion. *)
Definition before_exchange (w : World) : World :=
  set_uuid_seed (S (uuid_seed w))
    (emit (EPrint "INFO: Cached token not found or expired. Generating new Apple token...")
          w).

(** The world after one POST to the authorization server was answered. *)
Definition after_exchange (cfg : AxM_OAuth.Config) (assertion : string)
           (rest : list response) (w : World) : World :=
  set_net AuthServer rest (emit (token_post cfg assertion) (before_exchange w)).

(** The world a fresh acquisition leaves: the exchange made, the record
    written (and its mode set unless that fails), the success announced. *)
Definition after_fresh (cfg : AxM_OAuth.Config) (assertion : string)
           (rest : list response) (record : list (string * json)) (w : World)
  : World :=
  let w1 := emit (EWrite AxM_OAuth.CACHE_FILE)
                 (set_cache_file
                    (Some (fernet_encrypt (AxM_OAuth.FERNET_KEY cfg)
                                          (json_dumps (JDict record))))
                    (after_exchange cfg assertion rest w)) in
  emit (EPrint "INFO: New token generated and cached securely.")
       (if chmod_fails w then w1 else emit (EChmod AxM_OAuth.CACHE_FILE 384) w1).


(** The request [fetch_device_info] sends for a device. *)
Definition device_get (ts : AxM_GetDeviceInfo_FromList.token_state)
           (device_id : string) : event :=
  ERequest ApiServer "GET"
           (AxM_GetDeviceInfo_FromList.base_url ts ++ "/" ++ device_id)
           [("Authorization",
             "Bearer " ++ str (AxM_GetDeviceInfo_FromList.access_token ts));
            ("Accept", "application/json")] [] None.

(** The error text [fetch_device_info] attaches to an answer that is
    neither 429 nor 401; [None] for a success that parses. *)
Definition item_error (r : response) : option string :=
  if status_code r =? 403 then Some ("403 Forbidden — " ++ text r)
  else if status_code r =? 400 then Some ("400 Bad Request — " ++ text r)
  else if status_code r =? 404 then Some "NOT_FOUND"
  else if negb (ok r) then
    Some ("HTTP " ++ string_of_Z (status_code r) ++ " — " ++ text r)
  else match body r with
       | Some _ => None
       | None => Some ("Failed to parse JSON — " ++ text r)
       end.

(** [d.get("attributes", {}) or {}] for a device that is a dict. *)
Definition attributes_of (dd : list (string * json)) : json :=
  por (match assoc "attributes" dd with Some a => a | None => JDict [] end)
      (JDict []).

(** A device the flattening loops can read: a dict whose attributes, if
    any and not falsy, are a dict. *)
Definition readable (d : json) : Prop :=
  exists dd a, d = JDict dd /\ attributes_of dd = JDict a.

(** The cell of attribute [k] in the row of device [d]. *)
Definition cell (d : json) (k : string) : json :=
  match d with
  | JDict dd =>
      match attributes_of dd with
      | JDict a =>
          AxM_GetDeviceInfo_FromList.csv_value
            (match assoc k a with Some v => v | None => JStr "" end)
      | _ => JStr ""
      end
  | _ => JStr ""
  end.

(** A result without payload: Python's [None] or a falsy value. *)
Definition no_payload (sr : string * option json) : Prop :=
  match snd sr with
  | None => True
  | Some p => truthy p = false
  end.

Definition is_write (e : event) : bool :=
  match e with
  | EWrite _ => true
  | _ => false
  end.

(** A computation is bounded by [n] when it always ends and takes at
    most [n] answers from the resource API. *)
Definition bounded {A : Type} (n : nat) (m : M A) : Prop :=
  forall w o w',
    m w = (o, w') ->
    o <> Diverge
    /\ exists k, (k <= n)%nat /\ api_net w' = skipn k (api_net w).



(** What a retry flag of the activity calls still allows: one more
    round while it is unset. *)
Definition flag_cost (tried : bool) : nat := if tried then 0%nat else 1%nat.

(** What is left of the one refresh a run may spend. *)
Definition budget (ts : AxM_GetDeviceInfo_FromList.token_state) : nat :=
  if AxM_GetDeviceInfo_FromList.refreshed_once ts then 0%nat else 1%nat.

End WithLibs.
End Spec.
Import Spec.

(* ===================================================================== *)
(** * A symbolic implementation of the libraries *)
(* ===================================================================== *)

(** A Fernet token is the pair of its key and payload, a serialized
    document is the document. *)
Module Symbolic.

Inductive sym_cipher : Type :=
| Sealed (key : string) (payload : json)
| Garbage (raw : string).

Definition sym_decrypt (k : string) (c : sym_cipher) : option json :=
  match c with
  | Sealed k' p => if str_eqb k k' then Some p else None
  | Garbage _ => None
  end.

Definition sym_decrypt_encrypt (k : string) (p : json)
           (_ : negb (str_eqb k "") = true) :
  sym_decrypt k (Sealed k p) = Some p :=
  @eq_ind_r bool true (fun b : bool => (if b then Some p else None) = Some p)
            eq_refl (String.eqb k k) (String.eqb_refl k).

#[export] Instance libs : Libs := {|
  plaintext := json;
  ciphertext := sym_cipher;
  fernet_key_ok := fun k => negb (str_eqb k "");
  fernet_encrypt := Sealed;
  fernet_decrypt := sym_decrypt;
  json_dumps := fun v => v;
  json_loads := fun v => Some v;
  ecc_import_key := fun pem => if str_eqb pem "" then None else Some pem;
  jwt_encode := fun _ payload key => Some ("jwt:" ++ repr payload);
  uuid4 := fun n => "uuid-" ++ string_of_Z (Z.of_nat n);
  fernet_decrypt_encrypt := sym_decrypt_encrypt;
  json_loads_dumps := fun v _ => eq_refl
|}.

(** The same libraries with the test Fernet makes on a key: the base64
    text of 32 bytes, 44 characters. *)
Definition strict_key_ok (k : string) : bool := Nat.eqb (String.length k) 44.

Definition strict_decrypt_encrypt (k : string) (p : json)
           (_ : strict_key_ok k = true) :
  sym_decrypt k (Sealed k p) = Some p :=
  @eq_ind_r bool true (fun b : bool => (if b then Some p else None) = Some p)
            eq_refl (String.eqb k k) (String.eqb_refl k).

Definition strict_libs : Libs := {|
  plaintext := json;
  ciphertext := sym_cipher;
  fernet_key_ok := strict_key_ok;
  fernet_encrypt := Sealed;
  fernet_decrypt := sym_decrypt;
  json_dumps := fun v => v;
  json_loads := fun v => Some v;
  ecc_import_key := fun pem => if str_eqb pem "" then None else Some pem;
  jwt_encode := fun _ payload key => Some ("jwt:" ++ repr payload);
  uuid4 := fun n => "uuid-" ++ string_of_Z (Z.of_nat n);
  fernet_decrypt_encrypt := strict_decrypt_encrypt;
  json_loads_dumps := fun v _ => eq_refl
|}.

End Symbolic.

(* ===================================================================== *)
(** * Concrete worlds *)
(* ===================================================================== *)

Module Examples.
Import Symbolic.

Definition env (scope : string) : Env :=
  mkEnv (Some "client-1") (Some "key-1") (Some "key.pem") (Some scope)
        (Some "fernet-key").

Definition cfg (scope : string) : AxM_OAuth.Config :=
  AxM_OAuth.mkConfig "client-1" "key-1" "key.pem" scope "fernet-key".

(** A cache record of [client-1] for [scope] that expires at [expires_at]. *)
Definition record (scope : string) (expires_at : Z) : list (string * json) :=
  [("access_token", JStr "cached-token");
   ("expires_at", JNum expires_at);
   ("client_id", JStr "client-1");
   ("scope", JStr scope);
   ("token_type", JStr "Bearer")].

Definition files : list (string * string) :=
  [("key.pem", "PEM");
   ("serialnumbers.txt", "SER1" ++ nl ++ "SER2" ++ nl ++ "SER3" ++ nl)].

(** At time 1000, with a cached token for [scope] good until 5000, and
    the given answers waiting at the three hosts. *)
Definition world (scope : string) (auth api download : list response) : World :=
  mkWorld 1000 (env scope)
          (Some (Sealed "fernet-key" (JDict (record scope 5000))))
          false false files 0 auth api download [].

(** The same without a cache file. *)
Definition cold_world (scope : string) (auth api download : list response) : World :=
  mkWorld 1000 (env scope) None false false files 0 auth api download [].

Definition answer (status : Z) : response := mkResponse status [] "" None.

Definition answer_json (status : Z) (v : json) : response :=
  mkResponse status [] "" (Some v).

(** A 429 that asks for a retry after five seconds. *)
Definition busy_5 : response := mkResponse 429 [("Retry-After", "5")] "" None.

Definition device (serial : string) : json :=
  JDict [("type", JStr "orgDevices"); ("id", JStr serial)].

Definition page (entries : list json) (cursor : option string) : response :=
  answer_json 200 (Spec.page_body entries cursor).

Definition token_answer : response :=
  answer_json 200 (JDict [("access_token", JStr "fresh-token");
                          ("expires_in", JNum 3600);
                          ("token_type", JStr "Bearer")]).

(** A device with two attributes. *)
Definition described (serial colour : string) : json :=
  JDict [("type", JStr "orgDevices"); ("id", JStr serial);
         ("attributes", JDict [("serialNumber", JStr serial);
                               ("color", JStr colour)])].

(** [cold_world] in a directory that holds the given files. *)
Definition world_with (fs : list (string * string)) (auth api download : list response)
  : World :=
  mkWorld 1000 (env "business.api") None false false fs 0 auth api download [].

(** [world] with a cache file that cannot be deleted. *)
Definition stuck_world (scope : string) (auth api download : list response) : World :=
  mkWorld 1000 (env scope)
          (Some (Sealed "fernet-key" (JDict (record scope 5000))))
          true false files 0 auth api download [].

(** [world] where a variable of the environment file is missing. *)
Definition unconfigured_world : World :=
  mkWorld 1000 (mkEnv (Some "client-1") None (Some "key.pem") (Some "business.api")
                      (Some "fernet-key"))
          None false false files 0 [] [] [] [].

(** [world] and [cold_world] under [strict_libs], for which the key
    [fernet-key] is not a Fernet key. *)
Definition strict_world (auth : list response) : @World strict_libs :=
  @mkWorld strict_libs 1000 (env "business.api")
           (Some (Sealed "fernet-key" (JDict (record "business.api" 5000))))
           false false files 0 auth [] [] [].

Definition strict_cold_world (auth : list response) : @World strict_libs :=
  @mkWorld strict_libs 1000 (env "business.api") None
           false false files 0 auth [] [] [].

End Examples.

(* ===================================================================== *)
(** * Running the monad *)
(* ===================================================================== *)

(** Reads a field of a world built by the setters. *)
Ltac world_fields :=
  cbn [trace api_net auth_net download_net clock cache_file uuid_seed
       environ text_files remove_fails chmod_fails
       emit set_net set_clock set_cache_file set_uuid_seed].

(** Evaluates a lookup of a literal key in a literal dict. *)
Ltac lookup := cbn [assoc str_eqb String.eqb Ascii.eqb Bool.eqb].

Section MonadFacts.
Context {L : Libs}.

Lemma bind_ok {A B : Type} (m : M A) (k : A -> M B) (w w1 : World) (a : A) :
  m w = (Ok a, w1) -> bind m k w = k a w1.
Proof. intros H. unfold bind. now rewrite H. Qed.

Lemma bind_raise {A B : Type} (m : M A) (k : A -> M B) (w w1 : World) (e : exn) :
  m w = (Raise e, w1) -> bind m k w = (Raise e, w1).
Proof. intros H. unfold bind. now rewrite H. Qed.

Lemma try_ok {A : Type} (m : M A) c h (w w1 : World) (a : A) :
  m w = (Ok a, w1) -> try_except m c h w = (Ok a, w1).
Proof. intros H. unfold try_except. now rewrite H. Qed.

Lemma try_caught {A : Type} (m : M A) c h (w w1 : World) (e : exn) :
  m w = (Raise e, w1) -> c e = true -> try_except m c h w = h e w1.
Proof. intros H Hc. unfold try_except. now rewrite H, Hc. Qed.

Lemma assoc_well_keyed (k : string) (d : list (string * json)) (v : json) :
  forallb (fun kv => match kv with (_, x) => well_keyed x end) d = true ->
  assoc k d = Some v -> well_keyed v = true.
Proof.
  induction d as [|[k' x] d IH]; simpl; [discriminate|].
  intros Hall Hk. apply andb_prop in Hall as [Hx Hd].
  destruct (str_eqb k k').
  - now inversion Hk; subst.
  - now apply IH.
Qed.

End MonadFacts.

(* ===================================================================== *)
(** * AxM_OAuth.py: the token cache and the token exchange *)
(* ===================================================================== *)

Section OAuthFacts.
Context {L : Libs}.
Import AxM_OAuth.

(** C10. A token response (a JSON object) whose [access_token] is missing
    or empty (falsy), or whose [expires_in] is absent, makes
    [_save_cached_token] return at once: it raises nothing and the world,
    cache file and trace included, is what it was. *)
Theorem C10_save_is_noop_without_token_or_lifetime
        (cfg : Config) (d : list (string * json)) (w : World) :
  (match assoc "access_token" d with
   | Some v => truthy v = false
   | None => True
   end) \/ assoc "expires_in" d = None ->
  _save_cached_token cfg (JDict d) w = (Ok tt, w).
Proof.
  intros H. unfold _save_cached_token, Dyn.get, Dyn.get_default.
  unfold bind at 1. unfold ret at 1.
  unfold bind at 1. unfold ret at 1.
  destruct H as [H | H].
  - destruct (assoc "access_token" d) as [v|]; [rewrite H|]; reflexivity.
  - rewrite H. simpl. now rewrite orb_true_r.
Qed.

Lemma request_new_token_loop_pop (attempts : list Z) (attempt : Z) (data : json)
      (w : World) (r : response) (rest : list response) :
  auth_net w = r :: rest ->
  _request_new_token_loop (attempt :: attempts) data w =
  (let w1 := set_net AuthServer rest
                     (emit (ERequest AuthServer "POST" TOKEN_URL [] [] (Some data)) w) in
   if status_code r =? 429 then
     if attempt =? 1 then
       (print "INFO: Apple returned 429, waiting 60 seconds before retry." ;;
        time_sleep 60 ;;
        _request_new_token_loop attempts data) w1
     else (Raise (RuntimeError "Apple returned HTTP 429 twice."), w1)
   else if status_code r =? 400 then
     (Raise (RuntimeError
               "HTTP 400 from Apple. Check APPLE_CLIENT_ID / APPLE_KEY_ID / APPLE_SCOPE."),
      w1)
   else
     try_except (raise_for_status r ;; response_json r) any_exception
                (fun _ => raise (RuntimeError ("Apple token error: " ++ text r))) w1).
Proof.
  intros Hnet. cbn [_request_new_token_loop].
  unfold bind at 1. unfold request. cbn [net]. rewrite Hnet. cbv zeta.
  destruct (status_code r =? 429).
  - destruct (attempt =? 1); reflexivity.
  - destruct (status_code r =? 400); reflexivity.
Qed.

Lemma added_app (w w' : World) (l : list event) :
  trace w' = (trace w ++ l)%list -> Spec.added w w' = l.
Proof.
  intros H. unfold Spec.added. rewrite H.
  rewrite skipn_app, skipn_all, Nat.sub_diag. reflexivity.
Qed.

Lemma token_response_world (r : response) (w : World) :
  snd (try_except (raise_for_status r ;; response_json r) any_exception
                  (fun _ => raise (RuntimeError ("Apple token error: " ++ text r))) w)
  = w.
Proof.
  unfold try_except, bind, raise_for_status, response_json, of_option, ret, raise.
  destruct (ok r); [destruct (body r)|]; reflexivity.
Qed.

(** C3. In a token exchange, a 400 on the first answer raises the
    invalid-credentials error after that single request. A 429 on the first
    answer is followed by one sleep of 60 seconds and one more POST of the
    same data, and by nothing else; when the second answer is again 429 the
    rate-limited error is raised, when it is 400 the invalid-credentials
    error is raised. *)
Theorem C3_token_exchange_retries_429_once
        (cfg : Config) (assertion : string) (w : World)
        (r1 r2 : response) (rest : list response) :
  auth_net w = r1 :: r2 :: rest ->
  let post := Spec.token_post cfg assertion in
  let run := _request_new_token cfg assertion w in
  (status_code r1 = 400 ->
   fst run = Raise (RuntimeError
                      "HTTP 400 from Apple. Check APPLE_CLIENT_ID / APPLE_KEY_ID / APPLE_SCOPE.")
   /\ Spec.added w (snd run) = [post]
   /\ auth_net (snd run) = r2 :: rest)
  /\
  (status_code r1 = 429 ->
   Spec.added w (snd run) =
     [post; EPrint "INFO: Apple returned 429, waiting 60 seconds before retry.";
      ESleep 60; post]
   /\ clock (snd run) = clock w + 60
   /\ auth_net (snd run) = rest
   /\ (status_code r2 = 429 ->
       fst run = Raise (RuntimeError "Apple returned HTTP 429 twice."))
   /\ (status_code r2 = 400 ->
       fst run = Raise (RuntimeError
                          "HTTP 400 from Apple. Check APPLE_CLIENT_ID / APPLE_KEY_ID / APPLE_SCOPE."))).
Proof.
  intros Hnet post run.
  destruct run as [o w'] eqn:E. subst run. cbn [fst snd].
  unfold _request_new_token in E.
  rewrite (request_new_token_loop_pop _ _ _ _ _ _ Hnet) in E. cbv zeta in E.
  split; intros H1; rewrite H1 in E; cbn [Z.eqb Pos.eqb] in E.
  - inversion E; subst. repeat split; try reflexivity.
    apply added_app. reflexivity.
  - erewrite bind_ok in E by reflexivity.
    erewrite bind_ok in E by reflexivity.
    erewrite request_new_token_loop_pop in E by reflexivity.
    cbv zeta in E. cbn [Z.eqb Pos.eqb] in E.
    assert (Hw : w' = set_net AuthServer rest
                        (emit post
                           (emit (ESleep 60)
                              (set_clock (clock w + 60)
                                 (emit (EPrint "INFO: Apple returned 429, waiting 60 seconds before retry.")
                                    (set_net AuthServer (r2 :: rest) (emit post w))))))).
    { destruct (status_code r2 =? 429); [now inversion E|].
      destruct (status_code r2 =? 400); [now inversion E|].
      apply (f_equal snd) in E. rewrite token_response_world in E.
      symmetry. exact E. }
    repeat split.
    + apply added_app. rewrite Hw. cbn. rewrite <- !app_assoc. reflexivity.
    + rewrite Hw. reflexivity.
    + rewrite Hw. reflexivity.
    + intros H2. rewrite H2 in E. now inversion E.
    + intros H2. rewrite H2 in E. now inversion E.
Qed.

Lemma load_config_world (w w' : World) (o : outcome Config) :
  _load_config w = (o, w') -> w' = w.
Proof.
  unfold _load_config, getenv, bind. cbv beta iota.
  destruct (map fst _); unfold ret, raise; intros H; now inversion H.
Qed.

(** What [_load_cached_token] does with a record of the current client
    and scope that decrypts, parses and has not expired. *)
Lemma load_cached_token_valid
      (cfg : Config) (w : World) (enc : ciphertext) (raw : plaintext)
      (d : list (string * json)) (tok : json) (expires_at : Z) :
  cache_file w = Some enc ->
  fernet_key_ok (FERNET_KEY cfg) = true ->
  fernet_decrypt (FERNET_KEY cfg) enc = Some raw ->
  json_loads raw = Some (JDict d) ->
  assoc "access_token" d = Some tok ->
  assoc "client_id" d = Some (JStr (CLIENT_ID cfg)) ->
  assoc "scope" d = Some (JStr (SCOPE cfg)) ->
  assoc "expires_at" d = Some (JNum expires_at) ->
  clock w < expires_at ->
  _load_cached_token cfg w = (Ok (Some (JDict d)), w).
Proof.
  intros Hfile Hkey Hdec Hjson Htok Hcid Hscope Hexp Hnow.
  unfold _load_cached_token.
  erewrite bind_ok by (unfold cache_exists; rewrite Hfile; reflexivity).
  cbn [negb].
  erewrite bind_ok by (unfold _fernet; rewrite Hkey; reflexivity).
  erewrite bind_ok.
  2:{ apply try_ok.
      erewrite bind_ok by (unfold read_cache; rewrite Hfile; reflexivity).
      erewrite bind_ok by (rewrite Hdec; reflexivity).
      erewrite bind_ok by (rewrite Hjson; reflexivity).
      reflexivity. }
  cbv beta iota.
  erewrite bind_ok.
  2:{ unfold required. cbn [Dyn.has_all Dyn.has]. unfold bind, ret.
      rewrite Htok, Hexp, Hcid, Hscope. reflexivity. }
  cbn [negb].
  erewrite bind_ok by reflexivity.
  erewrite bind_ok by (unfold Dyn.getitem; rewrite Hcid; reflexivity).
  unfold eq_str, str_eqb. rewrite String.eqb_refl. cbn [negb].
  erewrite bind_ok by (unfold Dyn.getitem; rewrite Hscope; reflexivity).
  cbv beta iota. rewrite String.eqb_refl. cbn [negb].
  erewrite bind_ok by (unfold Dyn.getitem; rewrite Hexp; reflexivity).
  erewrite bind_ok by reflexivity.
  destruct (Z.geb_spec (clock w) expires_at); [lia | reflexivity].
Qed.

(** C1. When the cache file holds a record that decrypts and parses, whose
    client identifier and scope are those of the configuration and whose
    expiry lies strictly after the current time, [get_access_token_and_scope]
    returns the record's token and scope, and all it does to the world is
    print one line: no request is sent (the script of the authorization
    server is untouched, the trace gains no request), no identifier is drawn
    for an assertion, and the clock and the cache file stay as they were. *)
Theorem C1_valid_cache_needs_no_network
        (cfg : Config) (w : World) (enc : ciphertext) (raw : plaintext)
        (d : list (string * json)) (tok : json) (expires_at : Z) :
  _load_config w = (Ok cfg, w) ->
  cache_file w = Some enc ->
  fernet_key_ok (FERNET_KEY cfg) = true ->
  fernet_decrypt (FERNET_KEY cfg) enc = Some raw ->
  json_loads raw = Some (JDict d) ->
  assoc "access_token" d = Some tok ->
  assoc "client_id" d = Some (JStr (CLIENT_ID cfg)) ->
  assoc "scope" d = Some (JStr (SCOPE cfg)) ->
  assoc "expires_at" d = Some (JNum expires_at) ->
  clock w < expires_at ->
  let msg := "INFO: Using existing cached token ("
               ++ string_of_Z (expires_at - clock w) ++ " seconds until expiry)." in
  get_access_token_and_scope w = (Ok (tok, JStr (SCOPE cfg)), emit (EPrint msg) w)
  /\ Spec.added w (snd (get_access_token_and_scope w)) = [EPrint msg]
  /\ filter Spec.is_request (Spec.added w (snd (get_access_token_and_scope w))) = []
  /\ auth_net (snd (get_access_token_and_scope w)) = auth_net w
  /\ uuid_seed (snd (get_access_token_and_scope w)) = uuid_seed w.
Proof.
  intros Hcfg Hfile Hkey Hdec Hjson Htok Hcid Hscope Hexp Hnow msg.
  assert (Hrun : get_access_token_and_scope w =
                 (Ok (tok, JStr (SCOPE cfg)), emit (EPrint msg) w)).
  { unfold get_access_token_and_scope.
    erewrite bind_ok by exact Hcfg.
    erewrite bind_ok
      by (eapply load_cached_token_valid; eassumption).
    assert (Htruthy : truthy (JDict d) = true).
    { destruct d; [discriminate Htok | reflexivity]. }
    unfold if_value. rewrite Htruthy.
    erewrite bind_ok by (unfold Dyn.getitem; rewrite Hexp; reflexivity).
    erewrite bind_ok by reflexivity.
    erewrite bind_ok by reflexivity.
    erewrite bind_ok by reflexivity.
    erewrite bind_ok by (unfold Dyn.getitem; rewrite Htok; reflexivity).
    erewrite bind_ok by (unfold Dyn.getitem; rewrite Hscope; reflexivity).
    reflexivity. }
  rewrite Hrun. cbn [snd].
  assert (Hadded : Spec.added w (emit (EPrint msg) w) = [EPrint msg])
    by (apply added_app; reflexivity).
  rewrite Hadded. repeat split; reflexivity.
Qed.

Lemma int_world (v : json) (w w' : World) (o : outcome Z) :
  Dyn.int v w = (o, w') -> w' = w.
Proof.
  unfold Dyn.int, of_option, ret, raise.
  destruct v; try destruct (int_of_string s); intros H; now inversion H.
Qed.

Lemma save_cached_token_writes
      (cfg : Config) (d : list (string * json)) (tok expires_in : json)
      (lifetime : Z) (w : World) :
  fernet_key_ok (FERNET_KEY cfg) = true ->
  assoc "access_token" d = Some tok ->
  truthy tok = true ->
  assoc "expires_in" d = Some expires_in ->
  Dyn.int expires_in w = (Ok lifetime, w) ->
  let record := Spec.cache_record cfg d tok (clock w + Z.max (lifetime - 30) 0) in
  let w1 := emit (EWrite CACHE_FILE)
                 (set_cache_file
                    (Some (fernet_encrypt (FERNET_KEY cfg) (json_dumps (JDict record))))
                    w) in
  _save_cached_token cfg (JDict d) w =
  (Ok tt, if chmod_fails w then w1 else emit (EChmod CACHE_FILE 384) w1).
Proof.
  intros Hkey Htok Htruthy Hin Hint record w1.
  unfold _save_cached_token, Dyn.get, Dyn.get_default.
  erewrite bind_ok by reflexivity. cbv beta iota.
  erewrite bind_ok by reflexivity. cbv beta iota.
  rewrite Htok, Hin, Htruthy.
  assert (Hnone : Dyn.is_none expires_in = false).
  { destruct expires_in; try reflexivity. discriminate Hint. }
  rewrite Hnone. cbn [negb orb].
  erewrite bind_ok by reflexivity. cbv beta iota.
  erewrite bind_ok by exact Hint. cbv beta iota.
  erewrite bind_ok by reflexivity. cbv beta iota.
  erewrite bind_ok by (unfold _fernet; rewrite Hkey; reflexivity). cbv beta iota.
  erewrite bind_ok by reflexivity. cbv beta iota.
  unfold try_except, chmod. cbn [chmod_fails emit set_cache_file].
  destruct (chmod_fails w); reflexivity.
Qed.

(** C4. Take a token response with a non-empty access token and a declared
    lifetime, written by [_save_cached_token] at time [clock w], and read
    the cache back with the same configuration at a time [t] not before the
    write and before the expiry the record carries. The read returns a
    record with the token that was written and the scope of the
    configuration, and the record's expiry lies at least 30 seconds before
    the end of the declared lifetime. *)
Theorem C4_cache_write_then_read
        (cfg : Config) (d : list (string * json)) (tok expires_in : json)
        (lifetime : Z) (w : World) (t : Z) :
  fernet_key_ok (FERNET_KEY cfg) = true ->
  well_keyed (JDict d) = true ->
  assoc "access_token" d = Some tok ->
  truthy tok = true ->
  assoc "expires_in" d = Some expires_in ->
  Dyn.int expires_in w = (Ok lifetime, w) ->
  clock w <= t ->
  t < clock w + Z.max (lifetime - 30) 0 ->
  exists (w1 : World) (record : list (string * json)) (expires_at : Z),
    _save_cached_token cfg (JDict d) w = (Ok tt, w1)
    /\ _load_cached_token cfg (set_clock t w1) = (Ok (Some (JDict record)), set_clock t w1)
    /\ assoc "access_token" record = Some tok
    /\ assoc "scope" record = Some (JStr (SCOPE cfg))
    /\ assoc "expires_at" record = Some (JNum expires_at)
    /\ expires_at + 30 <= clock w + lifetime.
Proof.
  intros Hkey Hwk Htok Htruthy Hin Hint Hle Hlt.
  pose proof (save_cached_token_writes cfg d tok expires_in lifetime w
                Hkey Htok Htruthy Hin Hint) as Hsave.
  cbv zeta in Hsave.
  set (expires_at := clock w + Z.max (lifetime - 30) 0) in *.
  set (record := Spec.cache_record cfg d tok expires_at) in *.
  eexists. exists record, expires_at.
  split; [exact Hsave|].
  assert (Hrecord : well_keyed (JDict record) = true).
  { cbn in Hwk. apply andb_prop in Hwk as [_ Hall].
    assert (Ht : well_keyed tok = true) by (eapply assoc_well_keyed; eassumption).
    assert (Hty : well_keyed (match assoc "token_type" d with
                              | Some x => x
                              | None => JStr "Bearer"
                              end) = true).
    { destruct (assoc "token_type" d) eqn:E; [|reflexivity].
      eapply assoc_well_keyed; eassumption. }
    unfold record, Spec.cache_record. cbn. rewrite Ht, Hty. reflexivity. }
  split; [|repeat split; try reflexivity; unfold expires_at; lia].
  eapply load_cached_token_valid with (expires_at := expires_at).
  - destruct (chmod_fails w); reflexivity.
  - exact Hkey.
  - apply fernet_decrypt_encrypt. exact Hkey.
  - apply json_loads_dumps. exact Hrecord.
  - reflexivity.
  - reflexivity.
  - reflexivity.
  - reflexivity.
  - destruct (chmod_fails w); cbn; exact Hlt.
Qed.

End OAuthFacts.

(* ===================================================================== *)
(** * Computations that leave the resource API and the refresh count alone *)
(* ===================================================================== *)

Section Steady.
Context {L : Libs}.

Lemma bind_inv {A B : Type} (m : M A) (k : A -> M B) (w w' : World) (o : outcome B) :
  bind m k w = (o, w') ->
  (exists a w1, m w = (Ok a, w1) /\ k a w1 = (o, w'))
  \/ (exists e, m w = (Raise e, w') /\ o = Raise e)
  \/ (m w = (Diverge, w') /\ o = Diverge).
Proof.
  unfold bind. destruct (m w) as [[a|e|] w1]; intros H.
  - left. eauto.
  - right. left. inversion H; subst. eauto.
  - right. right. inversion H; subst. eauto.
Qed.

Lemma try_inv {A : Type} (m : M A) c h (w w' : World) (o : outcome A) :
  try_except m c h w = (o, w') ->
  (exists e w1, m w = (Raise e, w1) /\ c e = true /\ h e w1 = (o, w'))
  \/ (m w = (o, w') /\ forall e, o = Raise e -> c e = false).
Proof.
  unfold try_except. destruct (m w) as [[a|e|] w1] eqn:E; intros H.
  - right. inversion H; subst. split; [reflexivity | discriminate].
  - destruct (c e) eqn:Hc.
    + left. eauto.
    + right. inversion H; subst. split; [reflexivity|].
      intros e' He'. now inversion He'; subst.
  - right. inversion H; subst. split; [reflexivity | discriminate].
Qed.

Lemma refreshes_snoc (t : list event) (e : event) :
  Spec.refreshes (t ++ [e]) =
  (Spec.refreshes t + (if Spec.is_refresh e then 1 else 0))%nat.
Proof.
  unfold Spec.refreshes. rewrite filter_app, length_app.
  cbn [filter]. destruct (Spec.is_refresh e); reflexivity.
Qed.

Lemma refreshes_emit (e : event) (w : World) :
  Spec.refreshes (trace (emit e w)) =
  (Spec.refreshes (trace w) + (if Spec.is_refresh e then 1 else 0))%nat.
Proof. apply refreshes_snoc. Qed.

Lemma steady_ret {A : Type} (a : A) : steady (ret a).
Proof. intros w o w' H. inversion H; subst. repeat split. discriminate. Qed.

Lemma steady_raise {A : Type} (e : exn) : steady (@raise L A e).
Proof. intros w o w' H. inversion H; subst. repeat split. discriminate. Qed.

Lemma steady_bind {A B : Type} (m : M A) (k : A -> M B) :
  steady m -> (forall a, steady (k a)) -> steady (bind m k).
Proof.
  intros Hm Hk w o w' H.
  destruct (bind_inv _ _ _ _ _ H) as [(a & w1 & H1 & H2) | [(e & H1 & ->) | (H1 & ->)]].
  - destruct (Hm _ _ _ H1) as (_ & Hn1 & Hr1).
    destruct (Hk a _ _ _ H2) as (Hd & Hn2 & Hr2).
    repeat split; [exact Hd | congruence | congruence].
  - destruct (Hm _ _ _ H1) as (_ & Hn1 & Hr1).
    repeat split; [discriminate | exact Hn1 | exact Hr1].
  - destruct (Hm _ _ _ H1) as (Hd & _). now elim Hd.
Qed.

Lemma steady_try {A : Type} (m : M A) c (h : exn -> M A) :
  steady m -> (forall e, steady (h e)) -> steady (try_except m c h).
Proof.
  intros Hm Hh w o w' H.
  destruct (try_inv _ _ _ _ _ _ H) as [(e & w1 & H1 & _ & H2) | (H1 & _)].
  - destruct (Hm _ _ _ H1) as (_ & Hn1 & Hr1).
    destruct (Hh e _ _ _ H2) as (Hd & Hn2 & Hr2).
    repeat split; [exact Hd | congruence | congruence].
  - exact (Hm _ _ _ H1).
Qed.

Lemma steady_of_option {A : Type} (o : option A) (e : exn) : steady (of_option o e).
Proof. destruct o; [apply steady_ret | apply steady_raise]. Qed.

Lemma steady_print (msg : string) :
  str_eqb msg Spec.REFRESH_MSG = false -> steady (print msg).
Proof.
  intros Hmsg w o w' H. inversion H; subst.
  rewrite refreshes_emit. cbn [Spec.is_refresh]. rewrite Hmsg.
  repeat split; [discriminate | apply Nat.add_0_r].
Qed.

(** A primitive that answers in one step and emits nothing that counts. *)
Ltac steady_prim :=
  let w := fresh "w" in
  let o := fresh "o" in
  let w' := fresh "w'" in
  let H := fresh "H" in
  intros w o w' H;
  repeat match type of H with
         | context [if ?b then _ else _] => destruct b
         | context [match ?x with _ => _ end] => destruct x eqn:?
         end;
  inversion H; subst;
  world_fields; rewrite ?refreshes_snoc; cbn [is_refresh];
  repeat split; try discriminate; try reflexivity; try apply Nat.add_0_r.

Lemma steady_time_time : steady time_time.
Proof. steady_prim. Qed.

Lemma steady_time_sleep (n : Z) : steady (time_sleep n).
Proof. unfold time_sleep. steady_prim. Qed.

Lemma steady_getenv (f : Env -> option string) : steady (getenv f).
Proof. steady_prim. Qed.

Lemma steady_request_auth method url hdrs params data :
  steady (request AuthServer method url hdrs params data).
Proof. unfold request. cbn [net]. steady_prim. Qed.

Lemma steady_request_download method url hdrs params data :
  steady (request DownloadHost method url hdrs params data).
Proof. unfold request. cbn [net]. steady_prim. Qed.

Lemma steady_response_json (r : response) : steady (response_json r).
Proof. apply steady_of_option. Qed.

Lemma steady_cache_exists : steady AxM_OAuth.cache_exists.
Proof. steady_prim. Qed.

Lemma steady_read_cache : steady AxM_OAuth.read_cache.
Proof. unfold AxM_OAuth.read_cache. steady_prim. Qed.

Lemma steady_write_cache (c : ciphertext) : steady (AxM_OAuth.write_cache c).
Proof. steady_prim. Qed.

Lemma steady_chmod (path : string) (mode : Z) : steady (AxM_OAuth.chmod path mode).
Proof. unfold AxM_OAuth.chmod. steady_prim. Qed.

Lemma steady_remove_cache : steady AxM_OAuth.remove_cache.
Proof. unfold AxM_OAuth.remove_cache. steady_prim. Qed.

Lemma steady_read_text (path : string) : steady (AxM_OAuth.read_text path).
Proof. unfold AxM_OAuth.read_text. steady_prim. Qed.

Lemma steady_fresh_uuid : steady AxM_OAuth.fresh_uuid.
Proof. steady_prim. Qed.

Lemma steady_get_default (v : json) (k : string) (x : json) :
  steady (Dyn.get_default v k x).
Proof. destruct v; first [apply steady_ret | apply steady_raise]. Qed.

Lemma steady_get (v : json) (k : string) : steady (Dyn.get v k).
Proof. apply steady_get_default. Qed.

Lemma steady_getitem (v : json) (k : string) : steady (Dyn.getitem v k).
Proof. destruct v; first [apply steady_of_option | apply steady_raise]. Qed.

Lemma steady_has (k : string) (v : json) : steady (Dyn.has k v).
Proof. destruct v; first [apply steady_ret | apply steady_raise]. Qed.

Lemma steady_has_all (keys : list string) (v : json) : steady (Dyn.has_all keys v).
Proof.
  induction keys as [|k keys IH]; cbn [Dyn.has_all]; [apply steady_ret|].
  apply steady_bind; [apply steady_has|].
  intros [|]; [exact IH | apply steady_ret].
Qed.

Lemma steady_as_int (v : json) : steady (Dyn.as_int v).
Proof. destruct v; first [apply steady_ret | apply steady_raise]. Qed.

Lemma steady_int (v : json) : steady (Dyn.int v).
Proof.
  destruct v; first [apply steady_ret | apply steady_raise | apply steady_of_option].
Qed.

Lemma steady_str_lower (v : json) : steady (Dyn.str_lower v).
Proof. destruct v; first [apply steady_ret | apply steady_raise]. Qed.

Create HintDb steady.
#[local] Hint Resolve steady_ret steady_raise steady_of_option steady_time_time
  steady_time_sleep steady_getenv steady_request_auth steady_request_download
  steady_response_json steady_cache_exists steady_read_cache steady_write_cache
  steady_chmod steady_remove_cache steady_read_text steady_fresh_uuid
  steady_get_default steady_get steady_getitem steady_has_all steady_as_int
  steady_int steady_str_lower : steady.

(** Takes a computation apart along its binds, handlers and tests. *)
Ltac steady_tac :=
  repeat first
    [ solve [auto with steady]
    | apply steady_print; reflexivity
    | apply steady_bind; [|intros]
    | apply steady_try; [|intros]
    | match goal with
      | |- steady (if ?b then _ else _) => destruct b
      | |- steady (match ?x with _ => _ end) => destruct x
      | |- steady (let '(_, _) := ?x in _) => destruct x
      end ].

Lemma steady_load_config : steady AxM_OAuth._load_config.
Proof. unfold AxM_OAuth._load_config. steady_tac. Qed.

Lemma steady_fernet cfg : steady (AxM_OAuth._fernet cfg).
Proof. unfold AxM_OAuth._fernet. steady_tac. Qed.

#[local] Hint Resolve steady_load_config steady_fernet : steady.

Lemma steady_load_cached_token cfg : steady (AxM_OAuth._load_cached_token cfg).
Proof. unfold AxM_OAuth._load_cached_token. steady_tac. Qed.

Lemma steady_save_cached_token cfg tr : steady (AxM_OAuth._save_cached_token cfg tr).
Proof. unfold AxM_OAuth._save_cached_token. steady_tac. Qed.

Lemma steady_build_client_assertion cfg :
  steady (AxM_OAuth._build_client_assertion cfg).
Proof. unfold AxM_OAuth._build_client_assertion. steady_tac. Qed.

Lemma steady_request_new_token_loop attempts data :
  steady (AxM_OAuth._request_new_token_loop attempts data).
Proof.
  induction attempts as [|attempt rest IH]; cbn [AxM_OAuth._request_new_token_loop].
  - apply steady_raise.
  - unfold AxM_OAuth.raise_for_status. steady_tac.
Qed.

Lemma steady_request_new_token cfg assertion :
  steady (AxM_OAuth._request_new_token cfg assertion).
Proof. apply steady_request_new_token_loop. Qed.

#[local] Hint Resolve steady_load_cached_token steady_save_cached_token
  steady_build_client_assertion steady_request_new_token : steady.

Lemma steady_get_access_token_and_scope :
  steady AxM_OAuth.get_access_token_and_scope.
Proof. unfold AxM_OAuth.get_access_token_and_scope. steady_tac. Qed.

#[local] Hint Resolve steady_get_access_token_and_scope : steady.

Lemma steady_get_token_and_base_url force_new :
  steady (AxM_GetDeviceInfo_FromList.get_token_and_base_url force_new).
Proof. unfold AxM_GetDeviceInfo_FromList.get_token_and_base_url. steady_tac. Qed.

Lemma steady_handle_429 r : steady (AxM_GetDeviceInfo_FromList.handle_429 r).
Proof. unfold AxM_GetDeviceInfo_FromList.handle_429. steady_tac. Qed.

End Steady.

(* ===================================================================== *)
(** * AxM_GetDeviceInfo_FromList.py: one forced refresh per run *)
(* ===================================================================== *)

Section DeviceInfoFacts.
Context {L : Libs}.
Import AxM_GetDeviceInfo_FromList.

Lemma request_api_inv method url hdrs params data (w w1 : World) (o : outcome response) :
  request ApiServer method url hdrs params data w = (o, w1) ->
  Spec.refreshes (trace w1) = Spec.refreshes (trace w)
  /\ ((api_net w = [] /\ api_net w1 = [] /\ o = Raise ConnectionError)
      \/ (exists r, api_net w = r :: api_net w1 /\ o = Ok r)).
Proof.
  unfold request. cbn [net]. destruct (api_net w) as [|r rest] eqn:E; intros H;
    inversion H; subst; world_fields; rewrite refreshes_snoc; cbn [Spec.is_refresh].
  - split; [apply Nat.add_0_r|]. left. auto.
  - split; [apply Nat.add_0_r|]. right. exists r. auto.
Qed.

Lemma print_inv (msg : string) (w w1 : World) (o : outcome unit) :
  print msg w = (o, w1) ->
  o = Ok tt /\ api_net w1 = api_net w
  /\ Spec.refreshes (trace w1) =
     (Spec.refreshes (trace w) + (if str_eqb msg Spec.REFRESH_MSG then 1 else 0))%nat.
Proof.
  intros H. inversion H; subst. world_fields. rewrite refreshes_snoc. auto.
Qed.



(** Every call of [fetch_device_info] uses up answers of the API, spends
    at most what is left of the refresh budget, hands back a token state
    whose budget accounts for what was spent, and ends when its fuel
    exceeds the number of answers the API still has. *)
Lemma fetch_device_info_budget (fuel : nat) :
  forall (device_id : string) (ts : token_state) (w w' : World)
         (o : outcome (token_state * fetch_result)),
    fetch_device_info fuel device_id ts w = (o, w') ->
    (List.length (api_net w') <= List.length (api_net w))%nat
    /\ (Spec.refreshes (trace w') <= Spec.refreshes (trace w) + Spec.budget ts)%nat
    /\ (forall ts' r, o = Ok (ts', r) ->
                      (Spec.refreshes (trace w') + Spec.budget ts'
                       <= Spec.refreshes (trace w) + Spec.budget ts)%nat)
    /\ ((List.length (api_net w) < fuel)%nat -> o <> Diverge).
Proof.
  induction fuel as [|fuel IH]; intros device_id ts w w' o H.
  - inversion H; subst. repeat split; try lia. discriminate.
  - cbn [fetch_device_info] in H.
    apply bind_inv in H as [(r & w1 & Hreq & H) | [(e & Hreq & ->) | (Hreq & ->)]];
      apply request_api_inv in Hreq as (Hr1 & [(Hn & Hn1 & Ho) | (r0 & Hn & Ho)]);
      try discriminate.
    2:{ rewrite Hn, Hn1, Hr1. repeat split; try lia; discriminate. }
    inversion Ho; subst r0; clear Ho.
    assert (Hlen : (List.length (api_net w) = S (List.length (api_net w1)))%nat)
      by (rewrite Hn; reflexivity).
    destruct (status_code r =? 429).
    { apply bind_inv in H as [([] & w2 & H429 & H) | [(e & H429 & ->) | (H429 & ->)]];
        apply steady_handle_429 in H429 as (Hd & Hn2 & Hr2).
      - apply IH in H as (Ha & Hb & Hc & Hd').
        rewrite Hn2, Hr2, Hr1 in *. repeat split; try lia.
        + intros ts' r' Heq. specialize (Hc _ _ Heq). lia.
        + intros Hf. apply Hd'. lia.
      - rewrite Hn2, Hr2, Hr1. repeat split; try lia; discriminate.
      - now elim Hd. }
    destruct (status_code r =? 401).
    { destruct (refreshed_once ts) eqn:Eref; cbn [negb] in H.
      - inversion H; subst. unfold Spec.budget. rewrite Eref, Hr1.
        repeat split; try lia; try discriminate.
        intros ts' r' Heq. inversion Heq; subst. rewrite Eref. lia.
      - apply bind_inv in H as [([] & w2 & Hp & H) | [(e & Hp & ->) | (Hp & ->)]];
          apply print_inv in Hp as (Hpo & Hn2 & Hr2); try discriminate.
        unfold Spec.REFRESH_MSG, str_eqb in Hr2. rewrite String.eqb_refl in Hr2.
        apply bind_inv in H as [([tok base] & w3 & Hg & H) | [(e & Hg & ->) | (Hg & ->)]];
          apply steady_get_token_and_base_url in Hg as (Hd & Hn3 & Hr3).
        + apply IH in H as (Ha & Hb & Hc & Hd').
          unfold Spec.budget in *. rewrite Eref. cbn [refreshed_once] in *.
          rewrite Hn3, Hn2, Hr3, Hr2, Hr1 in *. repeat split; try lia.
          * intros ts' r' Heq. specialize (Hc _ _ Heq). lia.
          * intros Hf. apply Hd'. lia.
        + unfold Spec.budget. rewrite Eref.
          rewrite Hn3, Hn2, Hr3, Hr2, Hr1. repeat split; try lia; discriminate.
        + now elim Hd. }
    assert (Hdone : forall res,
               (o, w') = (Ok (ts, res), w1) ->
               (List.length (api_net w') <= List.length (api_net w))%nat
               /\ (Spec.refreshes (trace w') <= Spec.refreshes (trace w) + Spec.budget ts)%nat
               /\ (forall ts' r, o = Ok (ts', r) ->
                                 (Spec.refreshes (trace w') + Spec.budget ts'
                                  <= Spec.refreshes (trace w) + Spec.budget ts)%nat)
               /\ ((List.length (api_net w) < S fuel)%nat -> o <> Diverge)).
    { intros res Heq. inversion Heq; subst. rewrite Hr1.
      repeat split; try lia; try discriminate.
      intros ts' r' Heq'. inversion Heq'; subst. lia. }
    destruct (status_code r =? 403); [now apply (Hdone _ (eq_sym H))|].
    destruct (status_code r =? 400); [now apply (Hdone _ (eq_sym H))|].
    destruct (status_code r =? 404).
    { apply bind_inv in H as [([] & w2 & Hp & H) | [(e & Hp & ->) | (Hp & ->)]];
        apply print_inv in Hp as (Hpo & Hn2 & Hr2); try discriminate.
      inversion H; subst.
      replace (str_eqb _ Spec.REFRESH_MSG) with false in Hr2 by reflexivity.
      rewrite Hn2, Hr2, Hr1. repeat split; try lia; try discriminate.
      intros ts' r' Heq'. inversion Heq'; subst. lia. }
    destruct (negb (ok r)); [now apply (Hdone _ (eq_sym H))|].
    unfold try_except, bind, response_json, of_option, ret, raise in H.
    destruct (body r); cbn in H; now apply (Hdone _ (eq_sym H)).
Qed.

Lemma fetch_each_budget (fuel : nat) (serials : list string) :
  forall (ts : token_state) (t : tally) (w w' : World)
         (o : outcome (token_state * tally)),
    fetch_each fuel serials ts t w = (o, w') ->
    (List.length (api_net w') <= List.length (api_net w))%nat
    /\ (Spec.refreshes (trace w') <= Spec.refreshes (trace w) + Spec.budget ts)%nat
    /\ ((List.length (api_net w) < fuel)%nat -> o <> Diverge).
Proof.
  induction serials as [|serial rest IH]; intros ts t w w' o H.
  - inversion H; subst. repeat split; try lia. discriminate.
  - cbn [fetch_each] in H.
    apply bind_inv in H as [([] & w1 & Hp & H) | [(e & Hp & ->) | (Hp & ->)]];
      apply print_inv in Hp as (Hpo & Hn1 & Hr1); try discriminate.
    replace (str_eqb _ Spec.REFRESH_MSG) with false in Hr1 by reflexivity.
    apply bind_inv in H as [([ts' [data err]] & w2 & Hf & H) | [(e & Hf & ->) | (Hf & ->)]];
      apply fetch_device_info_budget in Hf as (Ha & Hb & Hc & Hd).
    2:{ rewrite Hn1, Hr1 in *. repeat split; try lia. intros _. discriminate. }
    2:{ rewrite Hn1, Hr1 in *. repeat split; try lia.
        intros Hfuel. exfalso. now apply (Hd Hfuel). }
    specialize (Hc _ _ eq_refl).
    assert (Hrest : forall t1,
               fetch_each fuel rest ts' t1 w2 = (o, w') ->
               (List.length (api_net w') <= List.length (api_net w))%nat
               /\ (Spec.refreshes (trace w') <= Spec.refreshes (trace w) + Spec.budget ts)%nat
               /\ ((List.length (api_net w) < fuel)%nat -> o <> Diverge)).
    { intros t1 Hrun. apply IH in Hrun as (Ha' & Hb' & Hd').
      rewrite Hn1, Hr1 in *. repeat split; try lia.
      intros Hfuel. apply Hd'. lia. }
    destruct err as [msg|]; [|now apply (Hrest _ H)].
    destruct (str_eqb msg "NOT_FOUND"); [now apply (Hrest _ H)|].
    destruct (negb (str_eqb msg "")); [|now apply (Hrest _ H)].
    apply bind_inv in H as [([] & w3 & Hp & H) | [(e & Hp & ->) | (Hp & ->)]];
      apply print_inv in Hp as (Hpo' & Hn3 & Hr3); try discriminate.
    replace (str_eqb _ Spec.REFRESH_MSG) with false in Hr3 by reflexivity.
    apply IH in H as (Ha' & Hb' & Hd').
    rewrite Hn3, Hr3, Hn1, Hr1 in *. repeat split; try lia.
    intros Hfuel. apply Hd'. lia.
Qed.

Lemma main_budget (fuel : nat) (serials : list string) (w w' : World)
      (o : outcome (option tally)) :
  main fuel serials w = (o, w') ->
  (Spec.refreshes (trace w') <= Spec.refreshes (trace w) + 1)%nat
  /\ ((List.length (api_net w) < fuel)%nat -> o <> Diverge).
Proof.
  unfold main. destruct serials as [|s0 rest]; intros H.
  - inversion H; subst. world_fields. rewrite refreshes_snoc.
    replace (Spec.is_refresh _) with false by reflexivity.
    split; [lia | discriminate].
  - apply bind_inv in H as [([] & w1 & Hp & H) | [(e & Hp & ->) | (Hp & ->)]];
      apply print_inv in Hp as (Hpo & Hn1 & Hr1); try discriminate.
    replace (str_eqb _ Spec.REFRESH_MSG) with false in Hr1 by reflexivity.
    apply bind_inv in H as [([tok url] & w2 & Hg & H) | [(e & Hg & ->) | (Hg & ->)]];
      apply steady_get_token_and_base_url in Hg as (Hd & Hn2 & Hr2).
    2:{ rewrite Hr2, Hr1. split; [lia | discriminate]. }
    2:{ now elim Hd. }
    apply bind_inv in H as [([ts' t] & w3 & Hf & H) | [(e & Hf & ->) | (Hf & ->)]];
      apply fetch_each_budget in Hf as (Ha & Hb & Hd'); unfold Spec.budget in Hb;
      cbn [refreshed_once] in Hb; rewrite Hn2, Hn1 in *; rewrite Hr2, Hr1 in *.
    + inversion H; subst. split; [lia | discriminate].
    + split; [lia | discriminate].
    + split; [lia|]. intros Hfuel. exfalso. now apply (Hd' Hfuel).
Qed.

(** With the flag set, a call that meets a 401 needs one level of
    recursion and one answer. *)
Lemma fetch_device_info_401_refreshed (fuel : nat) (device_id : string)
      (ts : token_state) (w : World) :
  refreshed_once ts = true ->
  Forall (fun r => status_code r = 401) (api_net w) ->
  fst (fetch_device_info (S fuel) device_id ts w) <> Diverge
  /\ (List.length (api_net w)
      <= List.length (api_net (snd (fetch_device_info (S fuel) device_id ts w))) + 1)%nat.
Proof.
  intros Href Hall. cbn [fetch_device_info].
  destruct (api_net w) as [|r rest] eqn:Hnet.
  - erewrite bind_raise by (unfold request; cbn [net]; rewrite Hnet; reflexivity).
    cbn [fst snd]. world_fields. rewrite Hnet. split; [discriminate | cbn; lia].
  - erewrite bind_ok by (unfold request; cbn [net]; rewrite Hnet; reflexivity).
    cbv beta iota. inversion Hall as [|r' rest' H401 Hrest]; subst.
    rewrite H401, Href. cbn [Z.eqb Pos.eqb negb fst snd]. world_fields.
    split; [discriminate | cbn; lia].
Qed.

(** When the API answers nothing but 401, two levels of recursion and two
    answers are all a call takes, however many answers are on offer. *)
Lemma fetch_device_info_all_401 (fuel : nat) (device_id : string)
      (ts : token_state) (w : World) :
  Forall (fun r => status_code r = 401) (api_net w) ->
  fst (fetch_device_info (S (S fuel)) device_id ts w) <> Diverge
  /\ (List.length (api_net w)
      <= List.length (api_net (snd (fetch_device_info (S (S fuel)) device_id ts w))) + 2)%nat.
Proof.
  intros Hall.
  destruct (refreshed_once ts) eqn:Href.
  { destruct (fetch_device_info_401_refreshed (S fuel) device_id ts w Href Hall).
    split; [assumption | lia]. }
  remember (S fuel) as fuel1 eqn:Hfuel1.
  cbn [fetch_device_info].
  destruct (api_net w) as [|r rest] eqn:Hnet.
  - erewrite bind_raise by (unfold request; cbn [net]; rewrite Hnet; reflexivity).
    cbn [fst snd]. world_fields. rewrite Hnet. split; [discriminate | cbn; lia].
  - erewrite bind_ok by (unfold request; cbn [net]; rewrite Hnet; reflexivity).
    cbv beta iota. inversion Hall as [|r' rest' H401 Hrest]; subst.
    rewrite H401, Href. cbn [Z.eqb Pos.eqb negb].
    erewrite bind_ok by reflexivity. cbv beta iota.
    match goal with
    | |- context [bind (get_token_and_base_url true) ?k ?w2] =>
        destruct (get_token_and_base_url true w2) as [o w3] eqn:Hg;
        pose proof (steady_get_token_and_base_url true _ _ _ Hg) as (Hd & Hn3 & _);
        cbn [api_net emit set_net] in Hn3;
        destruct o as [[tok base]|e|]
    end.
    + erewrite bind_ok by exact Hg. cbv beta iota.
      destruct (fetch_device_info_401_refreshed
                  fuel device_id (mkTokenState tok base true) w3 eq_refl)
        as (Hdiv & Hlen).
      { rewrite Hn3. exact Hrest. }
      split; [exact Hdiv|]. rewrite Hn3 in Hlen. cbn [List.length]. lia.
    + erewrite bind_raise by exact Hg. cbn [fst snd]. rewrite Hn3.
      split; [discriminate | cbn; lia].
    + now elim Hd.
Qed.

(** C2. Whatever the servers answer: a call of [fetch_device_info] records
    at most as many forced refreshes as the shared flag allows (one when
    [refreshed_once] is unset, none when it is set), and a whole run of
    [main] at most one. A 401 met with the flag set ends the call at once
    with the error outcome of that item, after that single request. With
    fuel beyond the number of answers the API has, the run ends; and when
    the API answers nothing but 401, a call ends within two levels of
    recursion and two requests, however many such answers are on offer. *)
Theorem C2_one_forced_refresh_per_run
        (fuel : nat) (serials : list string) (w : World) :
  (forall device_id ts,
      (Spec.refreshes (trace (snd (fetch_device_info fuel device_id ts w)))
       <= Spec.refreshes (trace w) + Spec.budget ts)%nat)
  /\ (Spec.refreshes (trace (snd (main fuel serials w)))
      <= Spec.refreshes (trace w) + 1)%nat
  /\ (forall device_id ts r rest,
         refreshed_once ts = true ->
         api_net w = r :: rest ->
         status_code r = 401 ->
         fetch_device_info (S fuel) device_id ts w =
         (Ok (ts, (None, Some "401 Unauthorized even after regenerating token once")),
          set_net ApiServer rest
                  (emit (ERequest ApiServer "GET" (base_url ts ++ "/" ++ device_id)
                                  [("Authorization", "Bearer " ++ str (access_token ts));
                                   ("Accept", "application/json")] [] None) w)))
  /\ ((List.length (api_net w) < fuel)%nat ->
      fst (main fuel serials w) <> Diverge)
  /\ (forall device_id ts,
         Forall (fun r => status_code r = 401) (api_net w) ->
         fst (fetch_device_info (S (S fuel)) device_id ts w) <> Diverge
         /\ (List.length (api_net w)
             <= List.length
                  (api_net (snd (fetch_device_info (S (S fuel)) device_id ts w))) + 2)%nat).
Proof.
  split; [|split; [|split; [|split]]].
  - intros device_id ts.
    destruct (fetch_device_info fuel device_id ts w) as [o w'] eqn:E.
    now apply fetch_device_info_budget in E.
  - destruct (main fuel serials w) as [o w'] eqn:E.
    now apply main_budget in E.
  - intros device_id ts r rest Href Hnet H401.
    cbn [fetch_device_info].
    erewrite bind_ok by (unfold request; cbn [net]; rewrite Hnet; reflexivity).
    cbv beta iota. rewrite H401, Href. reflexivity.
  - intros Hfuel.
    destruct (main fuel serials w) as [o w'] eqn:E.
    apply main_budget in E. now apply E.
  - intros device_id ts Hall. now apply fetch_device_info_all_401.
Qed.

End DeviceInfoFacts.

(* ===================================================================== *)
(** * AxM_OrgDevices_To_CSV.py: pagination, 429 and scope *)
(* ===================================================================== *)

Section OrgDevicesFacts.
Context {L : Libs}.
Import AxM_OrgDevices_To_CSV.

Lemma truthy_cursor (c : string) : c <> "" -> truthy (JStr c) = true.
Proof.
  intros Hc. cbn. unfold str_eqb. destruct (String.eqb_spec c ""); [contradiction|reflexivity].
Qed.

Lemma api_params_app (a b : list event) :
  Spec.api_params (a ++ b) = (Spec.api_params a ++ Spec.api_params b)%list.
Proof. unfold Spec.api_params. apply flat_map_app. Qed.

(** One turn of the loop on a page: the page's entries are appended and
    the loop goes on, or stops, according to the page's cursor. *)
Lemma fetch_loop_page (fuel : nat) (tok : json) (url : string) (devices : list json)
      (cursor : option string) (flag : bool) (w : World)
      (r : response) (rest : list response)
      (entries : list json) (next : option string) :
  api_net w = r :: rest ->
  Spec.serves r entries next ->
  (forall c, cursor = Some c -> c <> "") ->
  (forall c, next = Some c -> c <> "") ->
  exists w1 evs,
    trace w1 = (trace w ++ evs)%list
    /\ api_net w1 = rest
    /\ Spec.api_params evs = [Spec.page_params cursor]
    /\ fetch_loop (S fuel) tok url devices (Spec.cursor_value cursor) flag w =
       match next with
       | Some c => fetch_loop fuel tok url (devices ++ entries) (JStr c) flag w1
       | None => (Ok (devices ++ entries)%list, w1)
       end.
Proof.
  intros Hnet [Hstatus Hbody] Hcur Hnext.
  assert (Hparams :
            (("limit", JNum PAGE_LIMIT)
               :: (if truthy (Spec.cursor_value cursor)
                   then [("cursor", Spec.cursor_value cursor)] else []))%list
            = Spec.page_params cursor).
  { destruct cursor as [c|]; [|reflexivity].
    cbn [Spec.cursor_value]. rewrite (truthy_cursor c (Hcur c eq_refl)). reflexivity. }
  cbn [fetch_loop]. rewrite Hparams.
  erewrite bind_ok by reflexivity. cbv beta iota.
  erewrite bind_ok by (unfold request; cbn [net]; world_fields; rewrite Hnet; reflexivity).
  cbv beta iota. unfold ok. rewrite Hstatus. cbn [Z.eqb Pos.eqb Z.leb Z.ltb Z.compare Pos.compare Pos.compare_cont andb negb].
  erewrite bind_ok by (unfold response_json; rewrite Hbody; reflexivity).
  cbv beta iota.
  assert (Hlist : por (JList entries) (JList []) = JList entries)
    by (destruct entries; reflexivity).
  unfold Spec.page_body, Dyn.get, Dyn.get_default.
  erewrite bind_ok by reflexivity. cbv beta iota. lookup. rewrite Hlist.
  erewrite bind_ok by reflexivity. cbv beta iota.
  erewrite bind_ok by reflexivity. cbv beta iota.
  erewrite bind_ok by reflexivity. cbv beta iota.
  erewrite bind_ok by reflexivity. cbv beta iota. lookup. cbn [por truthy].
  erewrite bind_ok by reflexivity. cbv beta iota. lookup.
  destruct next as [c|].
  - cbn [por truthy].
    erewrite bind_ok by reflexivity. cbv beta iota. lookup.
    rewrite (truthy_cursor c (Hnext c eq_refl)). cbn [negb].
    eexists. eexists. split; [|split; [|split; [|reflexivity]]].
    + world_fields. rewrite <- !app_assoc. reflexivity.
    + reflexivity.
    + reflexivity.
  - cbn [por truthy].
    erewrite bind_ok by reflexivity. cbv beta iota. lookup.
    cbn [truthy negb].
    erewrite bind_ok by reflexivity. cbv beta iota.
    eexists. eexists. split; [|split; [|split; [|reflexivity]]].
    + world_fields. rewrite <- !app_assoc. reflexivity.
    + reflexivity.
    + reflexivity.
Qed.

(** The loop over a whole listing, started anywhere in it. *)
Lemma fetch_loop_pages (pages : list (list json * string)) :
  forall (fuel : nat) (tok : json) (url : string) (devices : list json)
         (cursor : option string) (flag : bool) (w : World)
         (rs : list response) (last_r : response) (last : list json),
    api_net w = (rs ++ [last_r])%list ->
    Forall2 (fun r p => Spec.serves r (fst p) (Some (snd p))) rs pages ->
    Forall (fun p => snd p <> "") pages ->
    Spec.serves last_r last None ->
    (forall c, cursor = Some c -> c <> "") ->
    (List.length pages < fuel)%nat ->
    exists w' evs,
      fetch_loop fuel tok url devices (Spec.cursor_value cursor) flag w =
      (Ok (devices ++ List.concat (map fst pages) ++ last)%list, w')
      /\ trace w' = (trace w ++ evs)%list
      /\ api_net w' = []
      /\ Spec.api_params evs =
         (Spec.page_params cursor
            :: map (fun p => Spec.page_params (Some (snd p))) pages)%list.
Proof.
  induction pages as [|[entries c] pages IH];
    intros fuel tok url devices cursor flag w rs last_r last
           Hnet Hserve Hcursors Hlast Hcur Hfuel.
  - inversion Hserve; subst. cbn [app] in Hnet.
    destruct fuel as [|fuel]; [cbn in Hfuel; lia|].
    destruct (fetch_loop_page fuel tok url devices cursor flag w last_r [] last None
                              Hnet Hlast Hcur) as (w1 & evs & Ht & Hn & Hp & Hrun).
    { discriminate. }
    exists w1, evs. cbn [map List.concat app]. rewrite Hrun. auto.
  - inversion Hserve as [|r p rs' pages' Hr Hrs]; subst. cbn [app fst snd] in *.
    inversion Hcursors as [|p ps Hc Hcs]; subst. cbn [snd] in Hc.
    destruct fuel as [|fuel]; [cbn in Hfuel; lia|].
    destruct (fetch_loop_page fuel tok url devices cursor flag w r (rs' ++ [last_r])
                              entries (Some c) Hnet Hr Hcur)
      as (w1 & evs1 & Ht1 & Hn1 & Hp1 & Hrun1).
    { intros c' Hc'. now inversion Hc'; subst. }
    destruct (IH fuel tok url (devices ++ entries)%list (Some c) flag w1
                 rs' last_r last Hn1 Hrs Hcs Hlast) as (w' & evs2 & Hrun2 & Ht2 & Hn2 & Hp2).
    { intros c' Hc'. now inversion Hc'; subst. }
    { cbn in Hfuel. lia. }
    exists w', (evs1 ++ evs2)%list. rewrite Hrun1. cbn [Spec.cursor_value] in Hrun2.
    rewrite Hrun2. cbn [map List.concat fst snd].
    repeat split.
    + now rewrite <- !app_assoc.
    + rewrite Ht2, Ht1. now rewrite app_assoc.
    + exact Hn2.
    + rewrite api_params_app, Hp1, Hp2. reflexivity.
Qed.

(** C6. Let the API answer the listing requests with a finite sequence of
    pages, each but the last carrying a non-empty cursor. Once
    [get_token_and_url] has delivered token and URL, [fetch_all_devices]
    ends (any fuel above the number of pages suffices) and returns the
    entries of the pages concatenated in page order, as many as the pages
    hold together. It sends one request per page; each carries
    [limit = 1000], the first no cursor and every later one the cursor of
    the page before. *)
Theorem C6_pagination_concatenates_pages
        (fuel : nat) (w0 w : World) (tok : json) (url : string)
        (pages : list (list json * string)) (rs : list response)
        (last_r : response) (last : list json) :
  get_token_and_url false w0 = (Ok (tok, url), w) ->
  api_net w = (rs ++ [last_r])%list ->
  Forall2 (fun r p => Spec.serves r (fst p) (Some (snd p))) rs pages ->
  Forall (fun p => snd p <> "") pages ->
  Spec.serves last_r last None ->
  (List.length pages < fuel)%nat ->
  let run := fetch_all_devices fuel w0 in
  let sent := Spec.api_params (Spec.added w (snd run)) in
  fst run = Ok (List.concat (map fst pages) ++ last)%list
  /\ (List.length (List.concat (map fst pages) ++ last)
      = list_sum (map (fun p => List.length (fst p)) pages) + List.length last)%nat
  /\ sent = (Spec.page_params None
               :: map (fun p => Spec.page_params (Some (snd p))) pages)%list
  /\ Forall (fun p => assoc "limit" p = Some (JNum PAGE_LIMIT)) sent
  /\ api_net (snd run) = [].
Proof.
  intros Htoken Hnet Hserve Hcursors Hlast Hfuel run sent.
  destruct (fetch_loop_pages pages fuel tok url [] None false w rs last_r last
                             Hnet Hserve Hcursors Hlast)
    as (w' & evs & Hrun & Ht & Hn & Hp); [discriminate | exact Hfuel |].
  cbn [Spec.cursor_value app] in Hrun.
  assert (Hall : fetch_all_devices fuel w0 =
                 (Ok (List.concat (map fst pages) ++ last)%list,
                  emit (EPrint ("INFO: Total devices fetched: "
                                  ++ string_of_Z
                                       (Z.of_nat (List.length (List.concat (map fst pages) ++ last)))))
                       w')).
  { unfold fetch_all_devices.
    erewrite bind_ok by exact Htoken. cbv beta iota.
    erewrite bind_ok by exact Hrun. cbv beta iota.
    erewrite bind_ok by reflexivity. reflexivity. }
  assert (Hsent : sent = (Spec.page_params None
                            :: map (fun p => Spec.page_params (Some (snd p))) pages)%list).
  { subst sent run. rewrite Hall. cbn [snd].
    erewrite added_app
      by (world_fields; rewrite Ht; rewrite <- app_assoc; reflexivity).
    rewrite api_params_app, Hp. cbn. now rewrite app_nil_r. }
  subst run. rewrite Hall. cbn [fst snd]. repeat split.
  - rewrite length_app. f_equal.
    clear. induction pages as [|[e c] pages IH]; [reflexivity|].
    cbn [map List.concat fst list_sum]. rewrite length_app, IH. reflexivity.
  - exact Hsent.
  - rewrite Hsent. constructor; [reflexivity|].
    apply Forall_forall. intros p Hin. apply in_map_iff in Hin as (q & <- & _).
    reflexivity.
  - exact Hn.
Qed.

(** On a 429 the listing loop never looks at the headers of the answer:
    it prints, sleeps 60 seconds and asks for the same page again. *)
Lemma fetch_loop_429 (fuel : nat) (tok : json) (url : string) (devices : list json)
      (cursor : json) (flag : bool) (w : World) (r : response) (rest : list response) :
  api_net w = r :: rest ->
  status_code r = 429 ->
  let params := (("limit", JNum PAGE_LIMIT)
                   :: (if truthy cursor then [("cursor", cursor)] else []))%list in
  let hdrs := [("Authorization", "Bearer " ++ str tok);
               ("Accept", "application/json")] in
  let w1 := set_net ApiServer rest
              (emit (ERequest ApiServer "GET" url hdrs params None)
                 (emit (EPrint ("INFO: Fetching orgDevices page (cursor="
                                  ++ str cursor ++ ")")) w)) in
  fetch_loop (S fuel) tok url devices cursor flag w =
  fetch_loop fuel tok url devices cursor flag
             (emit (ESleep 60)
                (set_clock (clock w + 60)
                   (emit (EPrint "INFO: HTTP 429 Too Many Requests. Waiting 60 seconds before retry...")
                         w1))).
Proof.
  intros Hnet Hstatus params hdrs w1. cbn [fetch_loop].
  erewrite bind_ok by reflexivity. cbv beta iota.
  erewrite bind_ok by (unfold request; cbn [net]; world_fields; rewrite Hnet; reflexivity).
  cbv beta iota. rewrite Hstatus. cbn [Z.eqb Pos.eqb].
  erewrite bind_ok by reflexivity. cbv beta iota.
  erewrite bind_ok by reflexivity. reflexivity.
Qed.

(** C7 (amended). The base URL depends on the scope alone: a scope whose
    lowered form contains "school" resolves to the school host; one that
    contains "business" and not "school" resolves to the business host; one
    that contains neither raises the unrecognized-scope error. *)
Theorem C7_scope_resolution
        (w w1 : World) (tok : json) (scope : string) :
  AxM_OAuth.get_access_token_and_scope w = (Ok (tok, JStr scope), w1) ->
  (contains "school" (lower scope) = true ->
   get_token_and_url false w =
   (Ok (tok, "https://api-school.apple.com/v1/orgDevices"), w1))
  /\ (contains "school" (lower scope) = false ->
      contains "business" (lower scope) = true ->
      get_token_and_url false w =
      (Ok (tok, "https://api-business.apple.com/v1/orgDevices"), w1))
  /\ (contains "school" (lower scope) = false ->
      contains "business" (lower scope) = false ->
      get_token_and_url false w =
      (Raise (RuntimeError ("Unrecognized scope '" ++ scope
                              ++ "'. Expected 'school.api' or 'business.api'.")),
       w1)).
Proof.
  intros Htoken.
  assert (Hrun : get_token_and_url false w =
                 (s <- Dyn.str_lower (por (JStr scope) (JStr "")) ;;
                  if contains "school" s then
                    ret (tok, "https://api-school.apple.com/v1/orgDevices")
                  else if contains "business" s then
                    ret (tok, "https://api-business.apple.com/v1/orgDevices")
                  else
                    raise (RuntimeError ("Unrecognized scope '" ++ str (JStr scope)
                                           ++ "'. Expected 'school.api' or 'business.api'.")))
                   w1).
  { unfold get_token_and_url.
    erewrite bind_ok by reflexivity. cbv beta iota. cbn [andb].
    erewrite bind_ok by reflexivity. cbv beta iota.
    erewrite bind_ok by exact Htoken. reflexivity. }
  assert (Hlower : Dyn.str_lower (por (JStr scope) (JStr "")) w1 = (Ok (lower scope), w1)).
  { unfold por. destruct (truthy (JStr scope)) eqn:E; [reflexivity|].
    cbn in E. unfold str_eqb in E.
    destruct (String.eqb_spec scope ""); [subst; reflexivity | discriminate]. }
  rewrite Hrun. erewrite bind_ok by exact Hlower. cbv beta iota. cbn [str].
  repeat split.
  - intros ->. reflexivity.
  - intros -> ->. reflexivity.
  - intros -> ->. reflexivity.
Qed.

End OrgDevicesFacts.

(* ===================================================================== *)
(** * AxM_AssignUnassign_MdmServers.py: submission and download *)
(* ===================================================================== *)

Section AssignFacts.
Context {L : Libs}.
Variable BASE_DIR : string.
Import AxM_AssignUnassign_MdmServers.

Lemma steady_write_file (path : string) : steady (write_file path).
Proof.
  intros w o w' H. inversion H; subst. world_fields. rewrite refreshes_snoc.
  repeat split; [discriminate | apply Nat.add_0_r].
Qed.

Lemma steady_download_activity_csv (download_url : json) (activity_id : string) :
  steady (download_activity_csv BASE_DIR download_url activity_id).
Proof.
  unfold download_activity_csv.
  apply steady_bind; [apply steady_print; reflexivity | intros _].
  apply steady_bind; [destruct download_url; first [apply steady_ret | apply steady_raise]|].
  intros url. apply steady_bind; [apply steady_request_download|]. intros resp.
  destruct (negb (status_code resp =? 200)); [apply steady_raise|].
  apply steady_bind; [apply steady_write_file | intros _].
  apply steady_bind; [apply steady_print; reflexivity | intros _].
  apply steady_ret.
Qed.

(** The submission call keeps its own flag: once it has refreshed, a
    further 401 is the end of the call. *)
Lemma post_loop_401_after_refresh (fuel : nat) (ts : token_state) (url : string)
      (bearer payload : json) (n : nat) (tried_429 : bool) (w : World)
      (r : response) (rest : list response) :
  api_net w = r :: rest ->
  status_code r = 401 ->
  fst (post_loop (S fuel) ts url bearer payload n tried_429 true w)
  = Raise (RuntimeError ("ERROR: HTTP 401. Response: " ++ text r)).
Proof.
  intros Hnet Hstatus. cbn [post_loop].
  erewrite bind_ok by reflexivity. cbv beta iota.
  erewrite bind_ok by (unfold request; cbn [net]; world_fields; rewrite Hnet; reflexivity).
  cbv beta iota. rewrite Hstatus. reflexivity.
Qed.




End AssignFacts.

(* ===================================================================== *)
(** * The statements at concrete worlds *)
(* ===================================================================== *)

Section Instances.
Import Examples.
#[local] Existing Instance Symbolic.libs.

(** C5. The listing loop of [AxM_OrgDevices_To_CSV.py] meets a 429 whose
    [Retry-After] header holds the integer 5: it sleeps 60 seconds, not 5,
    before it asks again. ([handle_429] of the sibling scripts sleeps 5 on
    the same answer.) *)
Theorem C5_listing_ignores_retry_after :
  let w := world "business.api" [] [busy_5; page [device "A"] None] [] in
  let run := AxM_OrgDevices_To_CSV.fetch_all_devices 3 w in
  headers_get "Retry-After" (headers busy_5) = Some "5"
  /\ int_of_string "5" = Some 5
  /\ fst run = Ok [device "A"]
  /\ Spec.sleeps (trace (snd run)) = [60]
  /\ clock (snd run) = clock w + 60
  /\ Spec.sleeps (trace (snd (AxM_GetDeviceInfo_FromList.handle_429 busy_5 w))) = [5].
Proof. vm_compute. repeat split. Qed.

Lemma C1_valid_cache_witness :
  AxM_OAuth.get_access_token_and_scope (world "business.api" [] [] []) =
  (Ok (JStr "cached-token", JStr "business.api"),
   emit (EPrint "INFO: Using existing cached token (4000 seconds until expiry).")
        (world "business.api" [] [] [])).
Proof.
  refine (proj1 (C1_valid_cache_needs_no_network
                   (cfg "business.api") (world "business.api" [] [] [])
                   (Symbolic.Sealed "fernet-key" (JDict (record "business.api" 5000)))
                   (JDict (record "business.api" 5000))
                   (record "business.api" 5000) (JStr "cached-token") 5000
                   _ _ _ _ _ _ _ _ _ _)); try reflexivity.
Defined.

Lemma C2_one_refresh_witness :
  AxM_GetDeviceInfo_FromList.fetch_device_info
    3 "SER1"
    (AxM_GetDeviceInfo_FromList.mkTokenState
       (JStr "fresh-token") "https://api-business.apple.com/v1/orgDevices" true)
    (world "business.api" [] [answer 401; answer 401] [])
  = (Ok (AxM_GetDeviceInfo_FromList.mkTokenState
           (JStr "fresh-token") "https://api-business.apple.com/v1/orgDevices" true,
         (None, Some "401 Unauthorized even after regenerating token once")),
     set_net ApiServer [answer 401]
             (emit (ERequest ApiServer "GET"
                             "https://api-business.apple.com/v1/orgDevices/SER1"
                             [("Authorization", "Bearer fresh-token");
                              ("Accept", "application/json")] [] None)
                   (world "business.api" [] [answer 401; answer 401] [])))
  /\ fst (AxM_GetDeviceInfo_FromList.main
            3 ["SER1"] (world "business.api" [] [answer 401; answer 401] []))
     <> Diverge.
Proof.
  pose proof (C2_one_forced_refresh_per_run
                2 ["SER1"] (world "business.api" [] [answer 401; answer 401] []))
    as (_ & _ & Hstop & _ & _).
  pose proof (C2_one_forced_refresh_per_run
                3 ["SER1"] (world "business.api" [] [answer 401; answer 401] []))
    as (_ & _ & _ & Hends & _).
  split.
  - exact (Hstop "SER1"
                  (AxM_GetDeviceInfo_FromList.mkTokenState
                     (JStr "fresh-token")
                     "https://api-business.apple.com/v1/orgDevices" true)
                  (answer 401) [answer 401] eq_refl eq_refl eq_refl).
  - apply Hends. vm_compute. lia.
Defined.

Lemma C3_retry_witness :
  fst (AxM_OAuth._request_new_token
         (cfg "business.api") "assertion"
         (cold_world "business.api" [answer 429; answer 429] [] []))
  = Raise (RuntimeError "Apple returned HTTP 429 twice.").
Proof.
  pose proof (C3_token_exchange_retries_429_once
                (cfg "business.api") "assertion"
                (cold_world "business.api" [answer 429; answer 429] [] [])
                (answer 429) (answer 429) [] eq_refl) as (_ & H429).
  apply (H429 eq_refl). reflexivity.
Defined.

Lemma C4_round_trip_witness :
  exists (w1 : World) (rec : list (string * json)) (expires_at : Z),
    AxM_OAuth._save_cached_token
      (cfg "business.api")
      (JDict [("access_token", JStr "fresh-token"); ("expires_in", JNum 3600)])
      (cold_world "business.api" [] [] []) = (Ok tt, w1)
    /\ AxM_OAuth._load_cached_token (cfg "business.api") (set_clock 2000 w1)
       = (Ok (Some (JDict rec)), set_clock 2000 w1)
    /\ assoc "access_token" rec = Some (JStr "fresh-token")
    /\ assoc "scope" rec = Some (JStr "business.api")
    /\ assoc "expires_at" rec = Some (JNum expires_at)
    /\ expires_at + 30 <= 1000 + 3600.
Proof.
  apply (C4_cache_write_then_read
           (cfg "business.api")
           [("access_token", JStr "fresh-token"); ("expires_in", JNum 3600)]
           (JStr "fresh-token") (JNum 3600) 3600
           (cold_world "business.api" [] [] []) 2000);
    try reflexivity; vm_compute; lia || discriminate.
Defined.

Lemma C6_pagination_witness :
  fst (AxM_OrgDevices_To_CSV.fetch_all_devices
         2 (world "business.api" []
                  [page [device "A"; device "B"] (Some "c1"); page [device "C"] None] []))
  = Ok [device "A"; device "B"; device "C"].
Proof.
  refine (proj1 (C6_pagination_concatenates_pages
                   2
                   (world "business.api" []
                          [page [device "A"; device "B"] (Some "c1");
                           page [device "C"] None] [])
                   (emit (EPrint "INFO: Using existing cached token (4000 seconds until expiry).")
                         (world "business.api" []
                                [page [device "A"; device "B"] (Some "c1");
                                 page [device "C"] None] []))
                   (JStr "cached-token")
                   "https://api-business.apple.com/v1/orgDevices"
                   [([device "A"; device "B"], "c1")]
                   [page [device "A"; device "B"] (Some "c1")]
                   (page [device "C"] None) [device "C"]
                   _ _ _ _ _ _)).
  - reflexivity.
  - reflexivity.
  - repeat constructor.
  - repeat constructor. discriminate.
  - split; reflexivity.
  - vm_compute. lia.
Defined.

Lemma C7_scope_witness :
  AxM_OrgDevices_To_CSV.get_token_and_url false (world "schooldistrict.api" [] [] [])
  = (Ok (JStr "cached-token", "https://api-school.apple.com/v1/orgDevices"),
     emit (EPrint "INFO: Using existing cached token (4000 seconds until expiry).")
          (world "schooldistrict.api" [] [] []))
  /\ AxM_OrgDevices_To_CSV.get_token_and_url false (world "business.api" [] [] [])
     = (Ok (JStr "cached-token", "https://api-business.apple.com/v1/orgDevices"),
        emit (EPrint "INFO: Using existing cached token (4000 seconds until expiry).")
             (world "business.api" [] [] []))
  /\ AxM_OrgDevices_To_CSV.get_token_and_url false (world "enterprise" [] [] [])
     = (Raise (RuntimeError
                 "Unrecognized scope 'enterprise'. Expected 'school.api' or 'business.api'."),
        emit (EPrint "INFO: Using existing cached token (4000 seconds until expiry).")
             (world "enterprise" [] [] [])).
Proof.
  split; [|split].
  - apply (proj1 (C7_scope_resolution
                    (world "schooldistrict.api" [] [] []) _
                    (JStr "cached-token") "schooldistrict.api" eq_refl)).
    reflexivity.
  - apply (proj1 (proj2 (C7_scope_resolution
                           (world "business.api" [] [] []) _
                           (JStr "cached-token") "business.api" eq_refl)));
      reflexivity.
  - apply (proj2 (proj2 (C7_scope_resolution
                           (world "enterprise" [] [] []) _
                           (JStr "cached-token") "enterprise" eq_refl)));
      reflexivity.
Defined.

(** A scope that contains "business" and also "school" resolves to the
    school host, not to the business host. *)
Lemma C7_business_scope_counterexample :
  contains "business" (lower "business-school.api") = true
  /\ fst (AxM_OrgDevices_To_CSV.get_token_and_url
            false (world "business-school.api" [] [] []))
     = Ok (JStr "cached-token", "https://api-school.apple.com/v1/orgDevices")
  /\ fst (AxM_OrgDevices_To_CSV.get_token_and_url
            false (world "business-school.api" [] [] []))
     <> Ok (JStr "cached-token", "https://api-business.apple.com/v1/orgDevices").
Proof. vm_compute. repeat split. discriminate. Qed.





Lemma C10_noop_witness :
  AxM_OAuth._save_cached_token
    (cfg "business.api") (JDict [("expires_in", JNum 3600)])
    (world "business.api" [] [] [])
  = (Ok tt, world "business.api" [] [] []).
Proof.
  apply (C10_save_is_noop_without_token_or_lifetime
           (cfg "business.api") [("expires_in", JNum 3600)]
           (world "business.api" [] [] [])).
  left. exact I.
Defined.

End Instances.

(* ===================================================================== *)
(** * More of AxM_OAuth.py *)
(* ===================================================================== *)

(** Takes a computation apart along its binds, handlers and tests, and
    closes the leaves with the lemmas on the primitives. *)
Ltac steady_walk :=
  repeat first
    [ apply steady_ret | apply steady_raise | apply steady_of_option
    | apply steady_print; reflexivity
    | apply steady_time_time | apply steady_time_sleep
    | apply steady_cache_exists | apply steady_remove_cache
    | apply steady_get_access_token_and_scope
    | apply steady_get_default | apply steady_get | apply steady_getitem
    | apply steady_str_lower | apply steady_response_json
    | apply steady_request_download | apply steady_request_auth
    | apply steady_bind; [|intros]
    | apply steady_try; [|intros]
    | match goal with
      | |- steady (if ?b then _ else _) => destruct b
      | |- steady (match ?x with _ => _ end) => destruct x
      end ].

Section OAuthMore.
Context {L : Libs}.
Import AxM_OAuth.

(** X1. [_load_config] returns the configuration of the environment file
    when all five variables are set and non-empty. When one is missing or
    empty it raises a [RuntimeError] and so does
    [get_access_token_and_scope], at once: the world is untouched, so no
    cache was read and nothing was sent. *)
Theorem load_config_all_or_nothing (w : World) :
  (Spec.complete (environ w) = true ->
   _load_config w = (Ok (Spec.config_of (environ w)), w))
  /\ (Spec.complete (environ w) = false ->
      exists msg,
        _load_config w = (Raise (RuntimeError msg), w)
        /\ get_access_token_and_scope w = (Raise (RuntimeError msg), w)).
Proof.
  unfold Spec.complete, Spec.config_of, get_access_token_and_scope.
  unfold _load_config, getenv, bind. cbv beta iota. cbn [filter map fst snd].
  destruct (unset (APPLE_CLIENT_ID (environ w)));
    destruct (unset (APPLE_KEY_ID (environ w)));
    destruct (unset (APPLE_PRIVATE_KEY_PATH (environ w)));
    destruct (unset (APPLE_SCOPE (environ w)));
    destruct (unset (AXM_FERNET_KEY (environ w)));
    cbn [negb andb map fst filter snd]; split; intros H; try discriminate H;
    try reflexivity; (eexists; split; reflexivity).
Qed.

(** X2. A cache file that is absent is a miss whatever the key; one that
    does not decrypt under the configured key, or whose content does not
    parse, is a miss too: [_load_cached_token] returns [None], raises
    nothing and leaves the world alone. *)
Theorem unreadable_cache_is_a_miss (cfg : Config) (w : World) :
  (cache_file w = None -> _load_cached_token cfg w = (Ok None, w))
  /\ (forall enc,
         cache_file w = Some enc ->
         fernet_key_ok (FERNET_KEY cfg) = true ->
         fernet_decrypt (FERNET_KEY cfg) enc = None
         \/ (exists raw, fernet_decrypt (FERNET_KEY cfg) enc = Some raw
                         /\ json_loads raw = None) ->
         _load_cached_token cfg w = (Ok None, w)).
Proof.
  split.
  - intros Hfile. unfold _load_cached_token, cache_exists, bind. now rewrite Hfile.
  - intros enc Hfile Hkey Hbad. unfold _load_cached_token.
    erewrite bind_ok by (unfold cache_exists; rewrite Hfile; reflexivity).
    cbv beta iota. cbn [negb].
    erewrite bind_ok by (unfold _fernet; rewrite Hkey; reflexivity).
    cbv beta iota.
    rewrite bind_ok with (a := None) (w1 := w); [reflexivity|].
    unfold try_except.
    erewrite bind_ok by (unfold read_cache; rewrite Hfile; reflexivity).
    cbv beta iota.
    destruct Hbad as [Hdec | (raw & Hdec & Hjson)]; rewrite Hdec.
    + reflexivity.
    + erewrite bind_ok by reflexivity. cbv beta iota. rewrite Hjson. reflexivity.
Qed.

(** The tests [_load_cached_token] makes on a record that parsed as a dict
    with the four required keys. *)
Lemma load_cached_token_record
      (cfg : Config) (w : World) (enc : ciphertext) (raw : plaintext)
      (d : list (string * json)) (tok client scope : json) (expires_at : Z) :
  cache_file w = Some enc ->
  fernet_key_ok (FERNET_KEY cfg) = true ->
  fernet_decrypt (FERNET_KEY cfg) enc = Some raw ->
  json_loads raw = Some (JDict d) ->
  assoc "access_token" d = Some tok ->
  assoc "client_id" d = Some client ->
  assoc "scope" d = Some scope ->
  assoc "expires_at" d = Some (JNum expires_at) ->
  _load_cached_token cfg w =
  (Ok (if eq_str client (CLIENT_ID cfg) && eq_str scope (SCOPE cfg)
          && (clock w <? expires_at)
       then Some (JDict d) else None), w).
Proof.
  intros Hfile Hkey Hdec Hjson Htok Hcid Hscope Hexp.
  unfold _load_cached_token.
  erewrite bind_ok by (unfold cache_exists; rewrite Hfile; reflexivity).
  cbn [negb].
  erewrite bind_ok by (unfold _fernet; rewrite Hkey; reflexivity).
  erewrite bind_ok.
  2:{ apply try_ok.
      erewrite bind_ok by (unfold read_cache; rewrite Hfile; reflexivity).
      erewrite bind_ok by (rewrite Hdec; reflexivity).
      erewrite bind_ok by (rewrite Hjson; reflexivity).
      reflexivity. }
  cbv beta iota.
  erewrite bind_ok.
  2:{ unfold required. cbn [Dyn.has_all Dyn.has]. unfold bind, ret.
      rewrite Htok, Hexp, Hcid, Hscope. reflexivity. }
  cbn [negb].
  erewrite bind_ok by reflexivity.
  erewrite bind_ok by (unfold Dyn.getitem; rewrite Hcid; reflexivity).
  cbv beta iota.
  destruct (eq_str client (CLIENT_ID cfg)); [|reflexivity]. cbn [negb andb].
  erewrite bind_ok by (unfold Dyn.getitem; rewrite Hscope; reflexivity).
  cbv beta iota.
  destruct (eq_str scope (SCOPE cfg)); [|reflexivity]. cbn [negb andb].
  erewrite bind_ok by (unfold Dyn.getitem; rewrite Hexp; reflexivity).
  erewrite bind_ok by reflexivity. cbv beta iota.
  unfold Z.geb, Z.ltb. rewrite (Z.compare_antisym expires_at (clock w)).
  destruct (expires_at ?= clock w); reflexivity.
Qed.

(** X3. A record that decrypts and parses is still a miss when it belongs
    to another client, was issued for another scope, or has an expiry
    that is not after the current time (equality included), and when one
    of the four required keys is absent. No error, no change. *)
Theorem stale_or_foreign_record_is_a_miss
        (cfg : Config) (w : World) (enc : ciphertext) (raw : plaintext)
        (d : list (string * json)) :
  cache_file w = Some enc ->
  fernet_key_ok (FERNET_KEY cfg) = true ->
  fernet_decrypt (FERNET_KEY cfg) enc = Some raw ->
  json_loads raw = Some (JDict d) ->
  (forall tok client scope expires_at,
      assoc "access_token" d = Some tok ->
      assoc "client_id" d = Some client ->
      assoc "scope" d = Some scope ->
      assoc "expires_at" d = Some (JNum expires_at) ->
      eq_str client (CLIENT_ID cfg) = false
      \/ eq_str scope (SCOPE cfg) = false
      \/ expires_at <= clock w ->
      _load_cached_token cfg w = (Ok None, w))
  /\ (assoc "access_token" d = None \/ assoc "expires_at" d = None
      \/ assoc "client_id" d = None \/ assoc "scope" d = None ->
      _load_cached_token cfg w = (Ok None, w)).
Proof.
  intros Hfile Hkey Hdec Hjson. split.
  - intros tok client scope expires_at Htok Hcid Hscope Hexp Hbad.
    rewrite (load_cached_token_record cfg w enc raw d tok client scope expires_at)
      by assumption.
    destruct Hbad as [H | [H | H]].
    + rewrite H. reflexivity.
    + rewrite H, andb_false_r. reflexivity.
    + destruct (Z.ltb_spec (clock w) expires_at); [lia|].
      now rewrite andb_false_r.
  - intros Hmissing. unfold _load_cached_token.
    erewrite bind_ok by (unfold cache_exists; rewrite Hfile; reflexivity).
    cbn [negb].
    erewrite bind_ok by (unfold _fernet; rewrite Hkey; reflexivity).
    erewrite bind_ok.
    2:{ apply try_ok.
        erewrite bind_ok by (unfold read_cache; rewrite Hfile; reflexivity).
        erewrite bind_ok by (rewrite Hdec; reflexivity).
        erewrite bind_ok by (rewrite Hjson; reflexivity).
        reflexivity. }
    cbv beta iota.
    rewrite bind_ok with (a := false) (w1 := w); [reflexivity|].
    unfold required. cbn [Dyn.has_all Dyn.has]. unfold bind, ret.
    destruct (assoc "access_token" d); [|reflexivity].
    destruct (assoc "expires_at" d); [|reflexivity].
    destruct (assoc "client_id" d); [|reflexivity].
    destruct (assoc "scope" d); [|reflexivity].
    destruct Hmissing as [H | [H | [H | H]]]; discriminate H.
Qed.

(** The exchange when the first answer settles it. *)
Lemma request_new_token_one_answer
        (cfg : Config) (assertion : string) (w : World)
        (r : response) (rest : list response) :
  auth_net w = r :: rest ->
  status_code r <> 429 ->
  status_code r <> 400 ->
  _request_new_token cfg assertion w =
  (match (if ok r then body r else None) with
   | Some v => Ok v
   | None => Raise (RuntimeError ("Apple token error: " ++ text r))
   end,
   set_net AuthServer rest (emit (Spec.token_post cfg assertion) w)).
Proof.
  intros Hnet H429 H400. unfold _request_new_token.
  rewrite (request_new_token_loop_pop _ _ _ _ _ _ Hnet). cbv zeta.
  destruct (Z.eqb_spec (status_code r) 429); [contradiction|].
  destruct (Z.eqb_spec (status_code r) 400); [contradiction|].
  unfold try_except, bind, raise_for_status, response_json, of_option, ret, raise.
  destruct (ok r); [destruct (body r)|]; reflexivity.
Qed.

(** X4. When the first answer of the authorization server is neither 429
    nor 400, [_request_new_token] sends that one POST and nothing more. It
    returns the parsed body when the status is outside 400..599 and the
    body parses; otherwise it raises "Apple token error: " followed by the
    text of the answer. *)
Theorem token_exchange_single_answer
        (cfg : Config) (assertion : string) (w : World)
        (r : response) (rest : list response) :
  auth_net w = r :: rest ->
  status_code r <> 429 ->
  status_code r <> 400 ->
  _request_new_token cfg assertion w =
  (match (if ok r then body r else None) with
   | Some v => Ok v
   | None => Raise (RuntimeError ("Apple token error: " ++ text r))
   end,
   set_net AuthServer rest (emit (Spec.token_post cfg assertion) w)).
Proof. exact (request_new_token_one_answer cfg assertion w r rest). Qed.

Lemma build_client_assertion_world (cfg : Config) (w : World) :
  snd (_build_client_assertion cfg w) = set_uuid_seed (S (uuid_seed w)) w.
Proof.
  unfold _build_client_assertion, bind, time_time, fresh_uuid, try_except,
    read_text, of_option, ret, raise.
  cbv beta iota. world_fields.
  destruct (assoc (PRIVATE_KEY_PATH cfg) (text_files w)) as [pem|]; [|reflexivity].
  destruct (ecc_import_key pem) as [key|]; [|reflexivity].
  destruct (jwt_encode _ _ key); reflexivity.
Qed.

Lemma load_config_environ (cfg : Config) (w w' : World) :
  environ w' = environ w ->
  _load_config w = (Ok cfg, w) ->
  _load_config w' = (Ok cfg, w').
Proof.
  unfold _load_config, getenv, bind. cbv beta iota. intros ->.
  destruct (map fst _); unfold ret, raise; intros H; now inversion H.
Qed.

(** The path of [get_access_token_and_scope] through a cache miss, up to
    the answer of the authorization server. *)
Lemma acquire_after_miss (cfg : Config) (w : World) (assertion : string) :
  _load_config w = (Ok cfg, w) ->
  _load_cached_token cfg w = (Ok None, w) ->
  fst (_build_client_assertion
         cfg (emit (EPrint "INFO: Cached token not found or expired. Generating new Apple token...") w))
  = Ok assertion ->
  get_access_token_and_scope w =
  (token <- _request_new_token cfg assertion ;;
   _save_cached_token cfg token ;;
   print "INFO: New token generated and cached securely." ;;
   access_token <- Dyn.getitem token "access_token" ;;
   scope <- Dyn.get_default token "scope" (JStr (SCOPE cfg)) ;;
   ret (access_token, scope)) (Spec.before_exchange w).
Proof.
  intros Hcfg Hmiss Hassert. unfold get_access_token_and_scope.
  erewrite bind_ok by exact Hcfg. cbv beta iota.
  erewrite bind_ok by exact Hmiss. cbv beta iota. cbn [if_value].
  erewrite bind_ok by reflexivity. cbv beta iota.
  erewrite bind_ok; [reflexivity|].
  rewrite (surjective_pairing (_build_client_assertion cfg _)).
  rewrite Hassert, build_client_assertion_world. reflexivity.
Qed.

(** X5. After a cache miss, when the private key loads and signs and the
    authorization server answers the first POST with a success that
    carries a non-empty token and an integer lifetime,
    [get_access_token_and_scope] returns that token with the scope of the
    answer (the configured scope when the answer names none). It has sent
    exactly one request, and the cache file now holds the new record,
    whose expiry is the current time plus the lifetime less 30 seconds,
    never less than the current time. *)
Theorem fresh_acquisition_exchanges_once
        (cfg : Config) (w : World) (assertion : string)
        (r : response) (rest : list response)
        (d : list (string * json)) (tok : json) (lifetime : Z) :
  _load_config w = (Ok cfg, w) ->
  _load_cached_token cfg w = (Ok None, w) ->
  fst (_build_client_assertion
         cfg (emit (EPrint "INFO: Cached token not found or expired. Generating new Apple token...") w))
  = Ok assertion ->
  auth_net w = r :: rest ->
  status_code r <> 429 -> status_code r <> 400 -> ok r = true ->
  body r = Some (JDict d) ->
  assoc "access_token" d = Some tok -> truthy tok = true ->
  assoc "expires_in" d = Some (JNum lifetime) ->
  fernet_key_ok (FERNET_KEY cfg) = true ->
  let record := Spec.cache_record cfg d tok (clock w + Z.max (lifetime - 30) 0) in
  let w' := Spec.after_fresh cfg assertion rest record w in
  get_access_token_and_scope w =
  (Ok (tok, match assoc "scope" d with Some x => x | None => JStr (SCOPE cfg) end), w')
  /\ filter Spec.is_request (Spec.added w w') = [Spec.token_post cfg assertion]
  /\ auth_net w' = rest
  /\ cache_file w' = Some (fernet_encrypt (FERNET_KEY cfg) (json_dumps (JDict record))).
Proof.
  intros Hcfg Hmiss Hassert Hnet H429 H400 Hok Hbody Htok Htruthy Hin Hkey record w'.
  split; [|split; [|split]].
  - rewrite (acquire_after_miss cfg w assertion Hcfg Hmiss Hassert).
    erewrite bind_ok.
    2:{ rewrite (request_new_token_one_answer
                   cfg assertion (Spec.before_exchange w) r rest Hnet H429 H400).
        rewrite Hok, Hbody. reflexivity. }
    cbv beta iota.
    erewrite bind_ok.
    2:{ apply (save_cached_token_writes cfg d tok (JNum lifetime) lifetime);
          try assumption; reflexivity. }
    cbv beta iota.
    erewrite bind_ok by reflexivity. cbv beta iota.
    erewrite bind_ok by (unfold Dyn.getitem; rewrite Htok; reflexivity).
    cbv beta iota.
    erewrite bind_ok by reflexivity. reflexivity.
  - subst w'. unfold Spec.after_fresh, Spec.after_exchange, Spec.before_exchange.
    destruct (chmod_fails w);
      (erewrite added_app by (world_fields; rewrite <- !app_assoc; reflexivity));
      reflexivity.
  - subst w'. unfold Spec.after_fresh. destruct (chmod_fails w); reflexivity.
  - subst w'. unfold Spec.after_fresh. destruct (chmod_fails w); reflexivity.
Qed.

(** X6. Right after such a fresh acquisition with a lifetime above 30
    seconds, a second call (at any time from then until the stored expiry)
    returns the same token from the cache and sends nothing. The scope it
    returns is the configured one, even where the first call returned the
    scope named by the server. *)
Theorem second_acquisition_hits_cache
        (cfg : Config) (w : World) (assertion : string) (rest : list response)
        (d : list (string * json)) (tok : json) (lifetime : Z) (t : Z) :
  _load_config w = (Ok cfg, w) ->
  fernet_key_ok (FERNET_KEY cfg) = true ->
  well_keyed (JDict d) = true ->
  assoc "access_token" d = Some tok ->
  30 < lifetime ->
  clock w <= t < clock w + lifetime - 30 ->
  let record := Spec.cache_record cfg d tok (clock w + Z.max (lifetime - 30) 0) in
  let w' := set_clock t (Spec.after_fresh cfg assertion rest record w) in
  get_access_token_and_scope w' =
  (Ok (tok, JStr (SCOPE cfg)),
   emit (EPrint ("INFO: Using existing cached token ("
                   ++ string_of_Z (clock w + lifetime - 30 - t)
                   ++ " seconds until expiry).")) w')
  /\ auth_net (snd (get_access_token_and_scope w')) = rest.
Proof.
  intros Hcfg Hkey Hwk Htok Hlife Ht record w'.
  assert (Hmax : Z.max (lifetime - 30) 0 = lifetime - 30) by lia.
  assert (Hrecord : well_keyed (JDict record) = true).
  { cbn in Hwk. apply andb_prop in Hwk as [_ Hall].
    assert (H1 : well_keyed tok = true) by (eapply assoc_well_keyed; eassumption).
    assert (H2 : well_keyed (match assoc "token_type" d with
                             | Some x => x
                             | None => JStr "Bearer"
                             end) = true).
    { destruct (assoc "token_type" d) eqn:E; [|reflexivity].
      eapply assoc_well_keyed; eassumption. }
    unfold record, Spec.cache_record. cbn. rewrite H1, H2. reflexivity. }
  assert (Hrun : get_access_token_and_scope w' =
                 (Ok (tok, JStr (SCOPE cfg)),
                  emit (EPrint ("INFO: Using existing cached token ("
                                  ++ string_of_Z (clock w + lifetime - 30 - t)
                                  ++ " seconds until expiry).")) w')).
  { unfold get_access_token_and_scope.
    erewrite bind_ok.
    2:{ apply (load_config_environ cfg w w'); [|exact Hcfg].
        subst w'. unfold Spec.after_fresh. destruct (chmod_fails w); reflexivity. }
    cbv beta iota.
    erewrite bind_ok.
    2:{ eapply (load_cached_token_valid cfg w' _ _ record tok
                                        (clock w + Z.max (lifetime - 30) 0)).
        - subst w'. unfold Spec.after_fresh. destruct (chmod_fails w); reflexivity.
        - exact Hkey.
        - apply fernet_decrypt_encrypt. exact Hkey.
        - apply json_loads_dumps. exact Hrecord.
        - reflexivity.
        - reflexivity.
        - reflexivity.
        - reflexivity.
        - subst w'. cbn [clock set_clock]. lia. }
    cbv beta iota. cbn [if_value truthy record Spec.cache_record].
    erewrite bind_ok by reflexivity. cbv beta iota.
    erewrite bind_ok by reflexivity. cbv beta iota.
    erewrite bind_ok by reflexivity. cbv beta iota.
    replace (clock w + Z.max (lifetime - 30) 0 - clock w')
      with (clock w + lifetime - 30 - t)
      by (subst w'; cbn [clock set_clock]; lia).
    erewrite bind_ok by reflexivity. reflexivity. }
  rewrite Hrun. split; [reflexivity|].
  subst w'. unfold Spec.after_fresh. destruct (chmod_fails w); reflexivity.
Qed.

(** X7. An invalid Fernet key is noticed at once when a cache file
    exists: the call raises before anything is sent. Without a cache file
    the key is first looked at when the new token is to be saved: the
    exchange has been made by then, the call raises all the same, the
    token is not returned and no cache file is written. *)
Theorem invalid_fernet_key_is_fatal
        (cfg : Config) (w : World) :
  _load_config w = (Ok cfg, w) ->
  fernet_key_ok (FERNET_KEY cfg) = false ->
  (forall enc,
      cache_file w = Some enc ->
      get_access_token_and_scope w =
      (Raise (RuntimeError "Invalid Fernet key in AXM_FERNET_KEY"), w))
  /\ (forall assertion r rest d tok lifetime,
         cache_file w = None ->
         fst (_build_client_assertion
                cfg (emit (EPrint "INFO: Cached token not found or expired. Generating new Apple token...") w))
         = Ok assertion ->
         auth_net w = r :: rest ->
         status_code r <> 429 -> status_code r <> 400 -> ok r = true ->
         body r = Some (JDict d) ->
         assoc "access_token" d = Some tok -> truthy tok = true ->
         assoc "expires_in" d = Some (JNum lifetime) ->
         let w' := Spec.after_exchange cfg assertion rest w in
         get_access_token_and_scope w =
         (Raise (RuntimeError "Invalid Fernet key in AXM_FERNET_KEY"), w')
         /\ filter Spec.is_request (Spec.added w w') = [Spec.token_post cfg assertion]
         /\ cache_file w' = None).
Proof.
  intros Hcfg Hkey. split.
  - intros enc Hfile. unfold get_access_token_and_scope.
    erewrite bind_ok by exact Hcfg. cbv beta iota.
    erewrite bind_raise; [reflexivity|].
    unfold _load_cached_token.
    erewrite bind_ok by (unfold cache_exists; rewrite Hfile; reflexivity).
    cbv beta iota. cbn [negb].
    erewrite bind_raise; [reflexivity|].
    unfold _fernet. rewrite Hkey. reflexivity.
  - intros assertion r rest d tok lifetime Hfile Hassert Hnet H429 H400 Hok Hbody
           Htok Htruthy Hin w'.
    assert (Hmiss : _load_cached_token cfg w = (Ok None, w)).
    { unfold _load_cached_token, cache_exists, bind. now rewrite Hfile. }
    split; [|split].
    + rewrite (acquire_after_miss cfg w assertion Hcfg Hmiss Hassert).
      erewrite bind_ok.
      2:{ rewrite (request_new_token_one_answer
                     cfg assertion (Spec.before_exchange w) r rest Hnet H429 H400).
          rewrite Hok, Hbody. reflexivity. }
      cbv beta iota.
      erewrite bind_raise; [reflexivity|].
      unfold _save_cached_token, Dyn.get, Dyn.get_default.
      erewrite bind_ok by reflexivity. cbv beta iota.
      erewrite bind_ok by reflexivity. cbv beta iota.
      rewrite Htok, Hin, Htruthy. cbn [negb orb Dyn.is_none].
      erewrite bind_ok by reflexivity. cbv beta iota.
      erewrite bind_ok by reflexivity. cbv beta iota.
      erewrite bind_ok by reflexivity. cbv beta iota.
      erewrite bind_raise; [reflexivity|].
      unfold _fernet. rewrite Hkey. reflexivity.
    + subst w'. unfold Spec.after_exchange, Spec.before_exchange.
      erewrite added_app by (world_fields; rewrite <- !app_assoc; reflexivity).
      reflexivity.
    + subst w'. cbn. exact Hfile.
Qed.

(** X8. When the private key file cannot be read, or its content is not a
    key, a call that missed the cache raises "Failed to load private key"
    and has sent nothing: the script of the authorization server is
    untouched and the trace shows no request. *)
Theorem unreadable_private_key_sends_nothing
        (cfg : Config) (w : World) :
  _load_config w = (Ok cfg, w) ->
  _load_cached_token cfg w = (Ok None, w) ->
  assoc (PRIVATE_KEY_PATH cfg) (text_files w) = None
  \/ (exists pem, assoc (PRIVATE_KEY_PATH cfg) (text_files w) = Some pem
                  /\ ecc_import_key pem = None) ->
  get_access_token_and_scope w =
  (Raise (RuntimeError "Failed to load private key"), Spec.before_exchange w)
  /\ auth_net (Spec.before_exchange w) = auth_net w
  /\ filter Spec.is_request (Spec.added w (Spec.before_exchange w)) = [].
Proof.
  intros Hcfg Hmiss Hkey. split; [|split].
  - unfold get_access_token_and_scope.
    erewrite bind_ok by exact Hcfg. cbv beta iota.
    erewrite bind_ok by exact Hmiss. cbv beta iota. cbn [if_value].
    erewrite bind_ok by reflexivity. cbv beta iota.
    erewrite bind_raise; [reflexivity|].
    unfold _build_client_assertion.
    erewrite bind_ok by reflexivity. cbv beta iota.
    erewrite bind_ok by reflexivity. cbv beta iota.
    erewrite bind_raise; [reflexivity|].
    unfold try_except, bind, read_text, of_option, ret, raise. world_fields.
    destruct Hkey as [Hnone | (pem & Hsome & Hbad)].
    + rewrite Hnone. reflexivity.
    + rewrite Hsome, Hbad. reflexivity.
  - reflexivity.
  - unfold Spec.before_exchange.
    erewrite added_app by (world_fields; reflexivity). reflexivity.
Qed.

(** X9. A token whose declared lifetime is 30 seconds or less is written
    with an expiry equal to the time of writing, so no later read accepts
    it: the record is in the file and every read is a miss. *)
Theorem short_lived_token_is_never_reused
        (cfg : Config) (d : list (string * json)) (tok : json)
        (lifetime : Z) (w : World) (t : Z) :
  fernet_key_ok (FERNET_KEY cfg) = true ->
  well_keyed (JDict d) = true ->
  assoc "access_token" d = Some tok ->
  truthy tok = true ->
  assoc "expires_in" d = Some (JNum lifetime) ->
  lifetime <= 30 ->
  clock w <= t ->
  exists w1 enc,
    _save_cached_token cfg (JDict d) w = (Ok tt, w1)
    /\ cache_file w1 = Some enc
    /\ _load_cached_token cfg (set_clock t w1) = (Ok None, set_clock t w1).
Proof.
  intros Hkey Hwk Htok Htruthy Hin Hshort Hle.
  pose proof (save_cached_token_writes cfg d tok (JNum lifetime) lifetime w
                Hkey Htok Htruthy Hin eq_refl) as Hsave.
  cbv zeta in Hsave.
  assert (Hmax : Z.max (lifetime - 30) 0 = 0) by lia.
  rewrite Hmax, Z.add_0_r in Hsave.
  set (record := Spec.cache_record cfg d tok (clock w)) in *.
  assert (Hrecord : well_keyed (JDict record) = true).
  { cbn in Hwk. apply andb_prop in Hwk as [_ Hall].
    assert (H1 : well_keyed tok = true) by (eapply assoc_well_keyed; eassumption).
    assert (H2 : well_keyed (match assoc "token_type" d with
                             | Some x => x
                             | None => JStr "Bearer"
                             end) = true).
    { destruct (assoc "token_type" d) eqn:E; [|reflexivity].
      eapply assoc_well_keyed; eassumption. }
    unfold record, Spec.cache_record. cbn. rewrite H1, H2. reflexivity. }
  match type of Hsave with
  | _ = (_, ?x) => set (w1 := x) in *
  end.
  set (enc := fernet_encrypt (FERNET_KEY cfg) (json_dumps (JDict record))) in *.
  assert (Hfile : cache_file (set_clock t w1) = Some enc)
    by (subst w1; destruct (chmod_fails w); reflexivity).
  exists w1, enc. split; [exact Hsave|]. split.
  - subst w1. destruct (chmod_fails w); reflexivity.
  - rewrite (load_cached_token_record
               cfg (set_clock t w1) enc (json_dumps (JDict record)) record tok
               (JStr (CLIENT_ID cfg)) (JStr (SCOPE cfg)) (clock w)
               Hfile Hkey (fernet_decrypt_encrypt _ _ Hkey)
               (json_loads_dumps _ Hrecord) eq_refl eq_refl eq_refl eq_refl).
    cbn [clock set_clock].
    destruct (Z.ltb_spec t (clock w)); [lia|]. now rewrite andb_false_r.
Qed.

Lemma request_new_token_loop_world (attempts : list Z) (attempt : Z) (data : json)
      (w : World) :
  match auth_net w with
  | [] =>
      _request_new_token_loop (attempt :: attempts) data w =
      (Raise ConnectionError,
       emit (ERequest AuthServer "POST" TOKEN_URL [] [] (Some data)) w)
  | r :: rest =>
      (status_code r =? 429) && (attempt =? 1) = false ->
      snd (_request_new_token_loop (attempt :: attempts) data w) =
      set_net AuthServer rest
              (emit (ERequest AuthServer "POST" TOKEN_URL [] [] (Some data)) w)
      /\ fst (_request_new_token_loop (attempt :: attempts) data w) <> Diverge
  end.
Proof.
  destruct (auth_net w) as [|r rest] eqn:Hnet.
  - cbn [_request_new_token_loop].
    erewrite bind_raise; [reflexivity|].
    unfold request. cbn [net]. rewrite Hnet. reflexivity.
  - intros Hcase. rewrite (request_new_token_loop_pop _ _ _ _ _ _ Hnet). cbv zeta.
    destruct (status_code r =? 429).
    + cbn [andb] in Hcase. rewrite Hcase. split; [reflexivity | discriminate].
    + destruct (status_code r =? 400); [split; [reflexivity | discriminate]|].
      rewrite token_response_world. split; [reflexivity|].
      unfold try_except, bind, raise_for_status, response_json, of_option, ret, raise.
      destruct (ok r); [destruct (body r)|]; discriminate.
Qed.

(** X10. Whatever the authorization server answers, and however many
    answers it has, a token exchange sends at most two requests, sleeps
    not at all or once for 60 seconds, and ends. *)
Theorem token_exchange_is_bounded (cfg : Config) (assertion : string) (w : World) :
  let run := _request_new_token cfg assertion w in
  (List.length (Spec.requests_to AuthServer (Spec.added w (snd run))) <= 2)%nat
  /\ (Spec.sleeps (Spec.added w (snd run)) = []
      \/ Spec.sleeps (Spec.added w (snd run)) = [60])
  /\ fst run <> Diverge.
Proof.
  intros run. subst run. unfold _request_new_token.
  set (data := token_request_data cfg assertion).
  pose proof (request_new_token_loop_world [2] 1 data w) as H1.
  destruct (auth_net w) as [|r1 rest] eqn:Hnet.
  - rewrite H1. cbn [fst snd].
    erewrite added_app by (world_fields; reflexivity).
    cbn. repeat split; [lia | now left | discriminate].
  - destruct (status_code r1 =? 429) eqn:E429.
    + clear H1. rewrite (request_new_token_loop_pop _ _ _ _ _ _ Hnet). cbv zeta.
      rewrite E429. cbn [Z.eqb Pos.eqb].
      erewrite bind_ok by reflexivity. cbv beta iota.
      erewrite bind_ok by reflexivity. cbv beta iota.
      match goal with
      | |- context [_request_new_token_loop [2] data ?w2] =>
          pose proof (request_new_token_loop_world [] 2 data w2) as H2;
          assert (Hn2 : auth_net w2 = rest) by reflexivity;
          rewrite Hn2 in H2; clear Hn2
      end.
      destruct rest as [|r2 rest'].
      * rewrite H2. cbn [fst snd].
        erewrite added_app by (world_fields; rewrite <- !app_assoc; reflexivity).
        cbn. repeat split; [lia | now right | discriminate].
      * destruct H2 as [Hw Hd]; [now rewrite andb_false_r|].
        rewrite Hw. split; [|split; [|exact Hd]].
        -- erewrite added_app by (world_fields; rewrite <- !app_assoc; reflexivity).
           cbn. lia.
        -- erewrite added_app by (world_fields; rewrite <- !app_assoc; reflexivity).
           now right.
    + destruct H1 as [Hw Hd]; [reflexivity|].
      rewrite Hw. split; [|split; [|exact Hd]].
      * erewrite added_app by (world_fields; reflexivity). cbn. lia.
      * erewrite added_app by (world_fields; reflexivity). now left.
Qed.

End OAuthMore.

(* ===================================================================== *)
(** * More of AxM_GetDeviceInfo_FromList.py *)
(* ===================================================================== *)

Section DeviceInfoMore.
Context {L : Libs}.
Import AxM_GetDeviceInfo_FromList.


(** What a call makes of an answer that is neither 429 nor 401. *)
Lemma fetch_device_info_plain (fuel : nat) (device_id : string) (ts : token_state)
      (w : World) (r : response) (rest : list response) :
  api_net w = r :: rest ->
  status_code r <> 429 ->
  status_code r <> 401 ->
  exists w',
    fetch_device_info (S fuel) device_id ts w =
    (Ok (ts, (if ok r then body r else None, Spec.item_error r)), w')
    /\ api_net w' = rest
    /\ Spec.requests_to ApiServer (Spec.added w w') = [Spec.device_get ts device_id].
Proof.
  intros Hnet H429 H401. cbn [fetch_device_info].
  erewrite bind_ok by (unfold request; cbn [net]; rewrite Hnet; reflexivity).
  cbv beta iota. unfold Spec.item_error.
  destruct (Z.eqb_spec (status_code r) 429); [contradiction|].
  destruct (Z.eqb_spec (status_code r) 401); [contradiction|].
  assert (Hdone : forall res : fetch_result,
             exists w',
               (@Ok (token_state * fetch_result) (ts, res),
                set_net ApiServer rest (emit (Spec.device_get ts device_id) w))
               = (Ok (ts, res), w')
               /\ api_net w' = rest
               /\ Spec.requests_to ApiServer (Spec.added w w')
                  = [Spec.device_get ts device_id]).
  { intros res. eexists. split; [reflexivity|]. split; [reflexivity|].
    erewrite added_app by (world_fields; reflexivity). reflexivity. }
  destruct (Z.eqb_spec (status_code r) 403) as [E|_].
  { unfold ok. rewrite E. apply Hdone. }
  destruct (Z.eqb_spec (status_code r) 400) as [E|_].
  { unfold ok. rewrite E. apply Hdone. }
  destruct (Z.eqb_spec (status_code r) 404) as [E|_].
  { unfold ok. rewrite E. cbn [Z.leb Z.ltb Z.compare Pos.compare Pos.compare_cont andb negb].
    erewrite bind_ok by reflexivity. cbv beta iota.
    eexists. split; [reflexivity|]. split; [reflexivity|].
    erewrite added_app by (world_fields; rewrite <- !app_assoc; reflexivity).
    reflexivity. }
  destruct (ok r); cbn [negb]; [|apply Hdone].
  unfold try_except, bind, response_json, of_option, ret, raise.
  destruct (body r); apply Hdone.
Qed.

(** X12. An answer other than 429 and 401 settles the item in one
    request: the call returns normally with the token state unchanged,
    with the parsed body exactly when the status is outside 400..599 (and
    the body parses), and with an error text in every other case; for 404
    that text is NOT_FOUND. Nothing is raised. *)
Theorem fetch_device_info_settles_in_one_request
        (fuel : nat) (device_id : string) (ts : token_state)
        (w : World) (r : response) (rest : list response) :
  api_net w = r :: rest ->
  status_code r <> 429 ->
  status_code r <> 401 ->
  exists data err w',
    fetch_device_info (S fuel) device_id ts w = (Ok (ts, (data, err)), w')
    /\ api_net w' = rest
    /\ Spec.requests_to ApiServer (Spec.added w w') = [Spec.device_get ts device_id]
    /\ data = (if ok r then body r else None)
    /\ (err = None <-> data <> None)
    /\ (status_code r = 404 -> err = Some "NOT_FOUND").
Proof.
  intros Hnet H429 H401.
  destruct (fetch_device_info_plain fuel device_id ts w r rest Hnet H429 H401)
    as (w' & Hrun & Hrest & Hreq).
  exists (if ok r then body r else None), (Spec.item_error r), w'.
  assert (Hbad : 400 <= status_code r < 600 -> ok r = false).
  { intros Hr. unfold ok.
    destruct (Z.leb_spec 400 (status_code r)); [|lia].
    destruct (Z.ltb_spec (status_code r) 600); [reflexivity | lia]. }
  repeat split; try assumption.
  - unfold Spec.item_error.
    destruct (Z.eqb_spec (status_code r) 403) as [E|_]; [discriminate|].
    destruct (Z.eqb_spec (status_code r) 400) as [E|_]; [discriminate|].
    destruct (Z.eqb_spec (status_code r) 404) as [E|_]; [discriminate|].
    destruct (ok r); cbn [negb]; [|discriminate].
    destruct (body r); [intros _; discriminate | discriminate].
  - unfold Spec.item_error.
    destruct (Z.eqb_spec (status_code r) 403) as [E|_];
      [rewrite Hbad by lia; intros H; now elim H|].
    destruct (Z.eqb_spec (status_code r) 400) as [E|_];
      [rewrite Hbad by lia; intros H; now elim H|].
    destruct (Z.eqb_spec (status_code r) 404) as [E|_];
      [rewrite Hbad by lia; intros H; now elim H|].
    destruct (ok r); cbn [negb]; [|intros H; now elim H].
    destruct (body r); [reflexivity | intros H; now elim H].
  - intros E. unfold Spec.item_error. rewrite E. reflexivity.
Qed.

(** X13. A first 401, met with the flag unset, is followed by a forced
    refresh; when that delivers a token and the API's next answer is
    neither 429 nor 401, the call settles on that answer. The repeated
    request carries the new token and the new base URL, and the token
    state handed back holds both, with the flag set. *)
Theorem refresh_then_retry_uses_new_token
        (fuel : nat) (device_id : string) (ts : token_state) (w w3 : World)
        (r1 r2 : response) (rest : list response) (tok : json) (base : string) :
  api_net w = r1 :: r2 :: rest ->
  status_code r1 = 401 ->
  refreshed_once ts = false ->
  get_token_and_base_url
    true (emit (EPrint Spec.REFRESH_MSG)
               (set_net ApiServer (r2 :: rest) (emit (Spec.device_get ts device_id) w)))
  = (Ok (tok, base), w3) ->
  status_code r2 <> 429 ->
  status_code r2 <> 401 ->
  let ts' := mkTokenState tok base true in
  exists w',
    fetch_device_info (S (S fuel)) device_id ts w =
    (Ok (ts', (if ok r2 then body r2 else None, Spec.item_error r2)), w')
    /\ api_net w' = rest
    /\ Spec.requests_to ApiServer (Spec.added w3 w') = [Spec.device_get ts' device_id].
Proof.
  intros Hnet H401 Href Hget H429' H401' ts'.
  pose proof (steady_get_token_and_base_url true _ _ _ Hget) as (_ & Hn3 & _).
  cbn [api_net emit set_net] in Hn3.
  destruct (fetch_device_info_plain fuel device_id ts' w3 r2 rest Hn3 H429' H401')
    as (w' & Hrun & Hrest & Hreq).
  exists w'. split; [|split; assumption].
  rewrite <- Hrun. remember (S fuel) as fuel1. cbn [fetch_device_info].
  erewrite bind_ok by (unfold request; cbn [net]; rewrite Hnet; reflexivity).
  cbv beta iota. rewrite H401, Href. cbn [Z.eqb Pos.eqb negb].
  erewrite bind_ok by reflexivity. cbv beta iota.
  erewrite bind_ok by exact Hget. reflexivity.
Qed.

Lemma assoc_dict_set_same {A : Type} (k : string) (v : A) (d : list (string * A)) :
  assoc k (dict_set k v d) = Some v.
Proof.
  induction d as [|[k' v'] d IH]; cbn [dict_set assoc].
  - unfold str_eqb. now rewrite String.eqb_refl.
  - destruct (str_eqb k k') eqn:E; cbn [assoc]; [|rewrite E; exact IH].
    unfold str_eqb. now rewrite String.eqb_refl.
Qed.

Lemma assoc_dict_set_keeps {A : Type} (k k' : string) (v : A) (d : list (string * A)) :
  assoc k d <> None -> assoc k (dict_set k' v d) <> None.
Proof.
  induction d as [|[k0 v0] d IH]; cbn [dict_set assoc]; [intros H; now elim H|].
  destruct (str_eqb k' k0) eqn:E'; cbn [assoc].
  - apply String.eqb_eq in E'. subst k0.
    destruct (str_eqb k k'); [discriminate | auto].
  - destruct (str_eqb k k0); [discriminate | exact IH].
Qed.

(** The three ways the loop of [main] files an answer that is neither
    429 nor 401. *)
Lemma item_error_cases (r : response) :
  Spec.item_error r = None
  \/ (status_code r = 404 /\ Spec.item_error r = Some "NOT_FOUND")
  \/ (status_code r <> 404
      /\ exists msg, Spec.item_error r = Some msg
                     /\ str_eqb msg "NOT_FOUND" = false
                     /\ str_eqb msg "" = false).
Proof.
  unfold Spec.item_error.
  destruct (Z.eqb_spec (status_code r) 403) as [E|_].
  { right. right. split; [lia|]. eexists. repeat split; reflexivity. }
  destruct (Z.eqb_spec (status_code r) 400) as [E|_].
  { right. right. split; [lia|]. eexists. repeat split; reflexivity. }
  destruct (Z.eqb_spec (status_code r) 404) as [E|N].
  { right. left. auto. }
  destruct (negb (ok r)).
  { right. right. split; [exact N|]. eexists. repeat split; reflexivity. }
  destruct (body r).
  - left. reflexivity.
  - right. right. split; [exact N|]. eexists. repeat split; reflexivity.
Qed.

Lemma fetch_each_plain (fuel : nat) (serials : list string) :
  forall (rs rest : list response) (ts : token_state) (t0 : tally) (w : World),
    api_net w = (rs ++ rest)%list ->
    List.length rs = List.length serials ->
    Forall (fun r => status_code r <> 429 /\ status_code r <> 401) rs ->
    exists t' w',
      fetch_each (S fuel) serials ts t0 w = (Ok (ts, t'), w')
      /\ api_net w' = rest
      /\ not_found_serials t' =
         (not_found_serials t0
            ++ map fst (filter (fun sr => status_code (snd sr) =? 404)
                               (combine serials rs)))%list
      /\ (forall s, In s serials \/ assoc s (results t0) <> None ->
                    assoc s (results t') <> None)
      /\ (forall s,
             (exists r, In (s, r) (combine serials rs)
                        /\ status_code r <> 404 /\ Spec.item_error r <> None)
             \/ assoc s (error_serials t0) <> None ->
             assoc s (error_serials t') <> None).
Proof.
  induction serials as [|serial serials IH]; intros rs rest ts t0 w Hnet Hlen Hall.
  - destruct rs; [|discriminate Hlen]. cbn [app] in Hnet.
    exists t0, w. cbn [fetch_each combine filter map].
    rewrite app_nil_r. repeat split; try assumption.
    + intros s [[] | H]; exact H.
    + intros s [(r & [] & _) | H]; exact H.
  - destruct rs as [|r rs]; [discriminate Hlen|].
    cbn [List.length] in Hlen. injection Hlen as Hlen.
    inversion Hall as [|r' rs' [H429 H401] Hall']; subst.
    cbn [app] in Hnet. cbn [fetch_each].
    erewrite bind_ok by reflexivity. cbv beta iota.
    destruct (fetch_device_info_plain fuel serial ts
                (emit (EPrint ("INFO: Fetching data for " ++ serial ++ " ...")) w)
                r (rs ++ rest)%list Hnet H429 H401)
      as (w1 & Hrun & Hn1 & _).
    erewrite bind_ok by exact Hrun. cbv beta iota.
    set (data := if ok r then body r else None).
    assert (Hstep : forall t1,
               (forall s, s = serial \/ assoc s (results t0) <> None ->
                          assoc s (results t1) <> None) ->
               exists t' w',
                 fetch_each (S fuel) serials ts t1 w1 = (Ok (ts, t'), w')
                 /\ api_net w' = rest
                 /\ not_found_serials t' =
                    (not_found_serials t1
                       ++ map fst (filter (fun sr => status_code (snd sr) =? 404)
                                          (combine serials rs)))%list
                 /\ (forall s, In s (serial :: serials) \/ assoc s (results t0) <> None ->
                               assoc s (results t') <> None)
                 /\ (forall s,
                        (exists r0, In (s, r0) (combine serials rs)
                                    /\ status_code r0 <> 404
                                    /\ Spec.item_error r0 <> None)
                        \/ assoc s (error_serials t1) <> None ->
                        assoc s (error_serials t') <> None)).
    { intros t1 Hres.
      destruct (IH rs rest ts t1 w1 Hn1 Hlen Hall')
        as (t' & w' & Hrun' & Hn' & Hnf & Hr & He).
      exists t', w'. repeat split; try assumption.
      intros s [[<- | Hin] | Hold]; apply Hr; auto. }
    assert (Hres : forall s, s = serial \/ assoc s (results t0) <> None ->
                             assoc s (dict_set serial data (results t0)) <> None).
    { intros s [-> | Hold].
      - rewrite assoc_dict_set_same. discriminate.
      - now apply assoc_dict_set_keeps. }
    cbn [combine filter snd].
    destruct (item_error_cases r)
      as [Herr | [(E404 & Herr) | (N404 & msg & Herr & Hnf & Hne)]]; rewrite Herr.
    + destruct (Hstep (mkTally (dict_set serial data (results t0))
                               (not_found_serials t0) (error_serials t0)) Hres)
        as (t' & w' & Hrun' & Hn' & Hnf' & Hr & He).
      exists t', w'. cbn [not_found_serials error_serials] in *.
      destruct (Z.eqb_spec (status_code r) 404) as [E|_].
      { unfold Spec.item_error in Herr. rewrite E in Herr. discriminate Herr. }
      repeat split; try assumption.
      intros s [(r0 & [Heq | Hin] & Hs & Hi) | Hold]; apply He.
      * inversion Heq; subst. now elim Hi.
      * left. eauto.
      * right. exact Hold.
    + cbn [str_eqb String.eqb Ascii.eqb Bool.eqb].
      destruct (Hstep (mkTally (dict_set serial data (results t0))
                               (not_found_serials t0 ++ [serial])
                               (error_serials t0)) Hres)
        as (t' & w' & Hrun' & Hn' & Hnf' & Hr & He).
      exists t', w'. cbn [not_found_serials error_serials] in *.
      rewrite E404. cbn [Z.eqb Pos.eqb map fst].
      repeat split; try assumption.
      * rewrite Hnf', <- app_assoc. reflexivity.
      * intros s [(r0 & [Heq | Hin] & Hs & Hi) | Hold]; apply He.
        -- inversion Heq; subst. now elim Hs.
        -- left. eauto.
        -- right. exact Hold.
    + rewrite Hnf, Hne. cbn [negb].
      erewrite bind_ok by reflexivity. cbv beta iota.
      destruct (IH rs rest ts
                   (mkTally (dict_set serial data (results t0))
                            (not_found_serials t0)
                            (dict_set serial msg (error_serials t0)))
                   (emit (EPrint ("ERROR for " ++ serial ++ ": " ++ msg)) w1)
                   Hn1 Hlen Hall')
        as (t' & w' & Hrun' & Hn' & Hnf' & Hr & He).
      exists t', w'. cbn [not_found_serials error_serials results] in *.
      destruct (Z.eqb_spec (status_code r) 404) as [E|_]; [contradiction|].
      repeat split; try assumption.
      * intros s [[<- | Hin] | Hold]; apply Hr; auto.
      * intros s [(r0 & [Heq | Hin] & Hs & Hi) | Hold]; apply He.
        -- inversion Heq; subst. right. rewrite assoc_dict_set_same. discriminate.
        -- left. eauto.
        -- right. now apply assoc_dict_set_keeps.
Qed.

(** X14. When the API answers every item with something other than 429
    and 401, the loop of [main] runs to its end with one request per
    serial number, whatever the answers are: no item error stops the
    batch. Every serial number has an entry in the results; the serial
    numbers answered 404 are the not-found list, in the order given; every
    other serial number whose answer was an error has an entry in the error
    dict. *)
Theorem batch_survives_item_errors
        (fuel : nat) (serials : list string) (rs rest : list response)
        (ts : token_state) (w : World) :
  api_net w = (rs ++ rest)%list ->
  List.length rs = List.length serials ->
  Forall (fun r => status_code r <> 429 /\ status_code r <> 401) rs ->
  exists t w',
    fetch_each (S fuel) serials ts (mkTally [] [] []) w = (Ok (ts, t), w')
    /\ api_net w' = rest
    /\ not_found_serials t =
       map fst (filter (fun sr => status_code (snd sr) =? 404) (combine serials rs))
    /\ (forall s, In s serials -> assoc s (results t) <> None)
    /\ (forall s r, In (s, r) (combine serials rs) ->
                    status_code r <> 404 -> Spec.item_error r <> None ->
                    assoc s (error_serials t) <> None).
Proof.
  intros Hnet Hlen Hall.
  destruct (fetch_each_plain fuel serials rs rest ts (mkTally [] [] []) w Hnet Hlen Hall)
    as (t & w' & Hrun & Hn & Hnf & Hr & He).
  exists t, w'. repeat split; try assumption.
  - intros s Hin. apply Hr. now left.
  - intros s r Hin Hs Hi. apply He. left. eauto.
Qed.

(** The cached path of [get_access_token_and_scope]. *)
Lemma acquire_cached
      (cfg : AxM_OAuth.Config) (w : World) (enc : ciphertext) (raw : plaintext)
      (d : list (string * json)) (tok : json) (expires_at : Z) :
  AxM_OAuth._load_config w = (Ok cfg, w) ->
  cache_file w = Some enc ->
  fernet_key_ok (AxM_OAuth.FERNET_KEY cfg) = true ->
  fernet_decrypt (AxM_OAuth.FERNET_KEY cfg) enc = Some raw ->
  json_loads raw = Some (JDict d) ->
  assoc "access_token" d = Some tok ->
  assoc "client_id" d = Some (JStr (AxM_OAuth.CLIENT_ID cfg)) ->
  assoc "scope" d = Some (JStr (AxM_OAuth.SCOPE cfg)) ->
  assoc "expires_at" d = Some (JNum expires_at) ->
  clock w < expires_at ->
  AxM_OAuth.get_access_token_and_scope w =
  (Ok (tok, JStr (AxM_OAuth.SCOPE cfg)),
   emit (EPrint ("INFO: Using existing cached token ("
                   ++ string_of_Z (expires_at - clock w)
                   ++ " seconds until expiry).")) w).
Proof.
  intros Hcfg Hfile Hkey Hdec Hjson Htok Hcid Hscope Hexp Hnow.
  unfold AxM_OAuth.get_access_token_and_scope.
  erewrite bind_ok by exact Hcfg.
  erewrite bind_ok by (eapply load_cached_token_valid; eassumption).
  assert (Htruthy : truthy (JDict d) = true).
  { destruct d; [discriminate Htok | reflexivity]. }
  unfold AxM_OAuth.if_value. rewrite Htruthy.
  erewrite bind_ok by (unfold Dyn.getitem; rewrite Hexp; reflexivity).
  erewrite bind_ok by reflexivity.
  erewrite bind_ok by reflexivity.
  erewrite bind_ok by reflexivity.
  erewrite bind_ok by (unfold Dyn.getitem; rewrite Htok; reflexivity).
  erewrite bind_ok by (unfold Dyn.getitem; rewrite Hscope; reflexivity).
  reflexivity.
Qed.

(** X15. A forced refresh deletes the cache file first, so the token is
    acquired as from a world without cache. But when the file cannot be
    deleted the script only warns: a record that is still valid is then
    read back, and the "refreshed" token is the cached one, obtained
    without any request. *)
Theorem forced_refresh_depends_on_deleting_the_cache
        (cfg : AxM_OAuth.Config) (w : World) (enc : ciphertext) :
  cache_file w = Some enc ->
  (remove_fails w = false ->
   get_token_and_base_url true w =
   get_token_and_base_url
     false
     (emit (EPrint "INFO: Deleted cached token file to force regeneration.")
           (emit (ERemove AxM_OAuth.CACHE_FILE) (set_cache_file None w))))
  /\ (forall raw d tok expires_at,
         remove_fails w = true ->
         AxM_OAuth._load_config w = (Ok cfg, w) ->
         fernet_key_ok (AxM_OAuth.FERNET_KEY cfg) = true ->
         fernet_decrypt (AxM_OAuth.FERNET_KEY cfg) enc = Some raw ->
         json_loads raw = Some (JDict d) ->
         assoc "access_token" d = Some tok ->
         assoc "client_id" d = Some (JStr (AxM_OAuth.CLIENT_ID cfg)) ->
         assoc "scope" d = Some (JStr (AxM_OAuth.SCOPE cfg)) ->
         assoc "expires_at" d = Some (JNum expires_at) ->
         clock w < expires_at ->
         contains "business" (lower (AxM_OAuth.SCOPE cfg)) = true ->
         exists url,
           get_token_and_base_url true w =
           (Ok (tok, url),
            emit (EPrint ("INFO: Using existing cached token ("
                            ++ string_of_Z (expires_at - clock w)
                            ++ " seconds until expiry)."))
                 (emit (EPrint "WARN: Could not delete token cache; AxM_OAuth will handle it.")
                       w))).
Proof.
  intros Hfile. split.
  - intros Hrm. unfold get_token_and_base_url.
    erewrite bind_ok by (unfold AxM_OAuth.cache_exists; rewrite Hfile; reflexivity).
    cbv beta iota. cbn [andb].
    erewrite bind_ok.
    2:{ apply try_ok. erewrite bind_ok; [reflexivity|].
        unfold AxM_OAuth.remove_cache. rewrite Hrm, Hfile. reflexivity. }
    cbv beta iota.
    erewrite (bind_ok AxM_OAuth.cache_exists) by reflexivity.
    cbv beta iota. cbn [andb].
    erewrite (bind_ok (ret tt)) by reflexivity. reflexivity.
  - intros raw d tok expires_at Hrm Hcfg Hkey Hdec Hjson Htok Hcid Hscope Hexp Hnow Hbiz.
    unfold get_token_and_base_url.
    erewrite bind_ok by (unfold AxM_OAuth.cache_exists; rewrite Hfile; reflexivity).
    cbv beta iota. cbn [andb].
    erewrite bind_ok.
    2:{ eapply eq_trans.
        - eapply try_caught.
          + erewrite bind_raise; [reflexivity|].
            unfold AxM_OAuth.remove_cache. rewrite Hrm. reflexivity.
          + reflexivity.
        - reflexivity. }
    cbv beta iota.
    erewrite bind_ok.
    2:{ eapply (acquire_cached cfg _ enc raw d tok expires_at); try eassumption.
        apply (load_config_environ cfg w); [reflexivity | exact Hcfg]. }
    cbv beta iota.
    erewrite bind_ok by reflexivity. cbv beta iota. rewrite Hbiz.
    destruct (contains "school" (lower (AxM_OAuth.SCOPE cfg))); eexists; reflexivity.
Qed.

End DeviceInfoMore.

(* ===================================================================== *)
(** * Flattening to CSV rows *)
(* ===================================================================== *)

Section CsvFacts.
Context {L : Libs}.
Import AxM_GetDeviceInfo_FromList.

Lemma insert_key_in (k x : string) (l : list string) :
  In x (insert_key k l) <-> x = k \/ In x l.
Proof.
  induction l as [|y l IH]; cbn [insert_key].
  - cbn. intuition.
  - destruct (String.compare k y) eqn:E.
    + apply String.compare_eq_iff in E. subst y. cbn. intuition.
    + cbn. intuition.
    + cbn [In]. rewrite IH. intuition.
Qed.

Lemma sorted_set_in (x : string) (l : list string) :
  In x (sorted_set l) <-> In x l.
Proof.
  induction l as [|k l IH]; cbn [sorted_set fold_right]; [reflexivity|].
  fold (sorted_set l). rewrite insert_key_in, IH. cbn. intuition.
Qed.

Lemma insert_key_hd (a k : string) (l : list string) :
  HdRel Spec.str_lt a l -> Spec.str_lt a k -> HdRel Spec.str_lt a (insert_key k l).
Proof.
  intros Hl Hk. destruct l as [|y l]; cbn [insert_key]; [now constructor|].
  inversion Hl; subst.
  destruct (String.compare k y); now constructor.
Qed.

Lemma insert_key_sorted (k : string) (l : list string) :
  Sorted Spec.str_lt l -> Sorted Spec.str_lt (insert_key k l).
Proof.
  induction l as [|y l IH]; intros Hs; cbn [insert_key].
  - repeat constructor.
  - inversion Hs as [|y' l' Hl Hhd]; subst.
    destruct (String.compare k y) eqn:E.
    + exact Hs.
    + constructor; [exact Hs | now constructor].
    + constructor; [now apply IH|].
      apply insert_key_hd; [exact Hhd|].
      unfold Spec.str_lt. rewrite String.compare_antisym, E. reflexivity.
Qed.

Lemma sorted_set_sorted (l : list string) : Sorted Spec.str_lt (sorted_set l).
Proof.
  induction l as [|k l IH]; cbn [sorted_set fold_right]; [constructor|].
  now apply insert_key_sorted.
Qed.

Lemma dict_set_keys {A : Type} (k x : string) (v : A) (d : list (string * A)) :
  In x (map fst (dict_set k v d)) <-> x = k \/ In x (map fst d).
Proof.
  induction d as [|[k' v'] d IH]; cbn [dict_set map fst In].
  - intuition.
  - destruct (str_eqb k k') eqn:E; cbn [map fst In].
    + apply String.eqb_eq in E. subst k'. intuition.
    + rewrite IH. intuition.
Qed.

Lemma assoc_dict_set_other {A : Type} (k k' : string) (v : A) (d : list (string * A)) :
  k <> k' -> assoc k (dict_set k' v d) = assoc k d.
Proof.
  intros Hne. induction d as [|[k0 v0] d IH]; cbn [dict_set assoc].
  - unfold str_eqb. destruct (String.eqb_spec k k'); [contradiction | reflexivity].
  - destruct (str_eqb k' k0) eqn:E'; cbn [assoc].
    + apply String.eqb_eq in E'. subst k0.
      unfold str_eqb. destruct (String.eqb_spec k k'); [contradiction | reflexivity].
    + destruct (str_eqb k k0); [reflexivity | exact IH].
Qed.

Lemma get_default_inv (v : json) (k : string) (x : json) (w w' : World)
      (o : outcome json) :
  Dyn.get_default v k x w = (o, w') ->
  w' = w
  /\ ((exists d, v = JDict d
                 /\ o = Ok (match assoc k d with Some y => y | None => x end))
      \/ (is_dict v = false /\ o = Raise AttributeError)).
Proof.
  destruct v; cbn; intros H; inversion H; subst; split; try reflexivity;
    try (right; split; reflexivity).
  left. eauto.
Qed.

(** What the cell loop does to a row. *)
Lemma fill_row_inv (attrs : json) (keys : list string) :
  forall (row row' : list (string * json)) (w w' : World),
    fill_row attrs keys row w = (Ok row', w') ->
    w' = w
    /\ (forall x, In x (map fst row') <-> In x (map fst row) \/ In x keys)
    /\ (forall x, ~ In x keys -> assoc x row' = assoc x row)
    /\ (forall x a, In x keys -> attrs = JDict a ->
                    assoc x row' =
                    Some (csv_value (match assoc x a with
                                     | Some v => v
                                     | None => JStr ""
                                     end))).
Proof.
  induction keys as [|k keys IH]; intros row row' w w' H.
  - inversion H; subst. split; [reflexivity|]. split; [|split].
    + intros x. cbn [In]. tauto.
    + reflexivity.
    + intros x a [].
  - cbn [fill_row] in H.
    apply bind_inv in H as [(v & w1 & Hg & H) | [(e & Hg & He) | (Hg & Hd)]];
      try discriminate.
    apply get_default_inv in Hg as (-> & [(a & -> & Hv) | (_ & Hv)]); [|discriminate].
    inversion Hv; subst v; clear Hv.
    apply IH in H as (-> & Hkeys & Hout & Hin).
    split; [reflexivity|]. split; [|split].
    + intros x. rewrite Hkeys, dict_set_keys. cbn [In]. intuition.
    + intros x Hx. rewrite Hout by (intros Hc; apply Hx; now right).
      apply assoc_dict_set_other. intros ->. apply Hx. now left.
    + intros x a' [<- | Hx] Ha; inversion Ha; subst a'.
      * destruct (in_dec String.string_dec k keys) as [Hk | Hk].
        -- now apply (Hin k a Hk).
        -- rewrite Hout by exact Hk. apply assoc_dict_set_same.
      * now apply (Hin x a Hx).
Qed.

(** The cell loop raises only when there are cells to fill and the
    attributes are not a dict. *)
Lemma fill_row_ok (a : list (string * json)) (keys : list string) :
  forall (row : list (string * json)) (w : World),
    exists row', fill_row (JDict a) keys row w = (Ok row', w).
Proof.
  induction keys as [|k keys IH]; intros row w; cbn [fill_row].
  - eexists. reflexivity.
  - erewrite bind_ok by reflexivity. apply IH.
Qed.

Lemma keys_inv (v : json) (w w' : World) (o : outcome (list string)) :
  Dyn.keys v w = (o, w') ->
  w' = w
  /\ ((exists d, v = JDict d /\ o = Ok (map fst d))
      \/ (is_dict v = false /\ o = Raise AttributeError)).
Proof.
  destruct v; cbn; intros H; inversion H; subst; split; try reflexivity;
    try (right; split; reflexivity).
  left. eauto.
Qed.

(** The key loop either reads every device or raises [AttributeError]. *)
Lemma collect_attribute_keys_inv (devices : list json) :
  forall (w w' : World) (o : outcome (list string)),
    collect_attribute_keys devices w = (o, w') ->
    w' = w
    /\ ((exists names,
            o = Ok names
            /\ Forall Spec.readable devices
            /\ (forall dd a k, In (JDict dd) devices ->
                               Spec.attributes_of dd = JDict a ->
                               In k (map fst a) -> In k names))
        \/ (o = Raise AttributeError /\ ~ Forall Spec.readable devices)).
Proof.
  induction devices as [|d devices IH]; intros w w' o H.
  - inversion H; subst. split; [reflexivity|]. left. exists [].
    repeat split; [constructor|]. intros dd a k [].
  - cbn [collect_attribute_keys] in H.
    apply bind_inv in H as [(attrs & w1 & Hg & H) | [(e & Hg & ->) | (Hg & ->)]];
      apply get_default_inv in Hg as (-> & [(dd & -> & Hv) | (Hnd & Hv)]);
      try discriminate.
    2:{ inversion Hv; subst. split; [reflexivity|]. right. split; [reflexivity|].
        intros Hall. inversion Hall as [|x l (dd & a & Hd & _) _]; subst.
        discriminate Hnd. }
    inversion Hv; subst attrs; clear Hv. fold (Spec.attributes_of dd) in H.
    apply bind_inv in H as [(names & w2 & Hk & H) | [(e & Hk & ->) | (Hk & ->)]];
      apply keys_inv in Hk as (-> & [(a & Ha & Hv) | (Hnd & Hv)]);
      try discriminate.
    2:{ inversion Hv; subst. split; [reflexivity|]. right. split; [reflexivity|].
        intros Hall. inversion Hall as [|x l (dd' & a & Hd & Ha) _]; subst.
        inversion Hd; subst dd'. rewrite Ha in Hnd. discriminate Hnd. }
    inversion Hv; subst names; clear Hv.
    apply bind_inv in H as [(others & w3 & Hc & H) | [(e & Hc & ->) | (Hc & ->)]];
      apply IH in Hc as (-> & [(names & Ho & Hall & Hin) | (Ho & Hnot)]);
      try discriminate.
    + inversion Ho; subst names; clear Ho. inversion H; subst.
      split; [reflexivity|]. left. eexists. split; [reflexivity|]. split.
      * constructor; [exists dd, a; auto | exact Hall].
      * intros dd' a' k [Heq | Hd] Ha' Hk; apply in_or_app.
        -- inversion Heq; subst dd'. rewrite Ha in Ha'. inversion Ha'; subst a'.
           now left.
        -- right. eapply Hin; eassumption.
    + inversion Ho; subst e. split; [reflexivity|]. right. split; [reflexivity|].
      intros Hall. inversion Hall; subst. contradiction.
Qed.

Lemma flatten_rows_inv (keys : list string) (devices : list json) :
  forall (rows : list (list (string * json))) (w w' : World),
    AxM_OrgDevices_To_CSV.flatten_rows devices keys w = (Ok rows, w') ->
    w' = w
    /\ Forall2 (fun d row =>
                  (forall x, In x (map fst row) <-> In x ("id" :: "type" :: keys))
                  /\ (forall k, In k keys -> Spec.readable d ->
                                assoc k row = Some (Spec.cell d k)))
               devices rows.
Proof.
  induction devices as [|d devices IH]; intros rows w w' H.
  - inversion H; subst. split; [reflexivity | constructor].
  - cbn [AxM_OrgDevices_To_CSV.flatten_rows] in H.
    apply bind_inv in H as [(id & w1 & Hg & H) | [(e & Hg & He) | (Hg & Hd)]];
      try discriminate.
    apply get_default_inv in Hg as (-> & [(dd & -> & Hv) | (_ & Hv)]); [|discriminate].
    inversion Hv; subst id; clear Hv.
    apply bind_inv in H as [(ty & w1 & Hg & H) | [(e & Hg & He) | (Hg & Hd)]];
      try discriminate.
    apply get_default_inv in Hg as (-> & _).
    apply bind_inv in H as [(attrs & w1 & Hg & H) | [(e & Hg & He) | (Hg & Hd)]];
      try discriminate.
    apply get_default_inv in Hg as (-> & [(dd' & Hdd & Hv) | (_ & Hv)]); [|discriminate].
    inversion Hdd; subst dd'. inversion Hv; subst attrs; clear Hv Hdd.
    fold (Spec.attributes_of dd) in H.
    apply bind_inv in H as [(row & w1 & Hf & H) | [(e & Hf & He) | (Hf & Hd)]];
      try discriminate.
    apply fill_row_inv in Hf as (-> & Hkeys & _ & Hcell).
    apply bind_inv in H as [(others & w1 & Hr & H) | [(e & Hr & He) | (Hr & Hd)]];
      try discriminate.
    apply IH in Hr as (-> & Hall). inversion H; subst.
    split; [reflexivity|]. constructor; [|exact Hall]. split.
    + intros x. rewrite Hkeys. cbn [map fst In]. tauto.
    + intros k Hk (dd' & a & Hd & Ha). inversion Hd; subst dd'.
      rewrite (Hcell k a Hk Ha). unfold Spec.cell. rewrite Ha. reflexivity.
Qed.

Lemma flatten_rows_ok (keys : list string) (devices : list json) (w : World) :
  Forall Spec.readable devices ->
  exists rows, AxM_OrgDevices_To_CSV.flatten_rows devices keys w = (Ok rows, w).
Proof.
  induction 1 as [|d devices (dd & a & -> & Ha) _ (rows & IH)];
    cbn [AxM_OrgDevices_To_CSV.flatten_rows].
  - eexists. reflexivity.
  - erewrite bind_ok by reflexivity. cbv beta iota.
    erewrite bind_ok by reflexivity. cbv beta iota.
    erewrite bind_ok by reflexivity. cbv beta iota.
    fold (Spec.attributes_of dd). rewrite Ha.
    destruct (fill_row_ok a keys
                [("id", match assoc "id" dd with Some y => y | None => JStr "" end);
                 ("type", match assoc "type" dd with Some y => y | None => JStr "" end)]
                w) as (row & Hrow).
    erewrite bind_ok by exact Hrow. cbv beta iota.
    erewrite bind_ok by exact IH. eexists. reflexivity.
Qed.

(** X16. When [flatten_devices] returns, it has changed nothing and made
    one row per device. The header is [id], [type] and then the attribute
    names, strictly ascending (so without repetition) and covering every
    attribute of every device; and the keys of every row are exactly the
    names in the header, as [csv.DictWriter] requires. *)
Theorem flatten_devices_header_matches_rows
        (devices : list json) (w w' : World)
        (fieldnames : list string) (rows : list (list (string * json))) :
  AxM_OrgDevices_To_CSV.flatten_devices devices w = (Ok (fieldnames, rows), w') ->
  w' = w
  /\ List.length rows = List.length devices
  /\ (exists keys,
         fieldnames = "id" :: "type" :: keys
         /\ Sorted Spec.str_lt keys
         /\ (forall dd a k, In (JDict dd) devices ->
                            Spec.attributes_of dd = JDict a ->
                            In k (map fst a) -> In k keys))
  /\ Forall (fun row => forall x, In x (map fst row) <-> In x fieldnames) rows.
Proof.
  unfold AxM_OrgDevices_To_CSV.flatten_devices. intros H.
  apply bind_inv in H as [(names & w1 & Hc & H) | [(e & Hc & He) | (Hc & Hd)]];
    try discriminate.
  apply collect_attribute_keys_inv in Hc as (-> & [(names' & Ho & _ & Hin) | (Ho & _)]);
    [|discriminate].
  inversion Ho; subst names'; clear Ho.
  apply bind_inv in H as [(rows' & w1 & Hr & H) | [(e & Hr & He) | (Hr & Hd)]];
    try discriminate.
  apply flatten_rows_inv in Hr as (-> & Hall). inversion H; subst.
  split; [reflexivity|]. split; [|split].
  - symmetry. eapply Forall2_length. exact Hall.
  - exists (sorted_set names). split; [reflexivity|]. split.
    + apply sorted_set_sorted.
    + intros dd a k Hd Ha Hk. apply sorted_set_in. eapply Hin; eassumption.
  - clear Hin. induction Hall as [|d row ds rs [Hkeys _] _ IH]; constructor; auto.
Qed.


Lemma flatten_devices_needs_readable_devices_aux (devices : list json) (w : World) :
  (Forall Spec.readable devices ->
   exists fieldnames rows,
     AxM_OrgDevices_To_CSV.flatten_devices devices w = (Ok (fieldnames, rows), w))
  /\ (~ Forall Spec.readable devices ->
      AxM_OrgDevices_To_CSV.flatten_devices devices w = (Raise AttributeError, w)).
Proof.
  unfold AxM_OrgDevices_To_CSV.flatten_devices.
  destruct (collect_attribute_keys devices w) as [o w1] eqn:Hc.
  pose proof (collect_attribute_keys_inv devices w w1 o Hc)
    as (-> & [(names & -> & Hread & _) | (-> & Hnot)]).
  - split; [|intros Hn; contradiction].
    intros _. erewrite bind_ok by exact Hc. cbv beta iota.
    destruct (flatten_rows_ok (sorted_set names) devices w Hread) as (rows & Hrows).
    erewrite bind_ok by exact Hrows. eexists. eexists. reflexivity.
  - split; [intros Hy; contradiction|].
    intros _. erewrite bind_raise by exact Hc. reflexivity.
Qed.

(** X18. [flatten_devices] succeeds exactly on readable input: when every
    device is a dict whose [attributes] are absent, falsy or a dict, it
    returns; when some device is not, it raises [AttributeError]. Either
    way the world is as before. *)
Theorem flatten_devices_needs_readable_devices (devices : list json) (w : World) :
  (Forall Spec.readable devices ->
   exists fieldnames rows,
     AxM_OrgDevices_To_CSV.flatten_devices devices w = (Ok (fieldnames, rows), w))
  /\ (~ Forall Spec.readable devices ->
      AxM_OrgDevices_To_CSV.flatten_devices devices w = (Raise AttributeError, w)).
Proof. exact (flatten_devices_needs_readable_devices_aux devices w). Qed.

Lemma select_devices_inv (results : list (string * option json)) :
  forall (devs : list (string * json)) (w w' : World),
    select_devices results w = (Ok devs, w') ->
    w' = w /\ (List.length devs <= List.length results)%nat.
Proof.
  induction results as [|[serial payload] results IH]; intros devs w w' H.
  - inversion H; subst. auto.
  - cbn [select_devices] in H.
    apply bind_inv in H as [(kept & w1 & Hk & H) | [(e & Hk & He) | (Hk & Hd)]];
      try discriminate.
    assert (Hw1 : w1 = w).
    { destruct payload as [p|]; [|now inversion Hk].
      destruct (truthy p); [|now inversion Hk].
      apply bind_inv in Hk as [(dv & w2 & Hg & Hk) | [(e & Hg & He) | (Hg & Hd)]];
        try discriminate.
      apply get_default_inv in Hg as (-> & _).
      destruct (truthy dv); [|now inversion Hk].
      apply bind_inv in Hk as [(dev & w3 & Hi & Hk) | [(e & Hi & He) | (Hi & Hd)]];
        try discriminate.
      inversion Hk; subst.
      destruct p; cbn in Hi; try discriminate.
      unfold of_option in Hi. destruct (assoc "data" d); now inversion Hi. }
    subst w1.
    apply bind_inv in H as [(others & w2 & Hs & H) | [(e & Hs & He) | (Hs & Hd)]];
      try discriminate.
    apply IH in Hs as (-> & Hlen). inversion H; subst.
    split; [reflexivity|]. destruct kept; cbn [List.length]; lia.
Qed.

Lemma select_devices_none (results : list (string * option json)) (w : World) :
  Forall Spec.no_payload results -> select_devices results w = (Ok [], w).
Proof.
  induction 1 as [|[serial payload] results Hno _ IH]; [reflexivity|].
  cbn [select_devices]. unfold Spec.no_payload in Hno. cbn [snd] in Hno.
  erewrite bind_ok with (a := None) (w1 := w).
  - erewrite bind_ok by exact IH. reflexivity.
  - destruct payload as [p|]; [rewrite Hno|]; reflexivity.
Qed.

Lemma build_rows_inv (keys : list string) (devs : list (string * json)) :
  forall (rows : list (list (string * json))) (w w' : World),
    build_rows devs keys w = (Ok rows, w') ->
    w' = w
    /\ Forall2 (fun (sd : string * json) row =>
                  forall x, In x (map fst row)
                            <-> In x ("inputSerial" :: "id" :: "type" :: keys))
               devs rows.
Proof.
  induction devs as [|[serial d] devs IH]; intros rows w w' H.
  - inversion H; subst. split; [reflexivity | constructor].
  - cbn [build_rows] in H.
    apply bind_inv in H as [(id & w1 & Hg & H) | [(e & Hg & He) | (Hg & Hd)]];
      try discriminate.
    apply get_default_inv in Hg as (-> & _).
    apply bind_inv in H as [(ty & w1 & Hg & H) | [(e & Hg & He) | (Hg & Hd)]];
      try discriminate.
    apply get_default_inv in Hg as (-> & _).
    apply bind_inv in H as [(attrs & w1 & Hg & H) | [(e & Hg & He) | (Hg & Hd)]];
      try discriminate.
    apply get_default_inv in Hg as (-> & _).
    apply bind_inv in H as [(row & w1 & Hf & H) | [(e & Hf & He) | (Hf & Hd)]];
      try discriminate.
    apply fill_row_inv in Hf as (-> & Hkeys & _ & _).
    apply bind_inv in H as [(others & w1 & Hr & H) | [(e & Hr & He) | (Hr & Hd)]];
      try discriminate.
    apply IH in Hr as (-> & Hall). inversion H; subst.
    split; [reflexivity|]. constructor; [|exact Hall].
    intros x. rewrite Hkeys. cbn [map fst In]. tauto.
Qed.

(** X19. [build_csv_from_results] gives neither header nor rows when no
    item brought a payload. Whenever it returns, it has changed nothing,
    has made at most one row per result, has an empty header exactly when
    it has no rows, and the keys of every row are exactly the names in the
    header. *)
Theorem build_csv_from_results_shape
        (results : list (string * option json)) (w : World) :
  (Forall Spec.no_payload results ->
   build_csv_from_results results w = (Ok ([], []), w))
  /\ (forall fieldnames rows w',
         build_csv_from_results results w = (Ok (fieldnames, rows), w') ->
         w' = w
         /\ (List.length rows <= List.length results)%nat
         /\ (rows = [] <-> fieldnames = [])
         /\ Forall (fun row => forall x, In x (map fst row) <-> In x fieldnames) rows).
Proof.
  split.
  - intros Hno. unfold build_csv_from_results.
    erewrite bind_ok by (apply select_devices_none; exact Hno). reflexivity.
  - intros fieldnames rows w' H. unfold build_csv_from_results in H.
    apply bind_inv in H as [(devs & w1 & Hs & H) | [(e & Hs & He) | (Hs & Hd)]];
      try discriminate.
    apply select_devices_inv in Hs as (-> & Hlen).
    destruct devs as [|sd devs].
    { inversion H; subst. repeat split; auto. }
    apply bind_inv in H as [(names & w1 & Hc & H) | [(e & Hc & He) | (Hc & Hd)]];
      try discriminate.
    apply collect_attribute_keys_inv in Hc as (-> & _).
    apply bind_inv in H as [(rows' & w1 & Hr & H) | [(e & Hr & He) | (Hr & Hd)]];
      try discriminate.
    apply build_rows_inv in Hr as (-> & Hall). inversion H; subst.
    split; [reflexivity|]. split; [|split].
    + rewrite <- (Forall2_length Hall). exact Hlen.
    + inversion Hall; subst. split; discriminate.
    + clear Hlen. induction Hall as [|x row ds rs Hkeys _ IH]; constructor; auto.
Qed.

(** X20. What [main] of the export script does with the listing: when the
    listing is empty it says so and writes no file; when it holds readable
    devices the flattened table goes to one file, [orgDevices.csv]. *)
Theorem export_writes_a_file_only_for_devices
        (fuel : nat) (w w1 : World) (devices : list json) :
  AxM_OrgDevices_To_CSV.fetch_all_devices
    fuel (emit (EPrint "INFO: Starting orgDevices export...") w)
  = (Ok devices, w1) ->
  (devices = [] ->
   AxM_OrgDevices_To_CSV.main fuel w =
   (Ok None, emit (EPrint "INFO: No devices returned from API. Exiting.") w1))
  /\ (devices <> [] ->
      Forall Spec.readable devices ->
      exists fieldnames rows w',
        AxM_OrgDevices_To_CSV.main fuel w = (Ok (Some (fieldnames, rows)), w')
        /\ AxM_OrgDevices_To_CSV.flatten_devices devices w1
           = (Ok (fieldnames, rows), w1)
        /\ filter Spec.is_write (Spec.added w1 w')
           = [EWrite AxM_OrgDevices_To_CSV.CSV_FILENAME]).
Proof.
  intros Hfetch. unfold AxM_OrgDevices_To_CSV.main.
  erewrite bind_ok by reflexivity. cbv beta iota.
  erewrite bind_ok by exact Hfetch. cbv beta iota.
  split.
  - intros ->. erewrite bind_ok by reflexivity. reflexivity.
  - intros Hne Hread. destruct devices as [|d devices]; [contradiction|].
    destruct (proj1 (flatten_devices_needs_readable_devices_aux (d :: devices) w1) Hread)
      as (fieldnames & rows & Hflat).
    exists fieldnames, rows. eexists. split; [|split; [exact Hflat|]].
    + erewrite bind_ok by exact Hflat. cbv beta iota.
      unfold AxM_OrgDevices_To_CSV.write_csv.
      erewrite bind_ok.
      2:{ erewrite bind_ok by reflexivity. cbv beta iota.
          erewrite bind_ok by reflexivity. reflexivity. }
      cbv beta iota.
      erewrite bind_ok by reflexivity. reflexivity.
    + erewrite added_app by (world_fields; rewrite <- !app_assoc; reflexivity).
      reflexivity.
Qed.

End CsvFacts.

(* ===================================================================== *)
(** * More of AxM_OrgDevices_To_CSV.py *)
(* ===================================================================== *)

Section OrgDevicesMore.
Context {L : Libs}.
Import AxM_OrgDevices_To_CSV.

Lemma sleeps_app (a b : list event) :
  Spec.sleeps (a ++ b) = (Spec.sleeps a ++ Spec.sleeps b)%list.
Proof. unfold Spec.sleeps. apply flat_map_app. Qed.

Lemma fetch_loop_busy (busy : list response) :
  forall (fuel : nat) (tok : json) (url : string) (devices : list json)
         (cursor : json) (flag : bool) (w : World) (rest : list response),
    api_net w = (busy ++ rest)%list ->
    Forall (fun r => status_code r = 429) busy ->
    exists w1 evs,
      fetch_loop (List.length busy + fuel) tok url devices cursor flag w =
      fetch_loop fuel tok url devices cursor flag w1
      /\ trace w1 = (trace w ++ evs)%list
      /\ Spec.sleeps evs = repeat 60 (List.length busy)
      /\ api_net w1 = rest
      /\ clock w1 = clock w + 60 * Z.of_nat (List.length busy)
      /\ cache_file w1 = cache_file w
      /\ auth_net w1 = auth_net w.
Proof.
  induction busy as [|b busy IH]; intros fuel tok url devices cursor flag w rest Hnet Hall.
  - exists w, []. cbn [List.length Nat.add repeat]. rewrite app_nil_r.
    repeat split; try assumption; try reflexivity. cbn. lia.
  - inversion Hall as [|b' busy' H429 Hall']; subst. cbn [app] in Hnet.
    cbn [List.length Nat.add].
    rewrite (fetch_loop_429 (List.length busy + fuel) tok url devices cursor flag w
                            b (busy ++ rest)%list Hnet H429).
    cbv zeta.
    match goal with
    | |- context [fetch_loop _ tok url devices cursor flag ?W] =>
        destruct (IH fuel tok url devices cursor flag W rest eq_refl Hall')
          as (w1 & evs & Hrun & Ht & Hs & Hn & Hc & Hf & Ha)
    end.
    exists w1. eexists. split; [exact Hrun|]. split; [|split; [|split; [|split; [|split]]]].
    + rewrite Ht. world_fields. rewrite <- !app_assoc. reflexivity.
    + rewrite !sleeps_app, Hs. reflexivity.
    + exact Hn.
    + rewrite Hc. world_fields. lia.
    + rewrite Hf. reflexivity.
    + rewrite Ha. reflexivity.
Qed.

(** X21. The listing loop sets no limit on 429: after any number of them
    in a row it goes on exactly where it was (same page, same token, same
    devices so far), having slept 60 seconds for each and touched neither
    the cache file nor the authorization server. *)
Theorem listing_waits_out_every_429
        (busy rest : list response) (fuel : nat) (tok : json) (url : string)
        (devices : list json) (cursor : json) (flag : bool) (w : World) :
  api_net w = (busy ++ rest)%list ->
  Forall (fun r => status_code r = 429) busy ->
  exists w1,
    fetch_loop (List.length busy + fuel) tok url devices cursor flag w =
    fetch_loop fuel tok url devices cursor flag w1
    /\ Spec.sleeps (Spec.added w w1) = repeat 60 (List.length busy)
    /\ clock w1 = clock w + 60 * Z.of_nat (List.length busy)
    /\ api_net w1 = rest
    /\ cache_file w1 = cache_file w
    /\ auth_net w1 = auth_net w.
Proof.
  intros Hnet Hall.
  destruct (fetch_loop_busy busy fuel tok url devices cursor flag w rest Hnet Hall)
    as (w1 & evs & Hrun & Ht & Hs & Hn & Hc & Hf & Ha).
  exists w1. rewrite (added_app w w1 evs Ht). auto 10.
Qed.

(** X22. Any answer that is not a success, other than a 429 and other
    than the first 401, ends the listing with a [RuntimeError]: the pages
    gathered so far are not returned. This includes a 401 that comes after
    the one refresh. *)
Theorem listing_stops_at_the_first_error
        (fuel : nat) (tok : json) (url : string) (devices : list json)
        (cursor : json) (flag : bool) (w : World)
        (r : response) (rest : list response) :
  api_net w = r :: rest ->
  status_code r <> 429 ->
  (status_code r = 401 -> flag = true) ->
  ok r = false ->
  exists msg w1,
    fetch_loop (S fuel) tok url devices cursor flag w = (Raise (RuntimeError msg), w1)
    /\ api_net w1 = rest
    /\ Spec.sleeps (Spec.added w w1) = [].
Proof.
  intros Hnet H429 H401 Hok. cbn [fetch_loop].
  erewrite bind_ok by reflexivity. cbv beta iota.
  erewrite bind_ok by (unfold request; cbn [net]; world_fields; rewrite Hnet; reflexivity).
  cbv beta iota.
  destruct (Z.eqb_spec (status_code r) 429); [contradiction|].
  assert (Hdone : forall msg,
             exists msg' w1,
               (@Raise (list json) (RuntimeError msg),
                set_net ApiServer rest
                  (emit (ERequest ApiServer "GET" url
                                  [("Authorization", "Bearer " ++ str tok);
                                   ("Accept", "application/json")]
                                  (("limit", JNum PAGE_LIMIT)
                                     :: (if truthy cursor then [("cursor", cursor)] else []))
                                  None)
                        (emit (EPrint ("INFO: Fetching orgDevices page (cursor="
                                         ++ str cursor ++ ")")) w)))
               = (Raise (RuntimeError msg'), w1)
               /\ api_net w1 = rest
               /\ Spec.sleeps (Spec.added w w1) = []).
  { intros msg. eexists. eexists. split; [reflexivity|]. split; [reflexivity|].
    erewrite added_app by (world_fields; rewrite <- !app_assoc; reflexivity).
    reflexivity. }
  destruct (Z.eqb_spec (status_code r) 401) as [E|_].
  { rewrite (H401 E). cbn [negb]. apply Hdone. }
  destruct (status_code r =? 403); [apply Hdone|].
  destruct (status_code r =? 400); [apply Hdone|].
  rewrite Hok. cbn [negb]. apply Hdone.
Qed.

End OrgDevicesMore.

(* ===================================================================== *)
(** * More of AxM_AssignUnassign_MdmServers.py *)
(* ===================================================================== *)

Section Bounded.
Context {L : Libs}.

Lemma steady_bounded {A : Type} (n : nat) (m : M A) : steady m -> Spec.bounded n m.
Proof.
  intros Hm w o w' H. destruct (Hm w o w' H) as (Hd & Hn & _).
  split; [exact Hd|]. exists 0%nat. split; [lia | exact Hn].
Qed.

Lemma bounded_le {A : Type} (n n' : nat) (m : M A) :
  (n <= n')%nat -> Spec.bounded n m -> Spec.bounded n' m.
Proof.
  intros Hle Hm w o w' H. destruct (Hm w o w' H) as (Hd & k & Hk & Hn).
  split; [exact Hd|]. exists k. split; [lia | exact Hn].
Qed.

Lemma bounded_ret {A : Type} (n : nat) (a : A) : Spec.bounded n (ret a).
Proof. apply steady_bounded, steady_ret. Qed.

Lemma bounded_raise {A : Type} (n : nat) (e : exn) : Spec.bounded n (@raise L A e).
Proof. apply steady_bounded, steady_raise. Qed.

Lemma bounded_print (n : nat) (msg : string) : Spec.bounded n (print msg).
Proof.
  intros w o w' H. inversion H; subst. split; [discriminate|].
  exists 0%nat. split; [lia | reflexivity].
Qed.

Lemma bounded_bind {A B : Type} (n1 n2 n : nat) (m : M A) (k : A -> M B) :
  Spec.bounded n1 m -> (forall a, Spec.bounded n2 (k a)) -> (n1 + n2 <= n)%nat ->
  Spec.bounded n (bind m k).
Proof.
  intros Hm Hk Hle w o w' H.
  destruct (bind_inv _ _ _ _ _ H) as [(a & w1 & H1 & H2) | [(e & H1 & ->) | (H1 & ->)]].
  - destruct (Hm _ _ _ H1) as (_ & k1 & Hk1 & Hn1).
    destruct (Hk a _ _ _ H2) as (Hd & k2 & Hk2 & Hn2).
    split; [exact Hd|]. exists (k2 + k1)%nat. split; [lia|].
    rewrite Hn2, Hn1. apply skipn_skipn.
  - destruct (Hm _ _ _ H1) as (_ & k1 & Hk1 & Hn1).
    split; [discriminate|]. exists k1. split; [lia | exact Hn1].
  - destruct (Hm _ _ _ H1) as (Hd & _). now elim Hd.
Qed.

Lemma bounded_bind0 {A B : Type} (n : nat) (m : M A) (k : A -> M B) :
  Spec.bounded 0 m -> (forall a, Spec.bounded n (k a)) -> Spec.bounded n (bind m k).
Proof. intros Hm Hk. apply (bounded_bind 0 n n); [exact Hm | exact Hk | lia]. Qed.

Lemma bounded_try {A : Type} (n : nat) (m : M A) c (h : exn -> M A) :
  Spec.bounded n m -> (forall e, Spec.bounded 0 (h e)) ->
  Spec.bounded n (try_except m c h).
Proof.
  intros Hm Hh w o w' H.
  destruct (try_inv _ _ _ _ _ _ H) as [(e & w1 & H1 & _ & H2) | (H1 & _)].
  - destruct (Hm _ _ _ H1) as (_ & k1 & Hk1 & Hn1).
    destruct (Hh e _ _ _ H2) as (Hd & k2 & Hk2 & Hn2).
    split; [exact Hd|]. exists k1. split; [exact Hk1|].
    replace k2 with 0%nat in Hn2 by lia. rewrite Hn2. exact Hn1.
  - exact (Hm _ _ _ H1).
Qed.

Lemma bounded_request_api method url hdrs params data :
  Spec.bounded 1 (request ApiServer method url hdrs params data).
Proof.
  intros w o w' H. unfold request in H. cbn [net] in H.
  destruct (api_net w) as [|r rest] eqn:E; inversion H; subst;
    (split; [discriminate|]).
  - exists 0%nat. split; [lia|]. world_fields. exact E.
  - exists 1%nat. split; [lia|]. world_fields. reflexivity.
Qed.

End Bounded.

(** Takes a computation that asks nothing of the resource API apart along
    its binds, handlers and tests. *)
Ltac bounded_walk :=
  repeat first
    [ apply bounded_ret | apply bounded_raise | apply bounded_print
    | apply steady_bounded; solve [steady_walk]
    | apply bounded_bind0; [|intros]
    | apply bounded_try; [|intros]
    | match goal with
      | |- Spec.bounded _ (if ?b then _ else _) => destruct b
      | |- Spec.bounded _ (match ?x with _ => _ end) => destruct x
      end ].

Section AssignMore.
Context {L : Libs}.
Variable BASE_DIR : string.
Import AxM_AssignUnassign_MdmServers.

Lemma steady_assign_handle_429 (r : response) : steady (handle_429 r).
Proof. unfold handle_429. steady_walk. Qed.

Lemma steady_get_token_and_activities_url (force_new : bool) :
  steady (get_token_and_activities_url force_new).
Proof. unfold get_token_and_activities_url. steady_walk. Qed.

Lemma steady_path_exists (path : string) : steady (path_exists path).
Proof. intros w o w' H. inversion H; subst. repeat split. discriminate. Qed.

Lemma steady_load_device_ids (path : string) : steady (load_device_ids path).
Proof.
  unfold load_device_ids.
  apply steady_bind; [apply steady_path_exists | intros present].
  destruct (negb present); [apply steady_raise|].
  apply steady_bind; [apply steady_read_text | intros content].
  destruct (filter _ _); [apply steady_raise | apply steady_ret].
Qed.

Lemma bounded_post_loop (fuel : nat) :
  forall (ts : token_state) (url : string) (bearer payload : json) (n : nat)
         (tried_429 tried_refresh : bool),
    (1 + flag_cost tried_429 + flag_cost tried_refresh <= fuel)%nat ->
    Spec.bounded (1 + flag_cost tried_429 + flag_cost tried_refresh)
                 (post_loop fuel ts url bearer payload n tried_429 tried_refresh).
Proof.
  induction fuel as [|fuel IH]; intros ts url bearer payload n t429 tref Hfuel; [lia|].
  cbn [post_loop].
  apply bounded_bind0; [apply bounded_print | intros _].
  apply (bounded_bind 1 (flag_cost t429 + flag_cost tref));
    [apply bounded_request_api | | lia].
  intros r.
  destruct ((status_code r =? 429) && negb t429) eqn:E429.
  { destruct t429; [rewrite andb_false_r in E429; discriminate|].
    apply bounded_bind0; [apply steady_bounded, steady_assign_handle_429 | intros _].
    apply (bounded_le (1 + flag_cost true + flag_cost tref)); [cbn; lia|].
    apply IH. cbn in *. lia. }
  destruct ((status_code r =? 401) && negb tref) eqn:E401.
  { destruct tref; [rewrite andb_false_r in E401; discriminate|].
    apply bounded_bind0; [apply bounded_print | intros _].
    apply bounded_bind0;
      [apply steady_bounded, steady_get_token_and_activities_url | intros [tok base]].
    apply (bounded_le (1 + flag_cost t429 + flag_cost true)); [cbn; lia|].
    apply IH. cbn in *. lia. }
  bounded_walk.
Qed.

Lemma bounded_status_loop (fuel : nat) :
  forall (ts : token_state) (url : string) (bearer : json) (activity_id : string)
         (tried_429 tried_refresh : bool),
    (1 + flag_cost tried_429 + flag_cost tried_refresh <= fuel)%nat ->
    Spec.bounded (1 + flag_cost tried_429 + flag_cost tried_refresh)
                 (status_loop fuel ts url bearer activity_id tried_429 tried_refresh).
Proof.
  induction fuel as [|fuel IH]; intros ts url bearer activity_id t429 tref Hfuel; [lia|].
  cbn [status_loop].
  apply bounded_bind0; [apply bounded_print | intros _].
  apply (bounded_bind 1 (flag_cost t429 + flag_cost tref));
    [apply bounded_request_api | | lia].
  intros r.
  destruct ((status_code r =? 429) && negb t429) eqn:E429.
  { destruct t429; [rewrite andb_false_r in E429; discriminate|].
    apply bounded_bind0; [apply steady_bounded, steady_assign_handle_429 | intros _].
    apply (bounded_le (1 + flag_cost true + flag_cost tref)); [cbn; lia|].
    apply IH. cbn in *. lia. }
  destruct ((status_code r =? 401) && negb tref) eqn:E401.
  { destruct tref; [rewrite andb_false_r in E401; discriminate|].
    apply bounded_bind0; [apply bounded_print | intros _].
    apply bounded_bind0;
      [apply steady_bounded, steady_get_token_and_activities_url | intros [tok base]].
    apply (bounded_le (1 + flag_cost t429 + flag_cost true)); [cbn; lia|].
    apply IH. cbn in *. lia. }
  bounded_walk.
Qed.

Lemma bounded_main_download (cur_status download_url activity_id : json) :
  Spec.bounded 0 (main_download BASE_DIR cur_status download_url activity_id).
Proof.
  unfold main_download.
  destruct (eq_str cur_status "COMPLETED" && truthy download_url).
  - apply bounded_try.
    + apply bounded_bind0; [|intros; apply bounded_ret].
      apply steady_bounded, steady_download_activity_csv.
    + intros e. bounded_walk.
  - bounded_walk.
Qed.

Lemma bounded_main_after_poll (activity_id status_resp : json) :
  Spec.bounded 0 (main_after_poll BASE_DIR activity_id status_resp).
Proof.
  unfold main_after_poll.
  do 6 (apply bounded_bind0; [apply steady_bounded; solve [steady_walk] | intros]).
  do 6 (apply bounded_bind0; [apply bounded_print | intros]).
  apply bounded_main_download.
Qed.

Lemma bounded_main_after_submit (fuel : nat) (activity_type MDM_SERVER_ID : string)
      (device_ids : list string) (ts : token_state) (resp : json) :
  (3 <= fuel)%nat ->
  Spec.bounded 3 (main_after_submit BASE_DIR fuel activity_type MDM_SERVER_ID
                                    device_ids ts resp).
Proof.
  intros Hfuel. unfold main_after_submit.
  apply bounded_bind0; [bounded_walk | intros data].
  apply bounded_bind0; [bounded_walk | intros attrs].
  do 4 (apply bounded_bind0; [apply steady_bounded; solve [steady_walk] | intros]).
  do 8 (apply bounded_bind0; [apply bounded_print | intros]).
  destruct (negb (truthy _)); [bounded_walk|].
  apply bounded_bind0; [apply bounded_print | intros].
  apply bounded_bind0; [apply steady_bounded, steady_time_sleep | intros].
  apply (bounded_bind 3 0); [| |lia].
  - apply bounded_try.
    + apply (bounded_bind 3 0); [| intros; apply bounded_ret | lia].
      apply (bounded_status_loop fuel _ _ _ _ false false). cbn. lia.
    + intros e. bounded_walk.
  - intros [[ts' status_resp]|]; [apply bounded_main_after_poll | apply bounded_ret].
Qed.

Lemma bounded_main (fuel : nat) (MODE MDM_SERVER_ID : string) :
  (3 <= fuel)%nat ->
  Spec.bounded 6 (main BASE_DIR fuel MODE MDM_SERVER_ID).
Proof.
  intros Hfuel. unfold main.
  destruct (negb _); [bounded_walk|].
  destruct (str_eqb MDM_SERVER_ID ""); [bounded_walk|].
  do 2 (apply bounded_bind0; [apply bounded_print | intros]).
  apply bounded_bind0.
  { apply bounded_try; [|intros; bounded_walk].
    apply bounded_bind0; [|intros; apply bounded_ret].
    apply steady_bounded, steady_load_device_ids. }
  intros [device_ids|]; [|apply bounded_ret].
  apply bounded_bind0; [apply bounded_print | intros].
  apply bounded_bind0.
  { apply bounded_try; [|intros; bounded_walk].
    apply bounded_bind0; [|intros; apply bounded_ret].
    apply steady_bounded, steady_get_token_and_activities_url. }
  intros [[token url]|]; [|apply bounded_ret].
  apply (bounded_bind 3 3); [| |lia].
  - apply bounded_try; [|intros; bounded_walk].
    apply (bounded_bind 3 0); [| intros; apply bounded_ret | lia].
    apply (bounded_post_loop fuel _ _ _ _ _ false false). cbn. lia.
  - intros [[ts resp]|]; [|apply bounded_ret].
    apply bounded_main_after_submit. exact Hfuel.
Qed.

(** X23. A submission sends at most three requests that are answered:
    the first, one more after a 429 and one more after a 401. With fuel
    for three rounds [post_org_device_activity] always ends, having taken
    at most three answers from the API. *)
Theorem submission_takes_at_most_three_answers
        (fuel : nat) (ts : token_state) (activity_type mdm_server_id : string)
        (device_ids : list string) (w : World) :
  (3 <= fuel)%nat ->
  let run := post_org_device_activity fuel ts activity_type mdm_server_id device_ids w in
  fst run <> Diverge
  /\ exists k, (k <= 3)%nat /\ api_net (snd run) = skipn k (api_net w).
Proof.
  intros Hfuel run. subst run. unfold post_org_device_activity.
  destruct (post_loop _ _ _ _ _ _ _ _ w) as [o w'] eqn:E. cbn [fst snd].
  refine (bounded_post_loop fuel _ _ _ _ _ false false _ w o w' E). cbn. lia.
Qed.

(** X24. A whole assignment run is bounded: with fuel for three rounds
    per call, [main] always ends and takes at most six answers from the
    API, three for the submission and three for the status check. *)
Theorem assignment_run_is_bounded
        (fuel : nat) (MODE MDM_SERVER_ID : string) (w : World) :
  (3 <= fuel)%nat ->
  let run := main BASE_DIR fuel MODE MDM_SERVER_ID w in
  fst run <> Diverge
  /\ exists k, (k <= 6)%nat /\ api_net (snd run) = skipn k (api_net w).
Proof.
  intros Hfuel run. subst run.
  destruct (main BASE_DIR fuel MODE MDM_SERVER_ID w) as [o w'] eqn:E. cbn [fst snd].
  exact (bounded_main fuel MODE MDM_SERVER_ID Hfuel w o w' E).
Qed.








End AssignMore.

(* ===================================================================== *)
(** * The further statements at concrete worlds *)
(* ===================================================================== *)

Section MoreInstances.
Import Examples.
#[local] Existing Instance Symbolic.libs.

Lemma load_config_witness :
  AxM_OAuth._load_config (world "business.api" [] [] [])
  = (Ok (cfg "business.api"), world "business.api" [] [] [])
  /\ exists msg,
       AxM_OAuth._load_config unconfigured_world
       = (Raise (RuntimeError msg), unconfigured_world)
       /\ AxM_OAuth.get_access_token_and_scope unconfigured_world
          = (Raise (RuntimeError msg), unconfigured_world).
Proof.
  split.
  - apply (proj1 (load_config_all_or_nothing (world "business.api" [] [] []))).
    reflexivity.
  - apply (proj2 (load_config_all_or_nothing unconfigured_world)).
    reflexivity.
Defined.

Lemma unreadable_cache_witness :
  let w := mkWorld 1000 (env "business.api") (Some (Symbolic.Garbage "junk"))
                   false false files 0 [] [] [] [] in
  AxM_OAuth._load_cached_token (cfg "business.api") w = (Ok None, w).
Proof.
  intros w.
  apply (proj2 (unreadable_cache_is_a_miss (cfg "business.api") w)
               (Symbolic.Garbage "junk")).
  - reflexivity.
  - reflexivity.
  - left. reflexivity.
Defined.

Lemma stale_record_witness :
  let w := set_clock 6000 (world "business.api" [] [] []) in
  AxM_OAuth._load_cached_token (cfg "business.api") w = (Ok None, w).
Proof.
  intros w.
  apply (proj1 (stale_or_foreign_record_is_a_miss
                  (cfg "business.api") w
                  (Symbolic.Sealed "fernet-key" (JDict (record "business.api" 5000)))
                  (JDict (record "business.api" 5000))
                  (record "business.api" 5000)
                  eq_refl eq_refl eq_refl eq_refl)
               (JStr "cached-token") (JStr "client-1") (JStr "business.api") 5000);
    try reflexivity.
  right. right. vm_compute. discriminate.
Defined.

Lemma token_exchange_witness :
  let w := cold_world "business.api" [token_answer] [] [] in
  AxM_OAuth._request_new_token (cfg "business.api") "assertion" w
  = (Ok (JDict [("access_token", JStr "fresh-token");
                ("expires_in", JNum 3600);
                ("token_type", JStr "Bearer")]),
     set_net AuthServer []
             (emit (Spec.token_post (cfg "business.api") "assertion") w)).
Proof.
  intros w.
  apply (token_exchange_single_answer (cfg "business.api") "assertion" w token_answer []).
  - reflexivity.
  - discriminate.
  - discriminate.
Defined.

Lemma fresh_acquisition_witness :
  let w := cold_world "business.api" [token_answer] [] [] in
  fst (AxM_OAuth.get_access_token_and_scope w)
  = Ok (JStr "fresh-token", JStr "business.api")
  /\ auth_net (snd (AxM_OAuth.get_access_token_and_scope w)) = []
  /\ exists enc, cache_file (snd (AxM_OAuth.get_access_token_and_scope w)) = Some enc.
Proof.
  intros w.
  pose (a := match fst (AxM_OAuth._build_client_assertion
                          (cfg "business.api")
                          (emit (EPrint "INFO: Cached token not found or expired. Generating new Apple token...") w))
             with
             | Ok a => a
             | _ => ""
             end).
  destruct (fresh_acquisition_exchanges_once
              (cfg "business.api") w a token_answer []
              [("access_token", JStr "fresh-token");
               ("expires_in", JNum 3600);
               ("token_type", JStr "Bearer")]
              (JStr "fresh-token") 3600)
    as (Hrun & _ & Hnet & Hfile);
    try reflexivity; try discriminate.
  rewrite Hrun. cbn [fst snd]. split; [reflexivity|]. split; [exact Hnet|].
  eexists. exact Hfile.
Defined.

Lemma second_acquisition_witness :
  let w := cold_world "business.api" [token_answer] [] [] in
  let d := [("access_token", JStr "fresh-token"); ("expires_in", JNum 3600)] in
  let w' := set_clock 2000
              (Spec.after_fresh (cfg "business.api") "assertion" []
                                (Spec.cache_record (cfg "business.api") d
                                                   (JStr "fresh-token") 4570) w) in
  fst (AxM_OAuth.get_access_token_and_scope w')
  = Ok (JStr "fresh-token", JStr "business.api").
Proof.
  intros w d w'.
  refine (f_equal fst
            (proj1 (second_acquisition_hits_cache
                      (cfg "business.api") w "assertion" [] d (JStr "fresh-token")
                      3600 2000 _ _ _ _ _ _)));
    try reflexivity; vm_compute; try split; try reflexivity; discriminate.
Defined.

Lemma private_key_witness :
  let w := world_with [] [token_answer] [] [] in
  AxM_OAuth.get_access_token_and_scope w
  = (Raise (RuntimeError "Failed to load private key"), Spec.before_exchange w)
  /\ auth_net (Spec.before_exchange w) = [token_answer].
Proof.
  intros w.
  destruct (unreadable_private_key_sends_nothing (cfg "business.api") w)
    as (Hrun & Hnet & _).
  - reflexivity.
  - reflexivity.
  - left. reflexivity.
  - split; [exact Hrun | exact Hnet].
Defined.

Lemma short_lived_token_witness :
  exists w1 enc,
    AxM_OAuth._save_cached_token
      (cfg "business.api")
      (JDict [("access_token", JStr "fresh-token"); ("expires_in", JNum 20)])
      (cold_world "business.api" [] [] []) = (Ok tt, w1)
    /\ cache_file w1 = Some enc
    /\ AxM_OAuth._load_cached_token (cfg "business.api") (set_clock 1000 w1)
       = (Ok None, set_clock 1000 w1).
Proof.
  apply (short_lived_token_is_never_reused
           (cfg "business.api")
           [("access_token", JStr "fresh-token"); ("expires_in", JNum 20)]
           (JStr "fresh-token") 20 (cold_world "business.api" [] [] []) 1000);
    try reflexivity; vm_compute; discriminate.
Defined.


Lemma fetch_device_info_witness :
  let ts := AxM_GetDeviceInfo_FromList.mkTokenState
              (JStr "cached-token") "https://api-business.apple.com/v1/orgDevices"
              false in
  let w := world "business.api" [] [answer 404; answer 200] [] in
  exists data err w',
    AxM_GetDeviceInfo_FromList.fetch_device_info 1 "SER1" ts w
    = (Ok (ts, (data, err)), w')
    /\ api_net w' = [answer 200]
    /\ Spec.requests_to ApiServer (Spec.added w w') = [Spec.device_get ts "SER1"]
    /\ data = None
    /\ (err = None <-> data <> None)
    /\ (404 = 404 -> err = Some "NOT_FOUND").
Proof.
  intros ts w.
  apply (fetch_device_info_settles_in_one_request
           0 "SER1" ts w (answer 404) [answer 200]).
  - reflexivity.
  - discriminate.
  - discriminate.
Defined.

Lemma refresh_then_retry_witness :
  let ts := AxM_GetDeviceInfo_FromList.mkTokenState
              (JStr "cached-token") "https://api-business.apple.com/v1/orgDevices"
              false in
  let ts' := AxM_GetDeviceInfo_FromList.mkTokenState
               (JStr "fresh-token") "https://api-business.apple.com/v1/orgDevices"
               true in
  let w := world "business.api" [token_answer]
                 [answer 401; answer_json 200 (device "SER1")] [] in
  exists w',
    AxM_GetDeviceInfo_FromList.fetch_device_info 2 "SER1" ts w
    = (Ok (ts', (Some (device "SER1"), None)), w')
    /\ api_net w' = [].
Proof.
  intros ts ts' w.
  pose (w3 := snd (AxM_GetDeviceInfo_FromList.get_token_and_base_url
                     true
                     (emit (EPrint Spec.REFRESH_MSG)
                           (set_net ApiServer [answer_json 200 (device "SER1")]
                                    (emit (Spec.device_get ts "SER1") w))))).
  destruct (refresh_then_retry_uses_new_token
              0 "SER1" ts w w3 (answer 401) (answer_json 200 (device "SER1")) []
              (JStr "fresh-token") "https://api-business.apple.com/v1/orgDevices")
    as (w' & Hrun & Hnet & _).
  - reflexivity.
  - reflexivity.
  - reflexivity.
  - vm_compute. reflexivity.
  - discriminate.
  - discriminate.
  - exists w'. split; [exact Hrun | exact Hnet].
Defined.

Lemma batch_witness :
  let ts := AxM_GetDeviceInfo_FromList.mkTokenState
              (JStr "cached-token") "https://api-business.apple.com/v1/orgDevices"
              false in
  let w := world "business.api" []
                 [answer 404; answer 500; answer_json 200 (device "SER3")] [] in
  exists t w',
    AxM_GetDeviceInfo_FromList.fetch_each
      1 ["SER1"; "SER2"; "SER3"] ts
      (AxM_GetDeviceInfo_FromList.mkTally [] [] []) w
    = (Ok (ts, t), w')
    /\ api_net w' = []
    /\ AxM_GetDeviceInfo_FromList.not_found_serials t = ["SER1"]
    /\ assoc "SER2" (AxM_GetDeviceInfo_FromList.error_serials t) <> None.
Proof.
  intros ts w.
  destruct (batch_survives_item_errors
              0 ["SER1"; "SER2"; "SER3"]
              [answer 404; answer 500; answer_json 200 (device "SER3")] [] ts w)
    as (t & w' & Hrun & Hnet & Hnf & _ & Herr).
  - reflexivity.
  - reflexivity.
  - repeat constructor; discriminate.
  - exists t, w'. split; [exact Hrun|]. split; [exact Hnet|]. split; [exact Hnf|].
    apply (Herr "SER2" (answer 500)).
    + right. left. reflexivity.
    + discriminate.
    + discriminate.
Defined.

Lemma forced_refresh_witness :
  AxM_GetDeviceInfo_FromList.get_token_and_base_url
    true (world "business.api" [token_answer] [] [])
  = AxM_GetDeviceInfo_FromList.get_token_and_base_url
      false
      (emit (EPrint "INFO: Deleted cached token file to force regeneration.")
            (emit (ERemove AxM_OAuth.CACHE_FILE)
                  (set_cache_file None (world "business.api" [token_answer] [] []))))
  /\ exists url,
       AxM_GetDeviceInfo_FromList.get_token_and_base_url
         true (stuck_world "business.api" [token_answer] [] [])
       = (Ok (JStr "cached-token", url),
          emit (EPrint "INFO: Using existing cached token (4000 seconds until expiry).")
               (emit (EPrint "WARN: Could not delete token cache; AxM_OAuth will handle it.")
                     (stuck_world "business.api" [token_answer] [] []))).
Proof.
  split.
  - apply (proj1 (forced_refresh_depends_on_deleting_the_cache
                    (cfg "business.api") (world "business.api" [token_answer] [] [])
                    (Symbolic.Sealed "fernet-key" (JDict (record "business.api" 5000)))
                    eq_refl)).
    reflexivity.
  - apply (proj2 (forced_refresh_depends_on_deleting_the_cache
                    (cfg "business.api") (stuck_world "business.api" [token_answer] [] [])
                    (Symbolic.Sealed "fernet-key" (JDict (record "business.api" 5000)))
                    eq_refl)
                 (JDict (record "business.api" 5000)) (record "business.api" 5000)
                 (JStr "cached-token") 5000);
      reflexivity.
Defined.

Lemma flatten_header_witness :
  exists keys,
    ["id"; "type"; "color"; "serialNumber"] = "id" :: "type" :: keys
    /\ Sorted Spec.str_lt keys.
Proof.
  destruct (flatten_devices_header_matches_rows
              [described "A" "SILVER"; device "B"]
              (world "business.api" [] [] []) (world "business.api" [] [] [])
              ["id"; "type"; "color"; "serialNumber"]
              [[("id", JStr "A"); ("type", JStr "orgDevices");
                ("color", JStr "SILVER"); ("serialNumber", JStr "A")];
               [("id", JStr "B"); ("type", JStr "orgDevices");
                ("color", JStr ""); ("serialNumber", JStr "")]]
              eq_refl)
    as (_ & _ & (keys & Hk & Hs & _) & _).
  exists keys. split; [exact Hk | exact Hs].
Defined.


Lemma unreadable_device_witness :
  AxM_OrgDevices_To_CSV.flatten_devices
    [device "A"; JStr "B"] (world "business.api" [] [] [])
  = (Raise AttributeError, world "business.api" [] [] []).
Proof.
  apply (proj2 (flatten_devices_needs_readable_devices
                  [device "A"; JStr "B"] (world "business.api" [] [] []))).
  intros H. inversion H as [|? ? _ H1]; subst.
  inversion H1 as [|? ? (dd & a & Hd & _) _]; subst. discriminate Hd.
Defined.

Lemma no_payload_witness :
  AxM_GetDeviceInfo_FromList.build_csv_from_results
    [("SER1", None); ("SER2", Some (JDict []))] (world "business.api" [] [] [])
  = (Ok ([], []), world "business.api" [] [] []).
Proof.
  apply (proj1 (build_csv_from_results_shape
                  [("SER1", None); ("SER2", Some (JDict []))]
                  (world "business.api" [] [] []))).
  repeat constructor.
Defined.

Lemma export_witness :
  let w := world "business.api" [] [page [device "A"] None] [] in
  exists fieldnames rows w',
    AxM_OrgDevices_To_CSV.main 1 w = (Ok (Some (fieldnames, rows)), w')
    /\ In (EWrite AxM_OrgDevices_To_CSV.CSV_FILENAME) (trace w').
Proof.
  intros w.
  pose (w1 := snd (AxM_OrgDevices_To_CSV.fetch_all_devices
                     1 (emit (EPrint "INFO: Starting orgDevices export...") w))).
  assert (Hfetch : AxM_OrgDevices_To_CSV.fetch_all_devices
                     1 (emit (EPrint "INFO: Starting orgDevices export...") w)
                   = (Ok [device "A"], w1)) by (vm_compute; reflexivity).
  destruct (proj2 (export_writes_a_file_only_for_devices 1 w w1 [device "A"] Hfetch))
    as (fieldnames & rows & w' & Hrun & _ & Hwrite).
  - discriminate.
  - repeat constructor. eexists. eexists. split; reflexivity.
  - exists fieldnames, rows, w'. split; [exact Hrun|].
    assert (Hin : In (EWrite AxM_OrgDevices_To_CSV.CSV_FILENAME)
                     (filter Spec.is_write (Spec.added w1 w')))
      by (rewrite Hwrite; left; reflexivity).
    apply filter_In in Hin as [Hin _]. unfold Spec.added in Hin.
    rewrite <- (firstn_skipn (List.length (trace w1)) (trace w')).
    apply in_or_app. right. exact Hin.
Defined.

Lemma listing_429_witness :
  let w := world "business.api" [] [answer 429; busy_5; page [device "A"] None] [] in
  exists w1,
    AxM_OrgDevices_To_CSV.fetch_loop
      3 (JStr "cached-token") "https://api-business.apple.com/v1/orgDevices"
      [] JNull false w
    = AxM_OrgDevices_To_CSV.fetch_loop
        1 (JStr "cached-token") "https://api-business.apple.com/v1/orgDevices"
        [] JNull false w1
    /\ Spec.sleeps (Spec.added w w1) = [60; 60]
    /\ clock w1 = 1000 + 60 * 2
    /\ api_net w1 = [page [device "A"] None]
    /\ cache_file w1 = cache_file w
    /\ auth_net w1 = auth_net w.
Proof.
  intros w.
  apply (listing_waits_out_every_429
           [answer 429; busy_5] [page [device "A"] None] 1
           (JStr "cached-token") "https://api-business.apple.com/v1/orgDevices"
           [] JNull false w).
  - reflexivity.
  - repeat constructor.
Defined.

Lemma listing_error_witness :
  let w := world "business.api" [] [answer 401; page [device "A"] None] [] in
  exists msg w1,
    AxM_OrgDevices_To_CSV.fetch_loop
      1 (JStr "fresh-token") "https://api-business.apple.com/v1/orgDevices"
      [device "Z"] JNull true w
    = (Raise (RuntimeError msg), w1)
    /\ api_net w1 = [page [device "A"] None]
    /\ Spec.sleeps (Spec.added w w1) = [].
Proof.
  intros w.
  apply (listing_stops_at_the_first_error
           0 (JStr "fresh-token") "https://api-business.apple.com/v1/orgDevices"
           [device "Z"] JNull true w (answer 401) [page [device "A"] None]).
  - reflexivity.
  - discriminate.
  - reflexivity.
  - reflexivity.
Defined.

Lemma submission_bound_witness :
  let w := world "business.api" [token_answer]
                 [busy_5; answer 401; answer_json 201 (JDict []); answer 200] [] in
  let run := AxM_AssignUnassign_MdmServers.post_org_device_activity
               3 (AxM_AssignUnassign_MdmServers.mkTokenState
                    (JStr "cached-token")
                    "https://api-business.apple.com/v1/orgDeviceActivities")
               "ASSIGN_DEVICES" "SERVER-1" ["SER1"] w in
  fst run <> Diverge
  /\ exists k, (k <= 3)%nat /\ api_net (snd run) = skipn k (api_net w).
Proof.
  intros w.
  apply (submission_takes_at_most_three_answers
           3 (AxM_AssignUnassign_MdmServers.mkTokenState
                (JStr "cached-token")
                "https://api-business.apple.com/v1/orgDeviceActivities")
           "ASSIGN_DEVICES" "SERVER-1" ["SER1"] w).
  lia.
Defined.

Lemma assignment_bound_witness :
  let w := world "business.api" []
                 [answer_json 201 (JDict [("data", JDict [("id", JStr "ACT-1")])]);
                  answer_json 200 (JDict [])] [] in
  let run := AxM_AssignUnassign_MdmServers.main "/opt/axm" 3 "ASSIGN" "SERVER-1" w in
  fst run <> Diverge
  /\ exists k, (k <= 6)%nat /\ api_net (snd run) = skipn k (api_net w).
Proof.
  intros w.
  apply (assignment_run_is_bounded "/opt/axm" 3 "ASSIGN" "SERVER-1" w).
  lia.
Defined.





End MoreInstances.

Section StrictInstances.
Import Examples.
#[local] Existing Instance Symbolic.strict_libs.

Lemma invalid_fernet_key_witness :
  AxM_OAuth.get_access_token_and_scope (strict_world [token_answer])
  = (Raise (RuntimeError "Invalid Fernet key in AXM_FERNET_KEY"),
     strict_world [token_answer])
  /\ fst (AxM_OAuth.get_access_token_and_scope (strict_cold_world [token_answer]))
     = Raise (RuntimeError "Invalid Fernet key in AXM_FERNET_KEY")
  /\ cache_file (snd (AxM_OAuth.get_access_token_and_scope
                        (strict_cold_world [token_answer]))) = None.
Proof.
  split.
  - apply (proj1 (invalid_fernet_key_is_fatal
                    (cfg "business.api") (strict_world [token_answer])
                    eq_refl eq_refl)
                 (Symbolic.Sealed "fernet-key" (JDict (record "business.api" 5000)))).
    reflexivity.
  - pose (w := strict_cold_world [token_answer]).
    pose (a := match fst (AxM_OAuth._build_client_assertion
                            (cfg "business.api")
                            (emit (EPrint "INFO: Cached token not found or expired. Generating new Apple token...") w))
               with
               | Ok a => a
               | _ => ""
               end).
    destruct (proj2 (invalid_fernet_key_is_fatal (cfg "business.api") w eq_refl eq_refl)
                    a token_answer []
                    [("access_token", JStr "fresh-token");
                     ("expires_in", JNum 3600);
                     ("token_type", JStr "Bearer")]
                    (JStr "fresh-token") 3600)
      as (Hrun & _ & Hfile);
      try reflexivity; try discriminate.
    fold w. rewrite Hrun. split; [reflexivity | exact Hfile].
Defined.

End StrictInstances.
